(** * Countdown synchronisation composable ([useCountdownSync])

    A shallow embedding of the clock-synchronisation and countdown
    estimation code of [useCountdownSync] and the properties of its
    specification.

    Timestamps are JavaScript numbers holding integer epoch values
    (seconds or milliseconds, as [Date.now()] and the sync endpoint produce
    them); they are modelled by [Z], which is exact as long as every
    value stays within 2^53 in absolute value.  The development is about
    the values of [JS.value]: [undefined], [null], [NaN] and such numbers.
    A response body can carry values of other types; the module [Dyn]
    embeds the validation over booleans and objects too, and tells what
    the code does with them.  A reactive [ref] is a field of the record
    [state]; a function that writes refs takes a state and returns the new
    one.  [Date.now()] is the argument [now] of the synchronous run that
    reads it. *)

From Stdlib Require Import ZArith List Bool Lia.
From Stdlib Require String.
Import ListNotations.

Local Open Scope Z_scope.

(** ** The fragment of JavaScript values the code computes with *)

Module JS.

(** [undefined] (a missing property), [null] (the initial content of the
    refs), [NaN], and the integer-valued finite numbers.  Strings,
    booleans, objects, fractions and the infinities are not in this
    fragment; arithmetic on [Z] is the arithmetic of the code on numbers
    within 2^53 in absolute value. *)
Inductive value : Type :=
| Undefined
| Null
| NaN
| Num (z : Z).

(** [ToNumber]: [None] stands for [NaN]. *)
Definition to_number (v : value) : option Z :=
  match v with
  | Undefined => None
  | Null => Some 0
  | NaN => None
  | Num z => Some z
  end.

(** [ToBoolean]. *)
Definition truthy (v : value) : bool :=
  match v with
  | Undefined | Null | NaN => false
  | Num z => negb (z =? 0)
  end.

Definition arith (f : Z -> Z -> Z) (a b : value) : value :=
  match to_number a, to_number b with
  | Some x, Some y => Num (f x y)
  | _, _ => NaN
  end.

(** A comparison with [NaN] on either side is [false]. *)
Definition compare (f : Z -> Z -> bool) (a b : value) : bool :=
  match to_number a, to_number b with
  | Some x, Some y => f x y
  | _, _ => false
  end.

Definition add := arith Z.add.
Definition sub := arith Z.sub.
Definition mul := arith Z.mul.
Definition lt := compare Z.ltb.
Definition le := compare Z.leb.
Definition gt := compare Z.gtb.
Definition ge := compare Z.geb.

(** [a || b] and [!a]. *)
Definition or (a b : value) : value := if truthy a then a else b.
Definition not (a : value) : bool := negb (truthy a).

(** [a ?? b]: only [null] and [undefined] give way to [b]. *)
Definition coalesce (a b : value) : value :=
  match a with
  | Undefined | Null => b
  | _ => a
  end.

(** [Number.isNaN] does not convert its argument. *)
Definition Number_isNaN (v : value) : bool :=
  match v with
  | NaN => true
  | _ => false
  end.

Definition Math_max := arith Z.max.
Definition Math_min := arith Z.min.
Definition Math_abs (a : value) : value := arith (fun x _ => Z.abs x) a a.

(** [Math.floor(a / b)] for a positive divisor: on integers the quotient
    rounded towards minus infinity. *)
Definition Math_floor_div (a b : value) : value := arith Z.div a b.

(** [Object.is], which decides whether a watcher fires. *)
Definition same (a b : value) : bool :=
  match a, b with
  | Undefined, Undefined => true
  | Null, Null => true
  | NaN, NaN => true
  | Num x, Num y => x =? y
  | _, _ => false
  end.

(** [a == b]: [NaN] equals nothing, itself included; [null] and
    [undefined] equal each other and no number. *)
Definition loose_eq (a b : value) : bool :=
  match a, b with
  | (Undefined | Null), (Undefined | Null) => true
  | Num x, Num y => x =? y
  | _, _ => false
  end.

End JS.

Import JS.

Coercion Num : Z >-> value.

Declare Scope js_scope.
Delimit Scope js_scope with js.
Notation "a + b" := (JS.add a b) : js_scope.
Notation "a - b" := (JS.sub a b) : js_scope.
Notation "a * b" := (JS.mul a b) : js_scope.
Notation "a < b" := (JS.lt a b) : js_scope.
Notation "a <= b" := (JS.le a b) : js_scope.
Notation "a > b" := (JS.gt a b) : js_scope.
Notation "a >= b" := (JS.ge a b) : js_scope.
Notation "a '|||' b" := (JS.or a b) (at level 50, left associativity) : js_scope.
Notation "'!' a" := (JS.not a) (at level 35, right associativity) : js_scope.
Notation "a '???' b" := (JS.coalesce a b) (at level 50, left associativity) : js_scope.

(** ** Constants *)

Definition MAX_TIMESTAMP_DEVIATION : Z := 300000.
Definition MS_PER_SECOND : Z := 1000.
Definition MAX_CACHE_AGE : Z := 24 * 60 * 60 * MS_PER_SECOND.
Definition MAX_FUTURE_TIME : Z := 365 * 24 * 60 * 60 * MS_PER_SECOND.
Definition SECOND_TIMESTAMP_THRESHOLD : Z := 10 ^ 12.
Definition WEAK_NETWORK_TIMEOUT : Z := 15000.
Definition RETRY_DELAY : list Z := [1000; 3000; 5000].
Definition MAX_RETRIES : Z := 3.
Definition REQUEST_DELAY_TOLERANCE : Z := 2000.

(** ** Messages

    The texts assigned to [errorMessage]; [+=] appends a fragment, so a
    message is a list of fragments. *)

Inductive text : Type :=
| InvalidTimestamp                 (* invalid timestamp (not a number or negative) *)
| EndTimeExpired (seconds : value) (* end time already expired (.. seconds) *)
| EndTimeTooFar                    (* end time more than one year away *)
| SyncCancelled                    (* sync cancelled *)
| SyncFailedRetry (isTimeout : bool) (delay : value) (attempt : Z)
                                   (* sync failed, retry in delay / 1000 seconds (attempt/MAX_RETRIES) *)
| SyncFailedUseCache               (* sync failed after MAX_RETRIES retries, using the cache *)
| AndCacheInvalid                  (* ", and the cached data is invalid" *)
| ButCacheInvalid                  (* ", but the cache is invalid too" *)
| AnomalyCorrected                 (* time anomaly detected, corrected automatically *)
| NullText.                        (* "null", when [+=] meets a null message *)

Definition message := option (list text).

(** [errorMessage.value += t]. *)
Definition append_text (m : message) (t : text) : message :=
  match m with
  | Some l => Some (l ++ [t])
  | None => Some [NullText; t]
  end.

(** ** State *)

(** The object kept under [STORAGE_KEY]. *)
Record snapshot : Type := {
  c_serverEndTime : value;
  c_serverNow : value;
  c_clientNow : value;
  c_syncedAt : value
}.

Record debug : Type := {
  d_serverEndTime : value;
  d_serverNow : value;
  d_clientNow : value;
  d_clientTimeElapsed : value;
  d_currentServerTime : value;
  d_newRemaining : value;
  d_requestDelay : value
}.

(** The refs of one [useCountdownSync] instance. *)
Record state : Type := {
  storage : option snapshot;
  serverEndTime : value;
  serverNow : value;
  clientNow : value;
  requestSendTime : value;
  isTimestampValid : bool;
  remaining : value;
  isExpired : bool;
  syncing : bool;
  errorMessage : message;
  debugInfo : option debug;
  retryCount : Z;
  isSyncDisabled : bool
}.

(** What a string gives for the four properties the code reads. *)
Definition storedString : snapshot :=
  {| c_serverEndTime := Undefined; c_serverNow := Undefined;
     c_clientNow := Undefined; c_syncedAt := Undefined |}.

(** [useStorage(STORAGE_KEY, null)] when the instance is created.  With
    the default [null] no serializer is chosen, so the entry under the
    key, if there is one, is read back as the string it is: an object
    written by an earlier page does not come back as an object.  An empty
    string is falsy, like [null]. *)
Definition fromStorage (entry : option String.string) : option snapshot :=
  match entry with
  | None => None
  | Some String.EmptyString => None
  | Some _ => Some storedString
  end.

(** The refs as [useCountdownSync] creates them; [entry] is what the
    storage holds under [STORAGE_KEY]. *)
Definition initial (entry : option String.string) : state := {|
  storage := fromStorage entry;
  serverEndTime := Null;
  serverNow := Null;
  clientNow := Null;
  requestSendTime := Null;
  isTimestampValid := true;
  remaining := 0;
  isExpired := false;
  syncing := false;
  errorMessage := None;
  debugInfo := None;
  retryCount := 0;
  isSyncDisabled := false
|}.

Definition set_storage (v : option snapshot) (s : state) : state :=
  {| storage := v; serverEndTime := serverEndTime s; serverNow := serverNow s;
     clientNow := clientNow s; requestSendTime := requestSendTime s;
     isTimestampValid := isTimestampValid s; remaining := remaining s;
     isExpired := isExpired s; syncing := syncing s;
     errorMessage := errorMessage s; debugInfo := debugInfo s;
     retryCount := retryCount s; isSyncDisabled := isSyncDisabled s |}.

Definition set_serverEndTime (v : value) (s : state) : state :=
  {| storage := storage s; serverEndTime := v; serverNow := serverNow s;
     clientNow := clientNow s; requestSendTime := requestSendTime s;
     isTimestampValid := isTimestampValid s; remaining := remaining s;
     isExpired := isExpired s; syncing := syncing s;
     errorMessage := errorMessage s; debugInfo := debugInfo s;
     retryCount := retryCount s; isSyncDisabled := isSyncDisabled s |}.

Definition set_serverNow (v : value) (s : state) : state :=
  {| storage := storage s; serverEndTime := serverEndTime s; serverNow := v;
     clientNow := clientNow s; requestSendTime := requestSendTime s;
     isTimestampValid := isTimestampValid s; remaining := remaining s;
     isExpired := isExpired s; syncing := syncing s;
     errorMessage := errorMessage s; debugInfo := debugInfo s;
     retryCount := retryCount s; isSyncDisabled := isSyncDisabled s |}.

Definition set_clientNow (v : value) (s : state) : state :=
  {| storage := storage s; serverEndTime := serverEndTime s;
     serverNow := serverNow s; clientNow := v;
     requestSendTime := requestSendTime s;
     isTimestampValid := isTimestampValid s; remaining := remaining s;
     isExpired := isExpired s; syncing := syncing s;
     errorMessage := errorMessage s; debugInfo := debugInfo s;
     retryCount := retryCount s; isSyncDisabled := isSyncDisabled s |}.

Definition set_requestSendTime (v : value) (s : state) : state :=
  {| storage := storage s; serverEndTime := serverEndTime s;
     serverNow := serverNow s; clientNow := clientNow s;
     requestSendTime := v;
     isTimestampValid := isTimestampValid s; remaining := remaining s;
     isExpired := isExpired s; syncing := syncing s;
     errorMessage := errorMessage s; debugInfo := debugInfo s;
     retryCount := retryCount s; isSyncDisabled := isSyncDisabled s |}.

Definition set_isTimestampValid (v : bool) (s : state) : state :=
  {| storage := storage s; serverEndTime := serverEndTime s;
     serverNow := serverNow s; clientNow := clientNow s;
     requestSendTime := requestSendTime s;
     isTimestampValid := v; remaining := remaining s;
     isExpired := isExpired s; syncing := syncing s;
     errorMessage := errorMessage s; debugInfo := debugInfo s;
     retryCount := retryCount s; isSyncDisabled := isSyncDisabled s |}.

Definition set_remaining (v : value) (s : state) : state :=
  {| storage := storage s; serverEndTime := serverEndTime s;
     serverNow := serverNow s; clientNow := clientNow s;
     requestSendTime := requestSendTime s;
     isTimestampValid := isTimestampValid s; remaining := v;
     isExpired := isExpired s; syncing := syncing s;
     errorMessage := errorMessage s; debugInfo := debugInfo s;
     retryCount := retryCount s; isSyncDisabled := isSyncDisabled s |}.

Definition set_isExpired (v : bool) (s : state) : state :=
  {| storage := storage s; serverEndTime := serverEndTime s;
     serverNow := serverNow s; clientNow := clientNow s;
     requestSendTime := requestSendTime s;
     isTimestampValid := isTimestampValid s; remaining := remaining s;
     isExpired := v; syncing := syncing s;
     errorMessage := errorMessage s; debugInfo := debugInfo s;
     retryCount := retryCount s; isSyncDisabled := isSyncDisabled s |}.

Definition set_syncing (v : bool) (s : state) : state :=
  {| storage := storage s; serverEndTime := serverEndTime s;
     serverNow := serverNow s; clientNow := clientNow s;
     requestSendTime := requestSendTime s;
     isTimestampValid := isTimestampValid s; remaining := remaining s;
     isExpired := isExpired s; syncing := v;
     errorMessage := errorMessage s; debugInfo := debugInfo s;
     retryCount := retryCount s; isSyncDisabled := isSyncDisabled s |}.

Definition set_errorMessage (v : message) (s : state) : state :=
  {| storage := storage s; serverEndTime := serverEndTime s;
     serverNow := serverNow s; clientNow := clientNow s;
     requestSendTime := requestSendTime s;
     isTimestampValid := isTimestampValid s; remaining := remaining s;
     isExpired := isExpired s; syncing := syncing s;
     errorMessage := v; debugInfo := debugInfo s;
     retryCount := retryCount s; isSyncDisabled := isSyncDisabled s |}.

Definition set_debugInfo (v : option debug) (s : state) : state :=
  {| storage := storage s; serverEndTime := serverEndTime s;
     serverNow := serverNow s; clientNow := clientNow s;
     requestSendTime := requestSendTime s;
     isTimestampValid := isTimestampValid s; remaining := remaining s;
     isExpired := isExpired s; syncing := syncing s;
     errorMessage := errorMessage s; debugInfo := v;
     retryCount := retryCount s; isSyncDisabled := isSyncDisabled s |}.

Definition set_retryCount (v : Z) (s : state) : state :=
  {| storage := storage s; serverEndTime := serverEndTime s;
     serverNow := serverNow s; clientNow := clientNow s;
     requestSendTime := requestSendTime s;
     isTimestampValid := isTimestampValid s; remaining := remaining s;
     isExpired := isExpired s; syncing := syncing s;
     errorMessage := errorMessage s; debugInfo := debugInfo s;
     retryCount := v; isSyncDisabled := isSyncDisabled s |}.

Definition set_isSyncDisabled (v : bool) (s : state) : state :=
  {| storage := storage s; serverEndTime := serverEndTime s;
     serverNow := serverNow s; clientNow := clientNow s;
     requestSendTime := requestSendTime s;
     isTimestampValid := isTimestampValid s; remaining := remaining s;
     isExpired := isExpired s; syncing := syncing s;
     errorMessage := errorMessage s; debugInfo := debugInfo s;
     retryCount := retryCount s; isSyncDisabled := v |}.

(** ** The synchronous functions *)

Section Functions.

Local Open Scope js_scope.

(** [normalizeTimestamp]: a value below the threshold counts seconds. *)
Definition normalizeTimestamp (timestamp : value) : value :=
  if timestamp < SECOND_TIMESTAMP_THRESHOLD
  then timestamp * MS_PER_SECOND
  else timestamp.

(** [validateTimestamps], run when the local clock reads [now]. *)
Definition validateTimestamps (now : Z) (endTime nowTime : value) (s : state)
  : bool * state :=
  if ! endTime || ! nowTime || Number_isNaN endTime || Number_isNaN nowTime
     || (endTime <= 0) || (nowTime <= 0)
  then (false, set_errorMessage (Some [InvalidTimestamp]) s)
  else
    let normalizedEnd := normalizeTimestamp endTime in
    let normalizedNow := normalizeTimestamp nowTime in
    let timeDiff := normalizedEnd - normalizedNow in
    if timeDiff < (- MAX_TIMESTAMP_DEVIATION)%Z
    then (false,
          set_errorMessage
            (Some [EndTimeExpired
                     (Math_abs (Math_floor_div timeDiff MS_PER_SECOND))]) s)
    else if timeDiff > MAX_FUTURE_TIME
    then (false, set_errorMessage (Some [EndTimeTooFar]) s)
    else if truthy (requestSendTime s)
    then
      let requestDelay := now - requestSendTime s in
      let s1 :=
        if requestDelay > REQUEST_DELAY_TOLERANCE
        then set_serverNow (normalizedNow + requestDelay) s
        else set_serverNow normalizedNow s in
      (true, set_serverEndTime normalizedEnd s1)
    else
      (true, set_serverNow normalizedNow (set_serverEndTime normalizedEnd s)).

(** [updateRemaining], the tick of the display timer. *)
Definition updateRemaining (now : Z) (s : state) : state :=
  if negb (isTimestampValid s) || ! serverEndTime s || ! serverNow s
     || ! clientNow s
  then set_isExpired true (set_remaining 0 s)
  else
    let clientTimeElapsed := now - clientNow s in
    let currentServerTime := serverNow s + clientTimeElapsed in
    let newRemaining := serverEndTime s - currentServerTime in
    let s1 :=
      set_remaining
        (Math_max 0 (Math_min (remaining s ||| newRemaining) newRemaining))
        s in
    let s2 := set_isExpired (remaining s1 <= 0) s1 in
    set_debugInfo
      (Some {| d_serverEndTime := serverEndTime s2;
               d_serverNow := serverNow s2;
               d_clientNow := clientNow s2;
               d_clientTimeElapsed := clientTimeElapsed;
               d_currentServerTime := currentServerTime;
               d_newRemaining := newRemaining;
               d_requestDelay :=
                 if truthy (requestSendTime s2)
                 then now - requestSendTime s2
                 else 0 |})
      s2.

(** [useCachedData]. *)
Definition useCachedData (now : Z) (s : state) : bool * state :=
  match storage s with
  | None => (false, s)
  | Some cached =>
    if ! c_serverEndTime cached || ! c_serverNow cached
       || ! c_clientNow cached
    then (false, s)
    else
      let cacheAge := now - c_syncedAt cached in
      if cacheAge >= MAX_CACHE_AGE
      then (false, s)
      else
        let cachedServerNow := normalizeTimestamp (c_serverNow cached) in
        let cachedServerEnd := normalizeTimestamp (c_serverEndTime cached) in
        let cacheTimeElapsed := now - c_clientNow cached in
        let currentCachedServerTime := cachedServerNow + cacheTimeElapsed in
        if cachedServerEnd - currentCachedServerTime
           < (- MAX_TIMESTAMP_DEVIATION)%Z
        then (false, s)
        else
          (true,
           set_clientNow now
             (set_serverNow cachedServerNow
                (set_serverEndTime cachedServerEnd s)))
  end.

(** The callback of [watch(serverEndTime, ...)]. *)
Definition onServerEndTimeChange (newVal oldVal : value) (s : state) : state :=
  if truthy oldVal && truthy newVal
     && (newVal > oldVal + (MS_PER_SECOND * 2)%Z)
  then set_errorMessage (Some [AnomalyCorrected]) (set_serverEndTime oldVal s)
  else s.

End Functions.

(** ** The watcher on [serverEndTime]

    Vue runs the callback, before control returns to a timer or to the
    caller awaiting the sync, when the ref holds a value that is not the
    one it last saw ([oldVal]).  The callback may itself write the ref,
    which runs it once more on the swapped pair. *)

Definition flushWatch (oldVal : value) (s : state) : state :=
  if same (serverEndTime s) oldVal then s
  else
    let s1 := onServerEndTimeChange (serverEndTime s) oldVal s in
    if same (serverEndTime s1) (serverEndTime s) then s1
    else onServerEndTimeChange (serverEndTime s1) (serverEndTime s) s1.

(** ** Booleans

    A response body is parsed JSON, and its fields can hold values that are
    not numbers.  [Dyn] embeds [normalizeTimestamp] and [validateTimestamps]
    once more, over the values of [JS.value] together with the booleans,
    which every operator of the two functions converts with [ToNumber]. *)

Module Dyn.

Inductive value : Type :=
| Plain (v : JS.value)
| Bool (b : bool).

(** [ToNumber]: [true] is 1 and [false] is 0. *)
Definition to_number (v : value) : option Z :=
  match v with
  | Plain v => JS.to_number v
  | Bool true => Some 1
  | Bool false => Some 0
  end.

Definition truthy (v : value) : bool :=
  match v with
  | Plain v => JS.truthy v
  | Bool b => b
  end.

Definition arith (f : Z -> Z -> Z) (a b : value) : value :=
  match to_number a, to_number b with
  | Some x, Some y => Plain (Num (f x y))
  | _, _ => Plain NaN
  end.

Definition compare (f : Z -> Z -> bool) (a b : value) : bool :=
  match to_number a, to_number b with
  | Some x, Some y => f x y
  | _, _ => false
  end.

Definition add := arith Z.add.
Definition sub := arith Z.sub.
Definition mul := arith Z.mul.
Definition lt := compare Z.ltb.
Definition le := compare Z.leb.
Definition gt := compare Z.gtb.
Definition not (a : value) : bool := negb (truthy a).

(** [Number.isNaN] is true of the value [NaN] alone: a boolean is not
    converted first. *)
Definition Number_isNaN (v : value) : bool :=
  match v with
  | Plain v => JS.Number_isNaN v
  | Bool _ => false
  end.

(** [Math.floor(a / b)] for a positive divisor; the result is a number
    or [NaN]. *)
Definition Math_floor_div (a b : value) : JS.value :=
  match to_number a, to_number b with
  | Some x, Some y => Num (x / y)
  | _, _ => NaN
  end.

(** The refs [validateTimestamps] reads and writes. *)
Record refs : Type := {
  serverEndTime : value;
  serverNow : value;
  requestSendTime : JS.value;
  errorMessage : message
}.

Definition number (z : Z) : value := Plain (Num z).

Definition normalizeTimestamp (timestamp : value) : value :=
  if lt timestamp (number SECOND_TIMESTAMP_THRESHOLD)
  then mul timestamp (number MS_PER_SECOND)
  else timestamp.

Definition validateTimestamps (now : Z) (endTime nowTime : value) (r : refs)
  : bool * refs :=
  if not endTime || not nowTime || Number_isNaN endTime || Number_isNaN nowTime
     || le endTime (number 0) || le nowTime (number 0)
  then (false,
        {| serverEndTime := serverEndTime r; serverNow := serverNow r;
           requestSendTime := requestSendTime r;
           errorMessage := Some [InvalidTimestamp] |})
  else
    let normalizedEnd := normalizeTimestamp endTime in
    let normalizedNow := normalizeTimestamp nowTime in
    let timeDiff := sub normalizedEnd normalizedNow in
    if lt timeDiff (number (- MAX_TIMESTAMP_DEVIATION))
    then (false,
          {| serverEndTime := serverEndTime r; serverNow := serverNow r;
             requestSendTime := requestSendTime r;
             errorMessage :=
               Some [EndTimeExpired
                       (JS.Math_abs
                          (Math_floor_div timeDiff
                             (number MS_PER_SECOND)))] |})
    else if gt timeDiff (number MAX_FUTURE_TIME)
    then (false,
          {| serverEndTime := serverEndTime r; serverNow := serverNow r;
             requestSendTime := requestSendTime r;
             errorMessage := Some [EndTimeTooFar] |})
    else if JS.truthy (requestSendTime r)
    then
      let requestDelay := sub (number now) (Plain (requestSendTime r)) in
      (true,
       {| serverEndTime := normalizedEnd;
          serverNow :=
            if gt requestDelay (number REQUEST_DELAY_TOLERANCE)
            then add normalizedNow requestDelay
            else normalizedNow;
          requestSendTime := requestSendTime r;
          errorMessage := errorMessage r |})
    else
      (true,
       {| serverEndTime := normalizedEnd; serverNow := normalizedNow;
          requestSendTime := requestSendTime r;
          errorMessage := errorMessage r |}).

End Dyn.

(** The refs of a state, as [Dyn.validateTimestamps] sees them. *)
Definition refs_of (s : state) : Dyn.refs :=
  {| Dyn.serverEndTime := Dyn.Plain (serverEndTime s);
     Dyn.serverNow := Dyn.Plain (serverNow s);
     Dyn.requestSendTime := requestSendTime s;
     Dyn.errorMessage := errorMessage s |}.

(** ** The environment of a sync cycle *)

(** What [fetchSyncData] resolves to: the parsed body, with the long and
    the short field names. *)
Record response : Type := {
  r_e : value;
  r_serverEndTime : value;
  r_s : value;
  r_serverNow : value
}.

Inductive error_name : Type :=
| AbortError
| TimeoutError
| OtherError.

Record error : Type := {
  name : error_name;
  message_includes_timeout : bool
}.

(** How the request of an attempt settles.  A body that parses to [null]
    is apart: reading [response.e] from it throws a [TypeError] inside the
    [try] block.  Any other body that is not an object reads as a response
    whose four fields are [undefined]. *)
Inductive outcome : Type :=
| Resolved (r : response)
| ResolvedNull
| Rejected (err : error).

(** One call of [syncWithRetry] as the event loop runs it.  The display
    timer ([useIntervalFn(updateRemaining, 100)]) keeps firing while the
    function is suspended at an [await]. *)
Record attempt : Type := {
  sendTime : Z;           (* the clock when [fetchSyncData] starts *)
  ticksInFlight : list Z; (* the clock at each tick while the request is awaited *)
  settleTime : Z;         (* the clock when the request settles *)
  settled : outcome;
  ticksInDelay : list Z   (* the clock at each tick during the retry delay *)
}.

(** The timer ticks at the given clock readings, in order. *)
Fixpoint ticks (times : list Z) (s : state) : state :=
  match times with
  | [] => s
  | t :: times' => ticks times' (updateRemaining t s)
  end.

(** The values of [remaining] after each tick. *)
Fixpoint tickTrace (times : list Z) (s : state) : list value :=
  match times with
  | [] => []
  | t :: times' =>
    remaining (updateRemaining t s) :: tickTrace times' (updateRemaining t s)
  end.

Section Sync.

Local Open Scope js_scope.

Definition isTimeout (err : error) : bool :=
  match name err with
  | TimeoutError => true
  | _ => message_includes_timeout err
  end.

Definition isAbort (err : error) : bool :=
  match name err with
  | AbortError => true
  | _ => false
  end.

(** [RETRY_DELAY[i]]: [undefined] outside the array. *)
Definition RETRY_DELAY_at (i : Z) : value :=
  if (i <? 0)%Z then Undefined
  else match nth_error RETRY_DELAY (Z.to_nat i) with
       | Some d => Num d
       | None => Undefined
       end.

(** The [try] block of [syncWithRetry] after the response has arrived. *)
Definition onResolved (now : Z) (r : response) (s : state) : state :=
  let s0 := set_retryCount 0 s in
  let serverEnd := r_e r ||| r_serverEndTime r in
  let serverNow' := r_s r ||| r_serverNow r in
  let (valid, s1) := validateTimestamps now serverEnd serverNow' s0 in
  if valid
  then
    let s2 := set_clientNow now s1 in
    set_storage
      (Some {| c_serverEndTime := serverEnd;
               c_serverNow := serverNow';
               c_clientNow := clientNow s2;
               c_syncedAt := now |})
      s2
  else
    let (cacheValid, s2) := useCachedData now s1 in
    if cacheValid then s2
    else set_errorMessage (append_text (errorMessage s2) AndCacheInvalid) s2.

(** The last branch of the [catch] block: the retries are used up. *)
Definition onExhausted (now : Z) (s : state) : state :=
  let s0 := set_errorMessage (Some [SyncFailedUseCache]) s in
  let (cacheValid, s1) := useCachedData now s0 in
  let s2 :=
    if cacheValid then s1
    else set_isTimestampValid false
           (set_errorMessage (append_text (errorMessage s1) ButCacheInvalid)
              s1) in
  set_retryCount 0 s2.

(** The [finally] block of [syncWithRetry]. *)
Definition cleanup (s : state) : state := set_requestSendTime Null s.

(** The [TypeError] thrown on a [null] body. *)
Definition nullBodyError : error :=
  {| name := OtherError; message_includes_timeout := false |}.

(** [syncWithRetry].  The script lists the attempts the environment
    offers; [None] when the function asks for more than it lists.

    The retry is [return syncWithRetry()], without [await]: the [finally]
    block of the calling level runs as soon as the called level is
    suspended at its request, that is right after [fetchSyncData] has
    recorded the send time.  [nested] tells that the call is such a retry;
    the [finally] block that runs when the whole chain returns is the one of
    the last level. *)
Fixpoint syncWithRetryFrom (nested : bool) (script : list attempt) (s : state)
  : option state :=
  match script with
  | [] => None
  | a :: script' =>
    let sent := set_requestSendTime (sendTime a) s in
    let s0 := ticks (ticksInFlight a) (if nested then cleanup sent else sent) in
    let catch (err : error) (s0 : state) : option state :=
      if isAbort err
      then Some (cleanup (set_errorMessage (Some [SyncCancelled]) s0))
      else if (retryCount s0 <? MAX_RETRIES)%Z
      then
        let delay :=
          RETRY_DELAY_at (retryCount s0)
          ||| RETRY_DELAY_at (Z.of_nat (length RETRY_DELAY) - 1)%Z in
        let s1 :=
          set_errorMessage
            (Some [SyncFailedRetry (isTimeout err) delay
                     (retryCount s0 + 1)%Z]) s0 in
        let s2 := set_retryCount (retryCount s1 + 1)%Z s1 in
        syncWithRetryFrom true script' (ticks (ticksInDelay a) s2)
      else Some (cleanup (onExhausted (settleTime a) s0)) in
    match settled a with
    | Resolved r => Some (cleanup (onResolved (settleTime a) r s0))
    | ResolvedNull => catch nullBodyError (set_retryCount 0 s0)
    | Rejected err => catch err s0
    end
  end.

Definition syncWithRetry (script : list attempt) (s : state) : option state :=
  syncWithRetryFrom false script s.

(** The number of attempts [syncWithRetry] makes on a script. *)
Fixpoint attemptsFrom (nested : bool) (script : list attempt) (s : state)
  : nat :=
  match script with
  | [] => O
  | a :: script' =>
    let sent := set_requestSendTime (sendTime a) s in
    let s0 := ticks (ticksInFlight a) (if nested then cleanup sent else sent) in
    let catch (err : error) (s0 : state) : nat :=
      if isAbort err then 1%nat
      else if (retryCount s0 <? MAX_RETRIES)%Z
      then
        let delay :=
          RETRY_DELAY_at (retryCount s0)
          ||| RETRY_DELAY_at (Z.of_nat (length RETRY_DELAY) - 1)%Z in
        let s1 :=
          set_errorMessage
            (Some [SyncFailedRetry (isTimeout err) delay
                     (retryCount s0 + 1)%Z]) s0 in
        let s2 := set_retryCount (retryCount s1 + 1)%Z s1 in
        S (attemptsFrom true script' (ticks (ticksInDelay a) s2))
      else 1%nat in
    match settled a with
    | Resolved _ => 1%nat
    | ResolvedNull => catch nullBodyError (set_retryCount 0 s0)
    | Rejected err => catch err s0
    end
  end.

Definition attempts (script : list attempt) (s : state) : nat :=
  attemptsFrom false script s.

(** [syncNow]; [finish] is the clock when the awaited [syncWithRetry]
    has returned.  The cooldown timer that re-enables syncing fires
    later ([enableSync]). *)
Definition syncNow (isClient : bool) (script : list attempt) (finish : Z)
           (s : state) : option state :=
  if negb isClient || syncing s || isSyncDisabled s
  then Some s
  else
    let s0 :=
      set_errorMessage None (set_syncing true (set_isSyncDisabled true s)) in
    let preSyncRemaining := remaining s0 in
    match syncWithRetry script s0 with
    | None => None
    | Some s1 =>
      let s2 := flushWatch (serverEndTime s0) s1 in
      let s3 :=
        if (remaining s2 > preSyncRemaining) && (preSyncRemaining > 0)
        then set_remaining preSyncRemaining s2
        else s2 in
      Some (updateRemaining finish (set_syncing false s3))
    end.

Definition enableSync (s : state) : state := set_isSyncDisabled false s.

(** The [onMounted] hook. *)
Definition onMounted (now : Z) (s : state) : state :=
  let (cacheValid, s1) := useCachedData now s in
  flushWatch (serverEndTime s) (updateRemaining now s1).

End Sync.

(** ** Vocabulary of the properties *)

(** [normalizeTimestamp] on a number. *)
Definition normalizeZ (x : Z) : Z :=
  if x <? 10 ^ 12 then x * 1000 else x.

(** A displayed value: a number that is not negative. *)
Definition nonneg (v : value) : Prop :=
  exists r : Z, v = Num r /\ 0 <= r.

(** Clock readings that never go back. *)
Fixpoint clockMonotone (times : list Z) : Prop :=
  match times with
  | t1 :: (t2 :: _) as times' => t1 <= t2 /\ clockMonotone times'
  | _ => True
  end.

(** A sequence of displayed values in which none exceeds the one before. *)
Fixpoint nonIncreasing (l : list value) : Prop :=
  match l with
  | a :: (b :: _) as l' => (b <= a)%js = true /\ nonIncreasing l'
  | _ => True
  end.

(** The refs hold a usable SyncState: the guard of [updateRemaining] does
    not fire. *)
Definition validSyncState (s : state) : bool :=
  isTimestampValid s && truthy (serverEndTime s) && truthy (serverNow s)
  && truthy (clientNow s).

(** [newRemaining] of [updateRemaining]. *)
Definition candidateRemaining (now : Z) (s : state) : value :=
  (serverEndTime s - (serverNow s + (now - clientNow s)))%js.

(** The clamp rule in the specification's words, with [??]. *)
Definition clampRule_spec (previousRemaining candidateRemaining : value)
  : value :=
  Math_max 0
    (Math_min (previousRemaining ??? candidateRemaining)%js candidateRemaining).

(** The rejection conditions in the specification's words. *)
Definition missing (v : value) : Prop := v = Undefined \/ v = Null.
Definition nonNumeric (v : value) : Prop := v = NaN.
Definition nonPositive (v : value) : Prop := exists z : Z, v = Num z /\ z <= 0.

Definition rejected_spec (endTime nowTime : value) : Prop :=
  missing endTime \/ missing nowTime
  \/ nonNumeric endTime \/ nonNumeric nowTime
  \/ nonPositive endTime \/ nonPositive nowTime
  \/ exists e n : Z,
       endTime = Num e /\ nowTime = Num n
       /\ (normalizeZ n - normalizeZ e > 300000
           \/ normalizeZ e - normalizeZ n > 31536000000).

(** A rejection that can be retried: anything but an abort. *)
Definition retryable (a : attempt) : Prop :=
  exists err, settled a = Rejected err /\ isAbort err = false.

(** The ceiling [remaining.value || newRemaining] of the clamp: a previous
    value that is a number other than 0, else the candidate. *)
Definition ceiling (previousRemaining : value) (candidate : Z) : Z :=
  match previousRemaining with
  | Num r => if r =? 0 then candidate else r
  | _ => candidate
  end.

(** A ref that holds [null] or a number. *)
Definition numeric (v : value) : Prop :=
  v = Null \/ exists z : Z, v = Num z.

(** The SyncState as the code installs it from numbers. *)
Definition numericSyncState (s : state) : Prop :=
  numeric (serverEndTime s) /\ numeric (serverNow s)
  /\ numeric (clientNow s).

(** The [storage] ref holds [null], a string, or an object whose pair
    [validateTimestamps] accepts, on any clock and in any state. *)
Definition snapshotValidated (s : state) : Prop :=
  forall cached : snapshot,
    storage s = Some cached ->
    cached = storedString
    \/ forall (now : Z) (s' : state),
         fst (validateTimestamps now (c_serverEndTime cached)
                (c_serverNow cached) s') = true.

(** ** Example states *)

(** A state synchronised at local time 1700000000000, one minute before
    the deadline. *)
Definition exampleSynced : state :=
  set_clientNow 1700000000000
    (set_serverNow 1700000000000
       (set_serverEndTime 1700000060000 (initial None))).

(** A fresh state with a request in flight since 1700000000000. *)
Definition exampleSending : state :=
  set_requestSendTime 1700000000000 (initial None).

(** The state of [exampleSynced] displaying one second, and the body of a
    response telling that five seconds are left. *)
Definition exampleCounting : state := set_remaining 1000 exampleSynced.

Definition exampleResponse : response :=
  {| r_e := 1700000060000; r_serverEndTime := Undefined;
     r_s := 1700000055000; r_serverNow := Undefined |}.

(** A state whose [storage] ref holds a snapshot taken a second ago, a
    minute before the deadline. *)
Definition exampleCached : state :=
  set_storage
    (Some {| c_serverEndTime := 1700000060000;
             c_serverNow := 1699999999000;
             c_clientNow := 1699999999000;
             c_syncedAt := 1699999999500 |})
    (initial None).

(** A request that fails with a network error 100 ms after it was sent at
    [t], the timer ticking once meanwhile and once during the delay. *)
Definition exampleFailure (t : Z) : attempt :=
  {| sendTime := t;
     ticksInFlight := [t + 50];
     settleTime := t + 100;
     settled := Rejected {| name := OtherError;
                            message_includes_timeout := false |};
     ticksInDelay := [t + 200] |}.

(** [exampleSynced] displaying its last 50 ms, at local time 1700000059950. *)
Definition exampleNearExpiry : state := set_remaining 50 exampleSynced.

(** A sync started then: the timer ticks 100 ms later, past the deadline as
    estimated so far, and after 200 ms the response arrives, the server
    telling that one second is left. *)
Definition exampleLateAnswer : attempt :=
  {| sendTime := 1700000059950;
     ticksInFlight := [1700000060050];
     settleTime := 1700000060150;
     settled := Resolved {| r_e := 1700000060000;
                            r_serverEndTime := Undefined;
                            r_s := 1700000059000;
                            r_serverNow := Undefined |};
     ticksInDelay := [] |}.

(** A deadline is unset ([null]) or a number other than 0. *)
Definition deadlineOK (s : state) : Prop :=
  serverEndTime s = Null
  \/ exists E : Z, serverEndTime s = Num E /\ E <> 0.

(** The states of an instance in which no sync is suspended at an
    [await]: a whole call of [syncNow], with the ticks of the display timer
    that fall into its awaits, is one step.  The states at those ticks,
    with [syncing] set and a request in flight, are not among them. *)
Inductive reachable : state -> Prop :=
| reach_initial (entry : option String.string) :
    reachable (initial entry)
| reach_mounted (now : Z) (s : state) :
    reachable s -> reachable (onMounted now s)
| reach_tick (now : Z) (s : state) :
    reachable s -> reachable (updateRemaining now s)
| reach_sync (isClient : bool) (script : list attempt) (finish : Z)
             (s s' : state) :
    reachable s -> syncNow isClient script finish s = Some s' -> reachable s'
| reach_enable (s : state) :
    reachable s -> reachable (enableSync s).

(** Case analysis on every test of the goal. *)
Ltac split_ifs :=
  repeat match goal with
         | |- context [if ?c then _ else _] => destruct c
         end.

(** ** The displayed decomposition and the triggers of a sync *)

(** [a % b]: the remainder has the sign of the dividend. *)
Definition js_rem : value -> value -> value := JS.arith Z.rem.

(** The object the computed [parts] holds. *)
Record countdownParts : Type := {
  days : value;
  hours : value;
  minutes : value;
  seconds : value;
  milliseconds : value
}.

(** [parts]: the computed decomposition of [remaining]. *)
Definition parts (s : state) : countdownParts :=
  let totalSeconds := Math_floor_div (remaining s) MS_PER_SECOND in
  {| days := Math_floor_div totalSeconds 86400;
     hours := Math_floor_div (js_rem totalSeconds 86400) 3600;
     minutes := Math_floor_div (js_rem totalSeconds 3600) 60;
     seconds := js_rem totalSeconds 60;
     milliseconds :=
       Math_floor_div (js_rem (remaining s) MS_PER_SECOND) 10 |}.

(** The callback of the periodic sync timer. *)
Definition intervalSync (online isClient : bool) (script : list attempt)
           (finish : Z) (s : state) : option state :=
  if online && negb (isExpired s)
  then syncNow isClient script finish s
  else Some s.

(** The period of that timer, from the options [normalSyncInterval] and
    [fastSyncInterval]. *)
Definition syncInterval (normalSyncInterval fastSyncInterval : Z) (s : state)
  : Z :=
  if isExpired s then fastSyncInterval else normalSyncInterval.

(** The callback of [watch(online, ...)]. *)
Definition onOnlineChange (newVal isClient : bool) (script : list attempt)
           (finish : Z) (s : state) : option state :=
  if newVal && isClient
  then syncNow isClient script finish s
  else Some s.

(** One task of the event loop on an instance. *)
Inductive step (isClient : bool) : state -> state -> Prop :=
| step_mounted (now : Z) (s : state) :
    step isClient s (onMounted now s)
| step_tick (now : Z) (s : state) :
    step isClient s (updateRemaining now s)
| step_sync (script : list attempt) (finish : Z) (s s' : state) :
    syncNow isClient script finish s = Some s' -> step isClient s s'
| step_interval (online : bool) (script : list attempt) (finish : Z)
                (s s' : state) :
    intervalSync online isClient script finish s = Some s' ->
    step isClient s s'
| step_online (newVal : bool) (script : list attempt) (finish : Z)
              (s s' : state) :
    onOnlineChange newVal isClient script finish s = Some s' ->
    step isClient s s'
| step_enable (s : state) :
    step isClient s (enableSync s).


(** A script whose awaits no timer tick interrupts. *)
Definition noTicks (script : list attempt) : Prop :=
  Forall (fun a => ticksInFlight a = [] /\ ticksInDelay a = []) script.

(** A display of 50 hours, 3 minutes, 4 seconds and 560 ms. *)
Definition exampleLong : state := set_remaining 180184567 exampleSynced.


(** A state whose [storage] ref holds a snapshot taken 25 hours before
    local time 1700090000000. *)
Definition exampleStale : state :=
  set_storage
    (Some {| c_serverEndTime := 1700100000000;
             c_serverNow := 1700000000000;
             c_clientNow := 1700000000000;
             c_syncedAt := 1700000000000 |})
    (initial None).

(** A state whose [storage] ref holds a snapshot that lacks [serverNow]. *)
Definition exampleBroken : state :=
  set_storage
    (Some {| c_serverEndTime := 1700000060000;
             c_serverNow := Undefined;
             c_clientNow := 1700000000000;
             c_syncedAt := 1700000000000 |})
    (initial None).


(** The state when the request of an attempt settles, and the state in
    which [syncWithRetry] calls itself after the [catch] block was entered
    in [s0] with a retryable error. *)
Definition inFlightFrom (nested : bool) (a : attempt) (s : state) : state :=
  ticks (ticksInFlight a)
    (if nested then cleanup (set_requestSendTime (sendTime a) s)
     else set_requestSendTime (sendTime a) s).

Definition retrying (a : attempt) (err : error) (s0 : state) : state :=
  ticks (ticksInDelay a)
    (set_retryCount (retryCount s0 + 1)
       (set_errorMessage
          (Some [SyncFailedRetry (isTimeout err)
                   (RETRY_DELAY_at (retryCount s0)
                    ||| RETRY_DELAY_at (Z.of_nat (length RETRY_DELAY) - 1))%js
                   (retryCount s0 + 1)])
          s0)).

Definition afterRetryFrom (nested : bool) (a : attempt) (err : error)
           (s : state) : state :=
  retrying a err (inFlightFrom nested a s).

(** A request cancelled 100 ms after it was sent at [t]. *)
Definition exampleAbort (t : Z) : attempt :=
  {| sendTime := t;
     ticksInFlight := [t + 50];
     settleTime := t + 100;
     settled := Rejected {| name := AbortError;
                            message_includes_timeout := false |};
     ticksInDelay := [] |}.


(** The body of a response whose deadline passed ten minutes before its
    server time. *)
Definition exampleExpiredResponse : response :=
  {| r_e := 1700000000000; r_serverEndTime := Undefined;
     r_s := 1700000600001; r_serverNow := Undefined |}.


(** The state in which the sync of [exampleLateAnswer], started in
    [exampleNearExpiry], completes. *)
Definition exampleAfterSync : state :=
  Eval vm_compute in
    match syncNow true [exampleLateAnswer] 1700000060150 exampleNearExpiry with
    | Some s => s
    | None => exampleNearExpiry
    end.


(** [exampleSynced] after the retries were used up with no usable cache. *)
Definition exampleInvalid : state := set_isTimestampValid false exampleSynced.

(** A response accepted at once, without a tick of the timer. *)
Definition exampleQuickAnswer : attempt :=
  {| sendTime := 1700000059000;
     ticksInFlight := [];
     settleTime := 1700000059000;
     settled := Resolved exampleResponse;
     ticksInDelay := [] |}.


(** The state in which the sync of [exampleQuickAnswer], started in
    [exampleInvalid], completes. *)
Definition exampleInvalidAfterSync : state :=
  Eval vm_compute in
    match syncNow true [exampleQuickAnswer] 1700000059000 exampleInvalid with
    | Some s => s
    | None => exampleInvalid
    end.


(** The state in which the sync of [exampleQuickAnswer], started in
    [exampleCounting], completes. *)
Definition exampleCountingAfterSync : state :=
  Eval vm_compute in
    match syncNow true [exampleQuickAnswer] 1700000059000 exampleCounting with
    | Some s => s
    | None => exampleCounting
    end.


(** The state in which [syncWithRetry] returns after a network failure
    followed by an abort, started in [exampleSending]. *)
Definition exampleAfterAbort : state :=
  Eval vm_compute in
    match syncWithRetry [exampleFailure 100; exampleAbort 1200]
            exampleSending with
    | Some s => s
    | None => exampleSending
    end.

(** The body of a response whose deadline is 100000 seconds, nearly 28
    hours, after its server time. *)
Definition exampleLongResponse : response :=
  {| r_e := 1700100000000; r_serverEndTime := Undefined;
     r_s := 1700000000000; r_serverNow := Undefined |}.

(** That response, arriving 100 ms after the request was sent. *)
Definition exampleLongAnswer : attempt :=
  {| sendTime := 1700000000000;
     ticksInFlight := [];
     settleTime := 1700000000100;
     settled := Resolved exampleLongResponse;
     ticksInDelay := [] |}.

(** The state of a new instance, nothing under the storage key, after the
    sync of [exampleLongAnswer]. *)
Definition exampleLongSynced : state :=
  Eval vm_compute in
    match syncNow true [exampleLongAnswer] 1700000000100 (initial None) with
    | Some s => s
    | None => initial None
    end.

(** A sync in which three requests fail and the fourth is answered by
    [exampleResponse], 4 seconds after it was sent. *)
Definition exampleSlowAnswer : attempt :=
  {| sendTime := 1700000050000;
     ticksInFlight := [];
     settleTime := 1700000054000;
     settled := Resolved exampleResponse;
     ticksInDelay := [] |}.


(** A request answered, 100 ms after it was sent at [t], by a body that
    parses to [null]. *)
Definition exampleNullBody (t : Z) : attempt :=
  {| sendTime := t;
     ticksInFlight := [];
     settleTime := t + 100;
     settled := ResolvedNull;
     ticksInDelay := [] |}.

(** * Properties *)

(** ** Values *)

Lemma truthy_inv (v : value) :
  truthy v = true -> exists z : Z, v = Num z /\ z <> 0.
Proof.
  destruct v as [| | |z]; simpl; try discriminate.
  intros H. exists z. split; [reflexivity|].
  intros ->. discriminate.
Qed.

Lemma truthy_Num (z : Z) : truthy (Num z) = negb (z =? 0).
Proof. reflexivity. Qed.

Lemma truthy_nonzero (z : Z) : z <> 0 -> truthy (Num z) = true.
Proof.
  intros H. simpl. destruct (Z.eqb_spec z 0); [contradiction|reflexivity].
Qed.

Lemma same_refl (v : value) : same v v = true.
Proof. destruct v; simpl; auto using Z.eqb_refl. Qed.

Lemma same_eq (a b : value) : same a b = true -> a = b.
Proof.
  destruct a, b; simpl; try discriminate; auto.
  intros H. apply Z.eqb_eq in H. congruence.
Qed.

(** ** Unit normalisation *)

Lemma normalizeTimestamp_Num (x : Z) :
  normalizeTimestamp (Num x) = Num (normalizeZ x).
Proof.
  unfold normalizeTimestamp, normalizeZ, JS.lt, JS.mul, compare, arith,
    SECOND_TIMESTAMP_THRESHOLD, MS_PER_SECOND.
  cbn [to_number]. destruct (x <? 10 ^ 12); reflexivity.
Qed.

Lemma normalizeZ_pos (x : Z) : 0 < x -> 0 < normalizeZ x.
Proof. unfold normalizeZ. destruct (x <? 10 ^ 12); lia. Qed.

Lemma normalizeZ_nonzero (x : Z) : x <> 0 -> normalizeZ x <> 0.
Proof. unfold normalizeZ. destruct (x <? 10 ^ 12); lia. Qed.

Lemma normalizeZ_idempotent_iff (x : Z) :
  normalizeZ (normalizeZ x) = normalizeZ x <-> x = 0 \/ 10 ^ 9 <= x.
Proof.
  unfold normalizeZ.
  destruct (Z.ltb_spec x (10 ^ 12)) as [Hx|Hx].
  - destruct (Z.ltb_spec (x * 1000) (10 ^ 12)) as [Hy|Hy]; lia.
  - destruct (Z.ltb_spec x (10 ^ 12)); lia.
Qed.

(** C8, as the specification states it, fails: a timestamp of 5 seconds is
    normalised to 5000, and 5000 is again below the threshold, so a second
    normalisation gives 5000000. *)
Lemma normalize_not_idempotent :
  normalizeTimestamp (normalizeTimestamp (Num 5)) = Num 5000000
  /\ normalizeTimestamp (Num 5) = Num 5000
  /\ normalizeTimestamp (normalizeTimestamp (Num 5)) <> normalizeTimestamp (Num 5).
Proof.
  repeat split; try reflexivity. vm_compute. discriminate.
Qed.

(** C8 (amended): on the integers from -9007199254 to 2^53, where every
    product involved is exact in double precision,
    [normalize(normalize(x)) == normalize(x)] holds exactly at 0 and from
    10^9 on (a seconds value from September 2001 on, or a value already in
    milliseconds); one normalisation gives the number times 1000 below the
    threshold 10^12 and the number itself otherwise; at [NaN] the comparison
    is false, as [NaN] equals nothing. *)
Theorem normalize_idempotent_iff (x : Z) :
  - 9007199254 <= x <= 2 ^ 53 ->
  (loose_eq (normalizeTimestamp (normalizeTimestamp (Num x)))
     (normalizeTimestamp (Num x)) = true
   <-> x = 0 \/ 10 ^ 9 <= x)
  /\ normalizeTimestamp (Num x)
     = Num (if x <? 1000000000000 then x * 1000 else x)
  /\ loose_eq (normalizeTimestamp (normalizeTimestamp NaN))
       (normalizeTimestamp NaN) = false.
Proof.
  intros _. split; [|split].
  - rewrite !normalizeTimestamp_Num.
    rewrite <- normalizeZ_idempotent_iff.
    cbn [loose_eq]. apply Z.eqb_eq.
  - rewrite normalizeTimestamp_Num. reflexivity.
  - reflexivity.
Qed.

Lemma normalize_idempotent_iff_witness :
  loose_eq (normalizeTimestamp (normalizeTimestamp (Num 1700000000)))
    (normalizeTimestamp (Num 1700000000)) = true.
Proof.
  destruct (normalize_idempotent_iff 1700000000) as [[_ H] _].
  - vm_compute. split; discriminate.
  - apply H. right. vm_compute. discriminate.
Defined.

(** ** Validation *)

Lemma guard_Num (e n : Z) :
  (! Num e || ! Num n || Number_isNaN (Num e) || Number_isNaN (Num n)
   || (Num e <= 0) || (Num n <= 0))%js = negb ((0 <? e) && (0 <? n)).
Proof.
  unfold JS.not, JS.le, compare. simpl.
  destruct (Z.eqb_spec e 0), (Z.eqb_spec n 0), (Z.leb_spec e 0),
    (Z.leb_spec n 0), (Z.ltb_spec 0 e), (Z.ltb_spec 0 n);
    simpl; try reflexivity; lia.
Qed.

(** On two positive numbers [validateTimestamps] is decided by the two
    range tests on the normalised difference. *)
Lemma validateTimestamps_Num (now e n : Z) (s : state) :
  0 < e -> 0 < n ->
  fst (validateTimestamps now (Num e) (Num n) s)
  = negb (normalizeZ e - normalizeZ n <? - 300000)
    && negb (normalizeZ e - normalizeZ n >? 31536000000).
Proof.
  intros He Hn. unfold validateTimestamps.
  rewrite guard_Num.
  destruct (Z.ltb_spec 0 e); [|lia]. destruct (Z.ltb_spec 0 n); [|lia].
  cbn [negb andb]. rewrite !normalizeTimestamp_Num.
  unfold JS.sub, JS.lt, JS.gt, compare, arith. cbn [to_number].
  change (- MAX_TIMESTAMP_DEVIATION) with (- 300000).
  change MAX_FUTURE_TIME with 31536000000.
  destruct (normalizeZ e - normalizeZ n <? - 300000); [reflexivity|].
  destruct (normalizeZ e - normalizeZ n >? 31536000000); [reflexivity|].
  destruct (truthy (requestSendTime s)); reflexivity.
Qed.

Lemma validateTimestamps_guard (now : Z) (e n : value) (s : state) :
  (! e || ! n || Number_isNaN e || Number_isNaN n || (e <= 0) || (n <= 0))%js
  = true ->
  validateTimestamps now e n s
  = (false, set_errorMessage (Some [InvalidTimestamp]) s).
Proof. intros H. unfold validateTimestamps. rewrite H. reflexivity. Qed.

(** A rejection changes [errorMessage] and nothing else. *)
Lemma validateTimestamps_rejected (now : Z) (e n : value) (s : state) :
  fst (validateTimestamps now e n s) = false ->
  exists t : text,
    snd (validateTimestamps now e n s) = set_errorMessage (Some [t]) s.
Proof.
  unfold validateTimestamps. cbv zeta.
  repeat match goal with
         | |- context [if ?c then (_, _) else _] => destruct c
         end;
    simpl; intros H; try discriminate; eauto.
Qed.

(** X27: on inputs that are [undefined], [null], [NaN] or integer-valued
    numbers, [validateTimestamps] returns invalid exactly when an input is
    missing, [NaN] or not positive, or when the normalised now is more than
    300000 ms after the normalised end, or the normalised end more than
    31536000000 ms after the normalised now; it returns valid on every
    other such input, and every rejection sets an error message. *)
Theorem validateTimestamps_rejects_exactly
  (now : Z) (endTime nowTime : value) (s : state) :
  (fst (validateTimestamps now endTime nowTime s) = false
   <-> rejected_spec endTime nowTime)
  /\ (fst (validateTimestamps now endTime nowTime s) = true
      <-> ~ rejected_spec endTime nowTime)
  /\ (fst (validateTimestamps now endTime nowTime s) = false ->
      errorMessage (snd (validateTimestamps now endTime nowTime s)) <> None).
Proof.
  assert (Hiff : fst (validateTimestamps now endTime nowTime s) = false
                 <-> rejected_spec endTime nowTime).
  { unfold rejected_spec, missing, nonNumeric, nonPositive.
    destruct endTime as [| | |e];
      try (rewrite validateTimestamps_guard by reflexivity; simpl;
           split; auto 10; fail).
    destruct nowTime as [| | |n];
      try (rewrite validateTimestamps_guard
             by (rewrite !orb_true_iff; auto 10); simpl;
           split; auto 10; fail).
    destruct (Z.leb_spec e 0) as [He|He].
    { rewrite validateTimestamps_guard
        by (rewrite guard_Num; destruct (Z.ltb_spec 0 e); [lia|reflexivity]).
      simpl. split; [intros _|reflexivity].
      do 4 right. left. eauto. }
    destruct (Z.leb_spec n 0) as [Hn|Hn].
    { rewrite validateTimestamps_guard
        by (rewrite guard_Num; destruct (Z.ltb_spec 0 n);
            [lia|apply negb_true_iff, andb_false_r]).
      simpl. split; [intros _|reflexivity].
      do 5 right. left. eauto. }
    rewrite validateTimestamps_Num by lia.
    rewrite andb_false_iff, !negb_false_iff, Z.ltb_lt, Z.gtb_gt.
    split.
    - intros H. do 6 right. exists e, n. repeat split; lia.
    - intros [H|[H|[H|[H|[H|[H|H]]]]]];
        try (destruct H; discriminate); try discriminate.
      + destruct H as (z & Hz & Hle). injection Hz as <-. lia.
      + destruct H as (z & Hz & Hle). injection Hz as <-. lia.
      + destruct H as (e' & n' & He' & Hn' & H).
        injection He' as <-. injection Hn' as <-. lia. }
  split; [exact Hiff|split].
  - rewrite <- Hiff.
    destruct (fst (validateTimestamps now endTime nowTime s));
      split; intros; congruence.
  - intros H. destruct (validateTimestamps_rejected _ _ _ _ H) as (t & ->).
    simpl. discriminate.
Qed.

(** [Dyn] on the values of [JS.value] is the embedding above. *)
Lemma Dyn_normalizeTimestamp_Plain (v : value) :
  Dyn.normalizeTimestamp (Dyn.Plain v) = Dyn.Plain (normalizeTimestamp v).
Proof.
  unfold Dyn.normalizeTimestamp, normalizeTimestamp, Dyn.lt, Dyn.mul,
    Dyn.compare, Dyn.arith, Dyn.number, JS.lt, JS.mul, compare, arith.
  cbn [Dyn.to_number].
  destruct (to_number v) as [z|]; cbn [to_number]; [|reflexivity].
  destruct (z <? SECOND_TIMESTAMP_THRESHOLD); reflexivity.
Qed.

Lemma Dyn_sub_Plain (a b : value) :
  Dyn.sub (Dyn.Plain a) (Dyn.Plain b) = Dyn.Plain (a - b)%js.
Proof.
  unfold Dyn.sub, Dyn.arith, JS.sub, arith. cbn [Dyn.to_number].
  destruct (to_number a), (to_number b); reflexivity.
Qed.

Lemma Dyn_add_Plain (a b : value) :
  Dyn.add (Dyn.Plain a) (Dyn.Plain b) = Dyn.Plain (a + b)%js.
Proof.
  unfold Dyn.add, Dyn.arith, JS.add, arith. cbn [Dyn.to_number].
  destruct (to_number a), (to_number b); reflexivity.
Qed.

Lemma Dyn_validateTimestamps_Plain (now : Z) (e n : value) (s : state) :
  Dyn.validateTimestamps now (Dyn.Plain e) (Dyn.Plain n) (refs_of s)
  = (fst (validateTimestamps now e n s),
     refs_of (snd (validateTimestamps now e n s))).
Proof.
  unfold Dyn.validateTimestamps, validateTimestamps. cbv zeta.
  rewrite !Dyn_normalizeTimestamp_Plain, !Dyn_sub_Plain.
  change (Dyn.not (Dyn.Plain e)) with (! e)%js.
  change (Dyn.not (Dyn.Plain n)) with (! n)%js.
  change (Dyn.Number_isNaN (Dyn.Plain e)) with (Number_isNaN e).
  change (Dyn.Number_isNaN (Dyn.Plain n)) with (Number_isNaN n).
  change (Dyn.le (Dyn.Plain e) (Dyn.number 0)) with (e <= 0)%js.
  change (Dyn.le (Dyn.Plain n) (Dyn.number 0)) with (n <= 0)%js.
  destruct (! e || ! n || Number_isNaN e || Number_isNaN n
            || (e <= 0) || (n <= 0))%js; [reflexivity|].
  set (d := (normalizeTimestamp e - normalizeTimestamp n)%js).
  change (Dyn.lt (Dyn.Plain d) (Dyn.number (- MAX_TIMESTAMP_DEVIATION)))
    with (d < Num (- MAX_TIMESTAMP_DEVIATION))%js.
  change (Dyn.gt (Dyn.Plain d) (Dyn.number MAX_FUTURE_TIME))
    with (d > Num MAX_FUTURE_TIME)%js.
  change (Dyn.Math_floor_div (Dyn.Plain d) (Dyn.number MS_PER_SECOND))
    with (Math_floor_div d MS_PER_SECOND).
  destruct (d < Num (- MAX_TIMESTAMP_DEVIATION))%js; [reflexivity|].
  destruct (d > Num MAX_FUTURE_TIME)%js; [reflexivity|].
  cbn [Dyn.requestSendTime refs_of].
  destruct (truthy (requestSendTime s)); [|reflexivity].
  unfold Dyn.number. rewrite Dyn_sub_Plain, Dyn_add_Plain.
  change (Dyn.gt (Dyn.Plain (Num now - requestSendTime s)%js)
            (Dyn.Plain (Num REQUEST_DELAY_TOLERANCE)))
    with (Num now - requestSendTime s > Num REQUEST_DELAY_TOLERANCE)%js.
  destruct (Num now - requestSendTime s > Num REQUEST_DELAY_TOLERANCE)%js;
    reflexivity.
Qed.

(** C7 at the failing input: a response body whose fields [e] and [s] hold
    [true].  No test of the guard fires, [Number.isNaN] included, as it
    does not convert its argument; [true] counts as 1 second and is
    normalised to 1000; [validateTimestamps] returns valid, sets no message
    and installs 1000 as the deadline.  The input is no number, so the
    rejection conditions hold of it. *)
Theorem validateTimestamps_accepts_non_numeric (now : Z) (r : Dyn.refs) :
  fst (Dyn.validateTimestamps now (Dyn.Bool true) (Dyn.Bool true) r) = true
  /\ Dyn.serverEndTime
       (snd (Dyn.validateTimestamps now (Dyn.Bool true) (Dyn.Bool true) r))
     = Dyn.Plain (Num 1000)
  /\ Dyn.errorMessage
       (snd (Dyn.validateTimestamps now (Dyn.Bool true) (Dyn.Bool true) r))
     = Dyn.errorMessage r
  /\ (forall z : Z, Dyn.Bool true <> Dyn.Plain (Num z)).
Proof.
  unfold Dyn.validateTimestamps. cbn.
  destruct (truthy (Dyn.requestSendTime r)); repeat split; discriminate.
Qed.

(** An accepted pair consists of two positive numbers within the range. *)
Lemma validateTimestamps_accepted_inv (now : Z) (e n : value) (s : state) :
  fst (validateTimestamps now e n s) = true ->
  exists ze zn : Z,
    e = Num ze /\ n = Num zn /\ 0 < ze /\ 0 < zn
    /\ - 300000 <= normalizeZ ze - normalizeZ zn <= 31536000000.
Proof.
  intros H.
  destruct e as [| | |ze];
    try (rewrite validateTimestamps_guard in H by reflexivity; discriminate).
  destruct n as [| | |zn];
    try (rewrite validateTimestamps_guard in H
           by (rewrite !orb_true_iff; auto 10); discriminate).
  destruct (Z.ltb_spec 0 ze) as [He|He], (Z.ltb_spec 0 zn) as [Hn|Hn];
    try (rewrite validateTimestamps_guard in H
           by (rewrite guard_Num;
               destruct (Z.ltb_spec 0 ze), (Z.ltb_spec 0 zn);
               try reflexivity; lia);
         discriminate).
  rewrite validateTimestamps_Num in H by assumption.
  apply andb_true_iff in H as [H1 H2].
  apply negb_true_iff in H1, H2.
  apply Z.ltb_ge in H1.
  destruct (Z.gtb_spec (normalizeZ ze - normalizeZ zn) 31536000000);
    [discriminate|].
  exists ze, zn. repeat split; auto; lia.
Qed.

(** The state an acceptance produces. *)
Lemma validateTimestamps_accepted_state (now ze zn : Z) (s : state) :
  fst (validateTimestamps now (Num ze) (Num zn) s) = true ->
  snd (validateTimestamps now (Num ze) (Num zn) s)
  = if truthy (requestSendTime s)
    then set_serverEndTime (Num (normalizeZ ze))
           (if (Num now - requestSendTime s > REQUEST_DELAY_TOLERANCE)%js
            then set_serverNow
                   (Num (normalizeZ zn) + (Num now - requestSendTime s))%js s
            else set_serverNow (Num (normalizeZ zn)) s)
    else set_serverNow (Num (normalizeZ zn))
           (set_serverEndTime (Num (normalizeZ ze)) s).
Proof.
  unfold validateTimestamps. cbv zeta. rewrite !normalizeTimestamp_Num.
  repeat match goal with
         | |- context [if ?c then (_, _) else _] => destruct c
         end;
    simpl; intros H; try discriminate; reflexivity.
Qed.

(** C10: when [validateTimestamps] returns invalid, [serverEndTime],
    [serverNow] and [clientNow] are as before the call; the state differs
    from the one before at most in [errorMessage]. *)
Theorem validateTimestamps_rejection_atomic
  (now : Z) (endTime nowTime : value) (s : state) :
  fst (validateTimestamps now endTime nowTime s) = false ->
  serverEndTime (snd (validateTimestamps now endTime nowTime s))
  = serverEndTime s
  /\ serverNow (snd (validateTimestamps now endTime nowTime s)) = serverNow s
  /\ clientNow (snd (validateTimestamps now endTime nowTime s)) = clientNow s
  /\ snd (validateTimestamps now endTime nowTime s)
     = set_errorMessage
         (errorMessage (snd (validateTimestamps now endTime nowTime s))) s.
Proof.
  intros H. destruct (validateTimestamps_rejected _ _ _ _ H) as (t & ->).
  repeat split.
Qed.

Lemma validateTimestamps_rejection_atomic_witness :
  fst (validateTimestamps 1700000030000 (Num 1600000000) (Num 1700000030)
         exampleSynced)
  = false
  /\ serverEndTime
       (snd (validateTimestamps 1700000030000 (Num 1600000000)
               (Num 1700000030) exampleSynced))
     = Num 1700000060000.
Proof.
  split; [reflexivity|].
  apply (validateTimestamps_rejection_atomic 1700000030000 (Num 1600000000)
           (Num 1700000030) exampleSynced).
  reflexivity.
Defined.

(** C6: when a pair is accepted while a request send time [T0] is
    recorded, with [requestDelay = now - T0]: the installed [serverNow] is
    the normalised server now plus [requestDelay] if [requestDelay > 2000],
    and the normalised server now otherwise; the installed [serverEndTime]
    is the normalised end in both cases.  (A recorded send time is a
    [Date.now()] reading, which is not 0.) *)
Theorem latency_compensation
  (now T0 : Z) (endTime nowTime : value) (s : state) :
  requestSendTime s = Num T0 ->
  T0 <> 0 ->
  fst (validateTimestamps now endTime nowTime s) = true ->
  exists e n : Z,
    endTime = Num e /\ nowTime = Num n
    /\ (2000 < now - T0 ->
        serverNow (snd (validateTimestamps now endTime nowTime s))
        = Num (normalizeZ n + (now - T0)))
    /\ (now - T0 <= 2000 ->
        serverNow (snd (validateTimestamps now endTime nowTime s))
        = Num (normalizeZ n))
    /\ serverEndTime (snd (validateTimestamps now endTime nowTime s))
       = Num (normalizeZ e).
Proof.
  intros HT HT0 H.
  destruct (validateTimestamps_accepted_inv _ _ _ _ H)
    as (e & n & -> & -> & _).
  exists e, n. split; [reflexivity|]. split; [reflexivity|].
  rewrite (validateTimestamps_accepted_state _ _ _ _ H).
  rewrite HT, (truthy_nonzero _ HT0).
  unfold JS.gt, JS.sub, JS.add, compare, arith. cbn [to_number].
  change REQUEST_DELAY_TOLERANCE with 2000.
  destruct (Z.gtb_spec (now - T0) 2000); repeat split; intros; try lia;
    reflexivity.
Qed.

Lemma latency_compensation_witness :
  exists e n : Z,
    Num 1700000060 = Num e /\ Num 1700000001 = Num n
    /\ (2000 < 1700000005000 - 1700000000000 ->
        serverNow
          (snd (validateTimestamps 1700000005000 (Num 1700000060)
                  (Num 1700000001) exampleSending))
        = Num (normalizeZ n + (1700000005000 - 1700000000000)))
    /\ (1700000005000 - 1700000000000 <= 2000 ->
        serverNow
          (snd (validateTimestamps 1700000005000 (Num 1700000060)
                  (Num 1700000001) exampleSending))
        = Num (normalizeZ n))
    /\ serverEndTime
         (snd (validateTimestamps 1700000005000 (Num 1700000060)
                 (Num 1700000001) exampleSending))
       = Num (normalizeZ e).
Proof.
  apply (latency_compensation 1700000005000 1700000000000
           (Num 1700000060) (Num 1700000001) exampleSending);
    [reflexivity | lia | reflexivity].
Defined.

(** ** The tick *)

Lemma updateRemaining_invalid (now : Z) (s : state) :
  validSyncState s = false ->
  updateRemaining now s = set_isExpired true (set_remaining 0 s).
Proof.
  unfold validSyncState, updateRemaining, JS.not. intros H.
  destruct (isTimestampValid s), (truthy (serverEndTime s)),
    (truthy (serverNow s)), (truthy (clientNow s));
    try discriminate; reflexivity.
Qed.

Lemma validSyncState_inv (s : state) :
  validSyncState s = true ->
  exists E S C : Z,
    isTimestampValid s = true
    /\ serverEndTime s = Num E /\ serverNow s = Num S /\ clientNow s = Num C
    /\ E <> 0 /\ S <> 0 /\ C <> 0.
Proof.
  unfold validSyncState. rewrite !andb_true_iff.
  intros [[[Hv HE] HS] HC].
  apply truthy_inv in HE as (E & HE & HE0).
  apply truthy_inv in HS as (S & HS & HS0).
  apply truthy_inv in HC as (C & HC & HC0).
  exists E, S, C. auto 10.
Qed.

Lemma candidateRemaining_Num (now E S C : Z) (s : state) :
  serverEndTime s = Num E -> serverNow s = Num S -> clientNow s = Num C ->
  candidateRemaining now s = Num (E - (S + (now - C))).
Proof.
  intros HE HS HC. unfold candidateRemaining. rewrite HE, HS, HC. reflexivity.
Qed.

Lemma or_ceiling (prev : value) (cand : Z) :
  (prev ||| Num cand)%js = Num (ceiling prev cand).
Proof.
  unfold JS.or, ceiling. destruct prev as [| | |r]; try reflexivity.
  simpl. destruct (r =? 0); reflexivity.
Qed.

(** The value a tick displays on a usable SyncState. *)
Lemma updateRemaining_valid (now : Z) (s : state) :
  validSyncState s = true ->
  exists cand : Z,
    candidateRemaining now s = Num cand
    /\ remaining (updateRemaining now s)
       = Num (Z.max 0 (Z.min (ceiling (remaining s) cand) cand)).
Proof.
  intros H. destruct (validSyncState_inv s H)
    as (E & S & C & Hv & HE & HS & HC & HE0 & HS0 & HC0).
  exists (E - (S + (now - C))).
  split; [apply candidateRemaining_Num; assumption|].
  unfold updateRemaining, JS.not.
  rewrite Hv, HE, HS, HC, !truthy_nonzero by assumption.
  cbn [negb orb]. cbv zeta.
  unfold JS.sub, JS.add, arith. cbn [to_number].
  rewrite or_ceiling. reflexivity.
Qed.

(** A tick writes [remaining], [isExpired] and [debugInfo] only. *)
Lemma updateRemaining_frame (now : Z) (s : state) :
  storage (updateRemaining now s) = storage s
  /\ serverEndTime (updateRemaining now s) = serverEndTime s
  /\ serverNow (updateRemaining now s) = serverNow s
  /\ clientNow (updateRemaining now s) = clientNow s
  /\ requestSendTime (updateRemaining now s) = requestSendTime s
  /\ isTimestampValid (updateRemaining now s) = isTimestampValid s
  /\ syncing (updateRemaining now s) = syncing s
  /\ errorMessage (updateRemaining now s) = errorMessage s
  /\ retryCount (updateRemaining now s) = retryCount s
  /\ isSyncDisabled (updateRemaining now s) = isSyncDisabled s.
Proof.
  unfold updateRemaining.
  destruct (negb (isTimestampValid s) || ! serverEndTime s || ! serverNow s
            || ! clientNow s)%js; repeat split.
Qed.

Lemma updateRemaining_validSyncState (now : Z) (s : state) :
  validSyncState (updateRemaining now s) = validSyncState s.
Proof.
  unfold validSyncState.
  destruct (updateRemaining_frame now s)
    as (_ & -> & -> & -> & _ & -> & _).
  reflexivity.
Qed.

Lemma updateRemaining_candidate (t now : Z) (s : state) :
  candidateRemaining t (updateRemaining now s) = candidateRemaining t s.
Proof.
  unfold candidateRemaining.
  destruct (updateRemaining_frame now s) as (_ & -> & -> & -> & _).
  reflexivity.
Qed.

(** Whatever the state, a tick displays a number that is not negative. *)
Lemma updateRemaining_nonneg (now : Z) (s : state) :
  nonneg (remaining (updateRemaining now s)).
Proof.
  destruct (validSyncState s) eqn:H.
  - destruct (updateRemaining_valid now s H) as (cand & _ & ->).
    eexists. split; [reflexivity|lia].
  - rewrite updateRemaining_invalid by assumption.
    exists 0. split; [reflexivity|lia].
Qed.

(** Two ticks in a row with the clock not going back: the second value
    does not exceed the first. *)
Lemma updateRemaining_twice (t1 t2 : Z) (s : state) :
  nonneg (remaining s) ->
  t1 <= t2 ->
  (remaining (updateRemaining t2 (updateRemaining t1 s))
   <= remaining (updateRemaining t1 s))%js = true.
Proof.
  intros (r & Hr & Hr0) Ht.
  destruct (validSyncState s) eqn:H.
  - assert (H' := H). rewrite <- (updateRemaining_validSyncState t1) in H'.
    destruct (updateRemaining_valid t2 _ H') as (c2 & Hc2 & ->).
    rewrite updateRemaining_candidate in Hc2.
    destruct (updateRemaining_valid t1 s H) as (c1 & Hc1 & ->).
    destruct (validSyncState_inv s H)
      as (E & S & C & _ & HE & HS & HC & _).
    rewrite (candidateRemaining_Num t1 E S C) in Hc1 by assumption.
    rewrite (candidateRemaining_Num t2 E S C) in Hc2 by assumption.
    injection Hc1 as <-. injection Hc2 as <-.
    rewrite Hr. unfold JS.le, compare, ceiling. cbn [to_number].
    apply Z.leb_le.
    repeat match goal with
           | |- context [?a =? 0] => destruct (Z.eqb_spec a 0)
           end; lia.
  - rewrite (updateRemaining_invalid t2)
      by (rewrite updateRemaining_validSyncState; assumption).
    rewrite (updateRemaining_invalid t1) by assumption.
    reflexivity.
Qed.

(** C1: over consecutive ticks at clock readings that never go back, with
    the SyncState untouched in between, the displayed [remaining] after a
    tick never exceeds the value after the tick before.  ([remaining] is a
    number that is not negative in every reachable state and after every
    tick: [reachable_invariant], [updateRemaining_nonneg].) *)
Theorem anti_rollback (times : list Z) (s : state) :
  nonneg (remaining s) ->
  clockMonotone times ->
  nonIncreasing (tickTrace times s).
Proof.
  revert s. induction times as [|t1 times IH]; intros s Hs Hm.
  - exact I.
  - destruct times as [|t2 times].
    + exact I.
    + destruct Hm as [Ht Hm].
      change (tickTrace (t1 :: t2 :: times) s)
        with (remaining (updateRemaining t1 s)
                :: tickTrace (t2 :: times) (updateRemaining t1 s)).
      change (tickTrace (t2 :: times) (updateRemaining t1 s))
        with (remaining (updateRemaining t2 (updateRemaining t1 s))
                :: tickTrace times (updateRemaining t2 (updateRemaining t1 s))).
      split.
      * apply updateRemaining_twice; assumption.
      * change (nonIncreasing
                  (tickTrace (t2 :: times) (updateRemaining t1 s))).
        apply IH; [apply updateRemaining_nonneg | exact Hm].
Qed.

Lemma anti_rollback_witness :
  nonIncreasing
    (tickTrace [1700000059000; 1700000059100; 1700000060500; 1700000060500]
       exampleSynced).
Proof.
  apply (anti_rollback
           [1700000059000; 1700000059100; 1700000060500; 1700000060500]
           exampleSynced).
  - exists 0. split; [reflexivity|lia].
  - simpl. lia.
Defined.

(** ** What the installing functions leave alone *)

Lemma validateTimestamps_frame (now : Z) (e n : value) (s : state) :
  storage (snd (validateTimestamps now e n s)) = storage s
  /\ clientNow (snd (validateTimestamps now e n s)) = clientNow s
  /\ requestSendTime (snd (validateTimestamps now e n s)) = requestSendTime s
  /\ isTimestampValid (snd (validateTimestamps now e n s)) = isTimestampValid s
  /\ remaining (snd (validateTimestamps now e n s)) = remaining s
  /\ retryCount (snd (validateTimestamps now e n s)) = retryCount s
  /\ syncing (snd (validateTimestamps now e n s)) = syncing s
  /\ isSyncDisabled (snd (validateTimestamps now e n s)) = isSyncDisabled s.
Proof.
  unfold validateTimestamps. cbv zeta. split_ifs; repeat split.
Qed.

Lemma useCachedData_frame (now : Z) (s : state) :
  storage (snd (useCachedData now s)) = storage s
  /\ requestSendTime (snd (useCachedData now s)) = requestSendTime s
  /\ isTimestampValid (snd (useCachedData now s)) = isTimestampValid s
  /\ remaining (snd (useCachedData now s)) = remaining s
  /\ retryCount (snd (useCachedData now s)) = retryCount s
  /\ errorMessage (snd (useCachedData now s)) = errorMessage s
  /\ syncing (snd (useCachedData now s)) = syncing s
  /\ isSyncDisabled (snd (useCachedData now s)) = isSyncDisabled s.
Proof.
  unfold useCachedData. destruct (storage s) as [cached|] eqn:Hc;
    [|simpl; repeat split; assumption].
  cbv zeta. split_ifs; simpl; repeat split; assumption.
Qed.

(** Whether the cache is usable depends on the stored snapshot and the
    clock only. *)
Lemma useCachedData_storage (now : Z) (s s' : state) :
  storage s = storage s' ->
  fst (useCachedData now s) = fst (useCachedData now s').
Proof.
  intros H. unfold useCachedData. rewrite H.
  destruct (storage s') as [cached|]; [|reflexivity].
  cbv zeta. split_ifs; reflexivity.
Qed.

Lemma onResolved_frame (now : Z) (r : response) (s : state) :
  remaining (onResolved now r s) = remaining s
  /\ isTimestampValid (onResolved now r s) = isTimestampValid s
  /\ retryCount (onResolved now r s) = 0
  /\ syncing (onResolved now r s) = syncing s
  /\ isSyncDisabled (onResolved now r s) = isSyncDisabled s.
Proof.
  unfold onResolved. cbv zeta.
  destruct (validateTimestamps now _ _ (set_retryCount 0 s)) as [valid s1] eqn:Hv.
  assert (Hs1 : s1 = snd (validateTimestamps now (r_e r ||| r_serverEndTime r)%js
                            (r_s r ||| r_serverNow r)%js (set_retryCount 0 s)))
    by (rewrite Hv; reflexivity).
  destruct (validateTimestamps_frame now (r_e r ||| r_serverEndTime r)%js
              (r_s r ||| r_serverNow r)%js (set_retryCount 0 s))
    as (_ & _ & _ & Hvalid & Hrem & Hretry & Hsync & Hdis).
  rewrite <- Hs1 in Hvalid, Hrem, Hretry, Hsync, Hdis.
  destruct valid.
  - simpl. rewrite Hvalid, Hrem, Hretry, Hsync, Hdis. repeat split.
  - destruct (useCachedData now s1) as [cacheValid s2] eqn:Hu.
    assert (Hs2 : s2 = snd (useCachedData now s1)) by (rewrite Hu; reflexivity).
    destruct (useCachedData_frame now s1)
      as (_ & _ & Hvalid2 & Hrem2 & Hretry2 & _ & Hsync2 & Hdis2).
    rewrite <- Hs2 in Hvalid2, Hrem2, Hretry2, Hsync2, Hdis2.
    destruct cacheValid; simpl;
      rewrite Hvalid2, Hrem2, Hretry2, Hsync2, Hdis2,
        Hvalid, Hrem, Hretry, Hsync, Hdis;
      repeat split.
Qed.

Lemma onExhausted_frame (now : Z) (s : state) :
  remaining (onExhausted now s) = remaining s
  /\ retryCount (onExhausted now s) = 0
  /\ isTimestampValid (onExhausted now s)
     = isTimestampValid s && fst (useCachedData now s)
  /\ syncing (onExhausted now s) = syncing s
  /\ isSyncDisabled (onExhausted now s) = isSyncDisabled s.
Proof.
  unfold onExhausted. cbv zeta.
  rewrite (useCachedData_storage now s
             (set_errorMessage (Some [SyncFailedUseCache]) s)) by reflexivity.
  destruct (useCachedData now (set_errorMessage (Some [SyncFailedUseCache]) s))
    as [cacheValid s1] eqn:Hu.
  assert (Hs1 : s1 = snd (useCachedData now
                            (set_errorMessage (Some [SyncFailedUseCache]) s)))
    by (rewrite Hu; reflexivity).
  destruct (useCachedData_frame now
              (set_errorMessage (Some [SyncFailedUseCache]) s))
    as (_ & _ & Hvalid & Hrem & _ & _ & Hsync & Hdis).
  rewrite <- Hs1 in Hvalid, Hrem, Hsync, Hdis.
  destruct cacheValid; simpl; rewrite ?Hvalid, ?Hrem, ?Hsync, ?Hdis; simpl;
    repeat split; auto using andb_true_r, andb_false_r.
Qed.

(** ** The clamp rule *)

(** C2, as the specification states it, fails.  The code falls back to the
    candidate with [||], so a previous value of 0 gives way to the candidate
    where the rule with [??] keeps the display at 0; and installing a
    SyncState resets no ceiling: with one second displayed and a fresh
    candidate of five seconds, the next tick still displays one second. *)
Lemma clamp_rule_counterexample :
  (validSyncState exampleSynced = true
   /\ remaining exampleSynced = Num 0
   /\ candidateRemaining 1700000001000 exampleSynced = Num 59000
   /\ remaining (updateRemaining 1700000001000 exampleSynced) = Num 59000
   /\ clampRule_spec (remaining exampleSynced)
        (candidateRemaining 1700000001000 exampleSynced) = Num 0
   /\ remaining (updateRemaining 1700000001000 exampleSynced)
      <> clampRule_spec (remaining exampleSynced)
           (candidateRemaining 1700000001000 exampleSynced))
  /\ (remaining exampleCounting = Num 1000
      /\ candidateRemaining 1700000059000
           (onResolved 1700000059000 exampleResponse exampleCounting)
         = Num 5000
      /\ remaining
           (updateRemaining 1700000059000
              (onResolved 1700000059000 exampleResponse exampleCounting))
         = Num 1000).
Proof.
  repeat split; try reflexivity. vm_compute. discriminate.
Qed.

(** C2 (amended): on a usable SyncState a tick sets [remaining] to
    [max(0, min(previousRemaining || candidateRemaining, candidateRemaining))]
    with [candidateRemaining = serverEndTime - (serverNow + (localNow -
    clientNow))]: the candidate is the ceiling on every tick that finds
    [remaining] at 0 and on no other tick.  Installing a SyncState
    ([validateTimestamps], [useCachedData], the response handler) leaves
    [remaining] as it is, so the first tick after an installation raises
    [remaining] only from 0. *)
Theorem clamp_rule (now : Z) (s : state) :
  validSyncState s = true ->
  exists E S C : Z,
    serverEndTime s = Num E /\ serverNow s = Num S /\ clientNow s = Num C
    /\ (forall r : Z,
           remaining s = Num r -> r <> 0 ->
           remaining (updateRemaining now s)
           = Num (Z.max 0 (Z.min r (E - (S + (now - C))))))
    /\ (remaining s = Num 0 ->
        remaining (updateRemaining now s)
        = Num (Z.max 0 (E - (S + (now - C)))))
    /\ (forall (t : Z) (e n : value),
           remaining (snd (validateTimestamps t e n s)) = remaining s)
    /\ (forall t : Z, remaining (snd (useCachedData t s)) = remaining s)
    /\ (forall (t : Z) (r : response),
           remaining (onResolved t r s) = remaining s).
Proof.
  intros H.
  destruct (validSyncState_inv s H) as (E & S & C & _ & HE & HS & HC & _).
  destruct (updateRemaining_valid now s H) as (cand & Hcand & Hrem).
  rewrite (candidateRemaining_Num now E S C) in Hcand by assumption.
  injection Hcand as <-.
  exists E, S, C. repeat split; try assumption.
  - intros r Hr Hr0. rewrite Hrem, Hr. unfold ceiling.
    destruct (Z.eqb_spec r 0); [contradiction|reflexivity].
  - intros Hr. rewrite Hrem, Hr. unfold ceiling. simpl (0 =? 0).
    cbv iota. f_equal. lia.
  - intros t e n. apply (validateTimestamps_frame t e n s).
  - intros t. apply (useCachedData_frame t s).
  - intros t r. apply (onResolved_frame t r s).
Qed.

Lemma clamp_rule_witness :
  exists E S C : Z,
    serverEndTime exampleCounting = Num E
    /\ serverNow exampleCounting = Num S
    /\ clientNow exampleCounting = Num C
    /\ (forall r : Z,
           remaining exampleCounting = Num r -> r <> 0 ->
           remaining (updateRemaining 1700000059500 exampleCounting)
           = Num (Z.max 0 (Z.min r (E - (S + (1700000059500 - C))))))
    /\ (remaining exampleCounting = Num 0 ->
        remaining (updateRemaining 1700000059500 exampleCounting)
        = Num (Z.max 0 (E - (S + (1700000059500 - C)))))
    /\ (forall (t : Z) (e n : value),
           remaining (snd (validateTimestamps t e n exampleCounting))
           = remaining exampleCounting)
    /\ (forall t : Z,
           remaining (snd (useCachedData t exampleCounting))
           = remaining exampleCounting)
    /\ (forall (t : Z) (r : response),
           remaining (onResolved t r exampleCounting)
           = remaining exampleCounting).
Proof.
  apply (clamp_rule 1700000059500 exampleCounting). reflexivity.
Defined.

(** ** The deadline watcher *)

Lemma onServerEndTimeChange_Num (n o : Z) (s : state) :
  o <> 0 -> n <> 0 ->
  onServerEndTimeChange (Num n) (Num o) s
  = if n >? o + 2000
    then set_errorMessage (Some [AnomalyCorrected])
           (set_serverEndTime (Num o) s)
    else s.
Proof.
  intros Ho Hn. unfold onServerEndTimeChange.
  rewrite !truthy_nonzero by assumption.
  reflexivity.
Qed.

(** Every acceptance installs a deadline that is a number other than 0, so
    the watcher only ever compares such numbers (or the initial [null]). *)
Lemma validateTimestamps_installs_nonzero (now : Z) (e n : value) (s : state) :
  fst (validateTimestamps now e n s) = true ->
  exists E : Z,
    serverEndTime (snd (validateTimestamps now e n s)) = Num E /\ 0 < E.
Proof.
  intros H.
  destruct (validateTimestamps_accepted_inv _ _ _ _ H)
    as (ze & zn & -> & -> & He & _).
  rewrite (validateTimestamps_accepted_state _ _ _ _ H).
  exists (normalizeZ ze). split; [|apply normalizeZ_pos; assumption].
  split_ifs; reflexivity.
Qed.

Lemma useCachedData_accepted (now : Z) (s : state) :
  fst (useCachedData now s) = true ->
  exists (cached : snapshot) (E S C : Z),
    storage s = Some cached
    /\ c_serverEndTime cached = Num E /\ c_serverNow cached = Num S
    /\ c_clientNow cached = Num C
    /\ E <> 0 /\ S <> 0 /\ C <> 0
    /\ (now - c_syncedAt cached >= MAX_CACHE_AGE)%js = false
    /\ - 300000 <= normalizeZ E - (normalizeZ S + (now - C))
    /\ snd (useCachedData now s)
       = set_clientNow now
           (set_serverNow (Num (normalizeZ S))
              (set_serverEndTime (Num (normalizeZ E)) s)).
Proof.
  unfold useCachedData. destruct (storage s) as [cached|]; [|discriminate].
  unfold JS.not.
  destruct (truthy (c_serverEndTime cached)) eqn:HE; [|discriminate].
  destruct (truthy (c_serverNow cached)) eqn:HS; [|discriminate].
  destruct (truthy (c_clientNow cached)) eqn:HC; [|discriminate].
  apply truthy_inv in HE as (E & HE & HE0).
  apply truthy_inv in HS as (S & HS & HS0).
  apply truthy_inv in HC as (C & HC & HC0).
  cbn [negb orb]. cbv zeta.
  destruct (now - c_syncedAt cached >= MAX_CACHE_AGE)%js eqn:Hage;
    [discriminate|].
  rewrite HE, HS, HC, !normalizeTimestamp_Num.
  unfold JS.lt, JS.sub, JS.add, compare, arith. cbn [to_number].
  change (- MAX_TIMESTAMP_DEVIATION) with (- 300000).
  destruct (Z.ltb_spec (normalizeZ E - (normalizeZ S + (now - C))) (- 300000));
    [discriminate|].
  intros _. exists cached, E, S, C. simpl. auto 12.
Qed.

Lemma useCachedData_installs_nonzero (now : Z) (s : state) :
  fst (useCachedData now s) = true ->
  exists E : Z, serverEndTime (snd (useCachedData now s)) = Num E /\ E <> 0.
Proof.
  intros H.
  destruct (useCachedData_accepted now s H)
    as (cached & E & S & C & _ & _ & _ & _ & HE0 & _ & _ & _ & _ & ->).
  exists (normalizeZ E). split; [reflexivity|].
  apply normalizeZ_nonzero; assumption.
Qed.

(** C4: when [serverEndTime] has been replaced, the previous value [o] and
    the new value [n] both being set: if [n] exceeds [o] by more than 2000 ms
    the watcher puts [o] back and sets the "time anomaly corrected" message;
    otherwise the new value stays and the state is untouched.  (A deadline
    that is set is a number other than 0: [reachable_invariant],
    [validateTimestamps_installs_nonzero], [useCachedData_installs_nonzero].) *)
Theorem deadline_anomaly_guard (o n : Z) (s : state) :
  o <> 0 -> n <> 0 ->
  serverEndTime s = Num n ->
  (2000 < n - o ->
   serverEndTime (flushWatch (Num o) s) = Num o
   /\ errorMessage (flushWatch (Num o) s) = Some [AnomalyCorrected])
  /\ (n - o <= 2000 ->
      serverEndTime (flushWatch (Num o) s) = Num n
      /\ flushWatch (Num o) s = s).
Proof.
  intros Ho Hn Hs. unfold flushWatch. rewrite Hs.
  cbn [same]. destruct (Z.eqb_spec n o) as [->|Hne].
  - split; [lia|auto].
  - rewrite onServerEndTimeChange_Num by assumption.
    destruct (Z.gtb_spec n (o + 2000)) as [Hgt|Hle].
    + cbn [serverEndTime set_errorMessage set_serverEndTime same].
      destruct (Z.eqb_spec o n) as [->|_]; [contradiction|].
      rewrite onServerEndTimeChange_Num by assumption.
      destruct (Z.gtb_spec o (n + 2000)); [lia|].
      split; [auto|lia].
    + rewrite Hs, same_refl. split; [lia|auto].
Qed.

Lemma deadline_anomaly_guard_witness :
  (2000 < 1700000063000 - 1700000060000 ->
   serverEndTime
     (flushWatch (Num 1700000060000)
        (set_serverEndTime 1700000063000 exampleSynced))
   = Num 1700000060000
   /\ errorMessage
        (flushWatch (Num 1700000060000)
           (set_serverEndTime 1700000063000 exampleSynced))
      = Some [AnomalyCorrected])
  /\ (1700000063000 - 1700000060000 <= 2000 ->
      serverEndTime
        (flushWatch (Num 1700000060000)
           (set_serverEndTime 1700000063000 exampleSynced))
      = Num 1700000063000
      /\ flushWatch (Num 1700000060000)
           (set_serverEndTime 1700000063000 exampleSynced)
         = set_serverEndTime 1700000063000 exampleSynced).
Proof.
  apply (deadline_anomaly_guard 1700000060000 1700000063000
           (set_serverEndTime 1700000063000 exampleSynced));
    [lia | lia | reflexivity].
Defined.

(** ** The cache fallback *)

(** ** Retries *)

Lemma ticks_frame (times : list Z) (s : state) :
  storage (ticks times s) = storage s
  /\ serverEndTime (ticks times s) = serverEndTime s
  /\ requestSendTime (ticks times s) = requestSendTime s
  /\ isTimestampValid (ticks times s) = isTimestampValid s
  /\ syncing (ticks times s) = syncing s
  /\ errorMessage (ticks times s) = errorMessage s
  /\ retryCount (ticks times s) = retryCount s
  /\ isSyncDisabled (ticks times s) = isSyncDisabled s.
Proof.
  revert s. induction times as [|t times IH]; intros s.
  - repeat split.
  - cbn [ticks].
    destruct (IH (updateRemaining t s))
      as (-> & -> & -> & -> & -> & -> & -> & ->).
    destruct (updateRemaining_frame t s)
      as (-> & -> & _ & _ & -> & -> & -> & -> & -> & ->).
    repeat split.
Qed.

Lemma ticks_nonneg (times : list Z) (s : state) :
  nonneg (remaining s) -> nonneg (remaining (ticks times s)).
Proof.
  revert s. induction times as [|t times IH]; intros s H.
  - exact H.
  - cbn [ticks]. apply IH, updateRemaining_nonneg.
Qed.

Lemma ticks_syncState (times : list Z) (s : state) :
  serverNow (ticks times s) = serverNow s
  /\ clientNow (ticks times s) = clientNow s.
Proof.
  revert s. induction times as [|t times IH]; intros s.
  - split; reflexivity.
  - cbn [ticks]. destruct (IH (updateRemaining t s)) as (-> & ->).
    destruct (updateRemaining_frame t s) as (_ & _ & -> & -> & _).
    split; reflexivity.
Qed.

Lemma inFlightFrom_frame (nested : bool) (a : attempt) (s : state) :
  storage (inFlightFrom nested a s) = storage s
  /\ serverEndTime (inFlightFrom nested a s) = serverEndTime s
  /\ serverNow (inFlightFrom nested a s) = serverNow s
  /\ clientNow (inFlightFrom nested a s) = clientNow s
  /\ isTimestampValid (inFlightFrom nested a s) = isTimestampValid s
  /\ syncing (inFlightFrom nested a s) = syncing s
  /\ errorMessage (inFlightFrom nested a s) = errorMessage s
  /\ retryCount (inFlightFrom nested a s) = retryCount s
  /\ isSyncDisabled (inFlightFrom nested a s) = isSyncDisabled s.
Proof.
  unfold inFlightFrom.
  match goal with
  | |- context [ticks (ticksInFlight a) ?x] =>
    destruct (ticks_frame (ticksInFlight a) x)
      as (-> & -> & _ & -> & -> & -> & -> & ->);
    destruct (ticks_syncState (ticksInFlight a) x) as (-> & ->)
  end.
  destruct nested; repeat split.
Qed.

Lemma inFlightFrom_nonneg (nested : bool) (a : attempt) (s : state) :
  nonneg (remaining s) -> nonneg (remaining (inFlightFrom nested a s)).
Proof.
  intros H. unfold inFlightFrom. apply ticks_nonneg.
  destruct nested; exact H.
Qed.

(** During the request of a retry no send time is recorded: the [finally]
    block of the calling level has cleared it. *)
Lemma inFlightFrom_nested (a : attempt) (s : state) :
  requestSendTime (inFlightFrom true a s) = Null.
Proof.
  unfold inFlightFrom.
  destruct (ticks_frame (ticksInFlight a)
              (cleanup (set_requestSendTime (sendTime a) s)))
    as (_ & _ & -> & _).
  reflexivity.
Qed.

Lemma retrying_frame (a : attempt) (err : error) (s0 : state) :
  storage (retrying a err s0) = storage s0
  /\ serverEndTime (retrying a err s0) = serverEndTime s0
  /\ serverNow (retrying a err s0) = serverNow s0
  /\ clientNow (retrying a err s0) = clientNow s0
  /\ isTimestampValid (retrying a err s0) = isTimestampValid s0
  /\ syncing (retrying a err s0) = syncing s0
  /\ retryCount (retrying a err s0) = retryCount s0 + 1
  /\ isSyncDisabled (retrying a err s0) = isSyncDisabled s0.
Proof.
  unfold retrying.
  match goal with
  | |- context [ticks (ticksInDelay a) ?x] =>
    destruct (ticks_frame (ticksInDelay a) x)
      as (-> & -> & _ & -> & -> & _ & -> & ->);
    destruct (ticks_syncState (ticksInDelay a) x) as (-> & ->)
  end.
  repeat split.
Qed.

Lemma retrying_nonneg (a : attempt) (err : error) (s0 : state) :
  nonneg (remaining s0) -> nonneg (remaining (retrying a err s0)).
Proof. intros H. unfold retrying. apply ticks_nonneg. exact H. Qed.

Lemma afterRetryFrom_frame (nested : bool) (a : attempt) (err : error)
      (s : state) :
  storage (afterRetryFrom nested a err s) = storage s
  /\ serverEndTime (afterRetryFrom nested a err s) = serverEndTime s
  /\ serverNow (afterRetryFrom nested a err s) = serverNow s
  /\ clientNow (afterRetryFrom nested a err s) = clientNow s
  /\ isTimestampValid (afterRetryFrom nested a err s) = isTimestampValid s
  /\ syncing (afterRetryFrom nested a err s) = syncing s
  /\ retryCount (afterRetryFrom nested a err s) = retryCount s + 1
  /\ isSyncDisabled (afterRetryFrom nested a err s) = isSyncDisabled s.
Proof.
  unfold afterRetryFrom.
  destruct (retrying_frame a err (inFlightFrom nested a s))
    as (-> & -> & -> & -> & -> & -> & -> & ->).
  destruct (inFlightFrom_frame nested a s)
    as (-> & -> & -> & -> & -> & -> & _ & -> & ->).
  repeat split.
Qed.

(** The unfolding of [syncWithRetry] on each kind of attempt. *)
Lemma run_resolved (nested : bool) (a : attempt) (r : response)
      (script : list attempt) (s : state) :
  settled a = Resolved r ->
  syncWithRetryFrom nested (a :: script) s
  = Some (cleanup (onResolved (settleTime a) r (inFlightFrom nested a s)))
  /\ attemptsFrom nested (a :: script) s = 1%nat.
Proof.
  intros H. cbn [syncWithRetryFrom attemptsFrom]. rewrite H.
  unfold inFlightFrom. destruct nested; split; reflexivity.
Qed.

Lemma run_aborted (nested : bool) (a : attempt) (err : error)
      (script : list attempt) (s : state) :
  settled a = Rejected err -> isAbort err = true ->
  syncWithRetryFrom nested (a :: script) s
  = Some (cleanup (set_errorMessage (Some [SyncCancelled])
                     (inFlightFrom nested a s)))
  /\ attemptsFrom nested (a :: script) s = 1%nat.
Proof.
  intros H Hab. cbn [syncWithRetryFrom attemptsFrom]. rewrite H, Hab.
  unfold inFlightFrom. destruct nested; split; reflexivity.
Qed.

Lemma run_retried (nested : bool) (a : attempt) (err : error)
      (script : list attempt) (s : state) :
  settled a = Rejected err -> isAbort err = false ->
  retryCount s < MAX_RETRIES ->
  syncWithRetryFrom nested (a :: script) s
  = syncWithRetryFrom true script (afterRetryFrom nested a err s)
  /\ attemptsFrom nested (a :: script) s
     = S (attemptsFrom true script (afterRetryFrom nested a err s)).
Proof.
  intros H Hab Hlt.
  destruct (inFlightFrom_frame nested a s)
    as (_ & _ & _ & _ & _ & _ & _ & Hrc & _).
  cbn [syncWithRetryFrom attemptsFrom]. rewrite H, Hab. cbv zeta.
  unfold afterRetryFrom, retrying.
  unfold inFlightFrom in *.
  destruct nested; rewrite Hrc;
    (destruct (Z.ltb_spec (retryCount s) MAX_RETRIES); [|lia]);
    rewrite <- Hrc; split; reflexivity.
Qed.

Lemma run_gave_up (nested : bool) (a : attempt) (err : error)
      (script : list attempt) (s : state) :
  settled a = Rejected err -> isAbort err = false ->
  MAX_RETRIES <= retryCount s ->
  syncWithRetryFrom nested (a :: script) s
  = Some (cleanup (onExhausted (settleTime a) (inFlightFrom nested a s)))
  /\ attemptsFrom nested (a :: script) s = 1%nat.
Proof.
  intros H Hab Hge.
  destruct (inFlightFrom_frame nested a s)
    as (_ & _ & _ & _ & _ & _ & _ & Hrc & _).
  cbn [syncWithRetryFrom attemptsFrom]. rewrite H, Hab. cbv zeta.
  unfold inFlightFrom in *.
  destruct nested; rewrite Hrc;
    (destruct (Z.ltb_spec (retryCount s) MAX_RETRIES); [lia|]);
    split; reflexivity.
Qed.

(** A [null] body: the counter is reset, the [TypeError] is caught, and
    the function calls itself, whatever the counter was. *)
Lemma run_null (nested : bool) (a : attempt) (script : list attempt)
      (s : state) :
  settled a = ResolvedNull ->
  syncWithRetryFrom nested (a :: script) s
  = syncWithRetryFrom true script
      (retrying a nullBodyError (set_retryCount 0 (inFlightFrom nested a s)))
  /\ attemptsFrom nested (a :: script) s
     = S (attemptsFrom true script
            (retrying a nullBodyError
               (set_retryCount 0 (inFlightFrom nested a s)))).
Proof.
  intros H. cbn [syncWithRetryFrom attemptsFrom]. rewrite H.
  unfold inFlightFrom. destruct nested; split; reflexivity.
Qed.

(** C9: four retryable failures in a row from [retryCount = 0], with the
    cache unusable when the last one arrives: [syncWithRetry] terminates,
    [isTimestampValid] is then false and [retryCount] is 0, and four
    requests were made, the first and [MAX_RETRIES = 3] retries, whatever
    the environment would have answered to a further one. *)
Theorem retry_exhaustion
  (a1 a2 a3 a4 : attempt) (rest : list attempt) (s : state) :
  retryCount s = 0 ->
  retryable a1 -> retryable a2 -> retryable a3 -> retryable a4 ->
  fst (useCachedData (settleTime a4) s) = false ->
  exists s' : state,
    syncWithRetry (a1 :: a2 :: a3 :: a4 :: rest) s = Some s'
    /\ isTimestampValid s' = false
    /\ retryCount s' = 0
    /\ attempts (a1 :: a2 :: a3 :: a4 :: rest) s = 4%nat
    /\ MAX_RETRIES = 3.
Proof.
  intros H0 (e1 & R1 & A1) (e2 & R2 & A2) (e3 & R3 & A3) (e4 & R4 & A4) Hcache.
  unfold syncWithRetry, attempts.
  set (s1 := afterRetryFrom false a1 e1 s).
  set (s2 := afterRetryFrom true a2 e2 s1).
  set (s3 := afterRetryFrom true a3 e3 s2).
  destruct (afterRetryFrom_frame false a1 e1 s)
    as (Hst1 & _ & _ & _ & _ & _ & Hrc1 & _).
  destruct (afterRetryFrom_frame true a2 e2 s1)
    as (Hst2 & _ & _ & _ & _ & _ & Hrc2 & _).
  destruct (afterRetryFrom_frame true a3 e3 s2)
    as (Hst3 & _ & _ & _ & _ & _ & Hrc3 & _).
  fold s1 in Hst1, Hrc1. fold s2 in Hst2, Hrc2. fold s3 in Hst3, Hrc3.
  destruct (run_retried false a1 e1 (a2 :: a3 :: a4 :: rest) s R1 A1)
    as (-> & ->); [rewrite H0; reflexivity|].
  fold s1.
  destruct (run_retried true a2 e2 (a3 :: a4 :: rest) s1 R2 A2)
    as (-> & ->); [rewrite Hrc1, H0; reflexivity|].
  fold s2.
  destruct (run_retried true a3 e3 (a4 :: rest) s2 R3 A3)
    as (-> & ->); [rewrite Hrc2, Hrc1, H0; reflexivity|].
  fold s3.
  destruct (run_gave_up true a4 e4 rest s3 R4 A4)
    as (-> & ->); [rewrite Hrc3, Hrc2, Hrc1, H0; unfold MAX_RETRIES; lia|].
  eexists. split; [reflexivity|].
  cbn [cleanup isTimestampValid retryCount set_requestSendTime].
  destruct (onExhausted_frame (settleTime a4) (inFlightFrom true a4 s3))
    as (_ & -> & -> & _).
  destruct (inFlightFrom_frame true a4 s3) as (Hst4 & _).
  rewrite (useCachedData_storage (settleTime a4) (inFlightFrom true a4 s3) s)
    by (rewrite Hst4, Hst3, Hst2, Hst1; reflexivity).
  rewrite Hcache, andb_false_r. repeat split.
Qed.

Lemma retry_exhaustion_witness :
  exists s' : state,
    syncWithRetry
      [exampleFailure 100; exampleFailure 1200; exampleFailure 4300;
       exampleFailure 9400] (initial None) = Some s'
    /\ isTimestampValid s' = false
    /\ retryCount s' = 0
    /\ attempts
         [exampleFailure 100; exampleFailure 1200; exampleFailure 4300;
          exampleFailure 9400] (initial None) = 4%nat
    /\ MAX_RETRIES = 3.
Proof.
  apply (retry_exhaustion (exampleFailure 100) (exampleFailure 1200)
           (exampleFailure 4300) (exampleFailure 9400) [] (initial None));
    try reflexivity;
    (eexists; split; reflexivity).
Defined.


(** What a run of [syncWithRetry] keeps, from a property its steps keep. *)
Lemma syncWithRetryFrom_keeps (P : state -> Prop) :
  (forall t s, P s -> P (updateRemaining t s)) ->
  (forall v s, P s -> P (set_requestSendTime v s)) ->
  (forall m s, P s -> P (set_errorMessage m s)) ->
  (forall n s, P s -> P (set_retryCount n s)) ->
  (forall now r s, P s -> P (onResolved now r s)) ->
  (forall now s, P s -> P (onExhausted now s)) ->
  forall (script : list attempt) (nested : bool) (s s' : state),
    P s -> syncWithRetryFrom nested script s = Some s' -> P s'.
Proof.
  intros Htick Hreq Hmsg Hrc Hres Hexh.
  assert (Hticks : forall times s, P s -> P (ticks times s)).
  { induction times as [|t times IH]; intros s Hs; [exact Hs|].
    cbn [ticks]. apply IH, Htick, Hs. }
  assert (Hfl : forall nested a s, P s -> P (inFlightFrom nested a s)).
  { intros nested a s Hs. unfold inFlightFrom. apply Hticks.
    destruct nested; unfold cleanup; auto. }
  assert (Hre : forall a err s, P s -> P (retrying a err s)).
  { intros a err s Hs. unfold retrying. apply Hticks. auto. }
  induction script as [|a script IH]; intros nested s s' Hs Hrun.
  - discriminate.
  - destruct (settled a) as [r| |err] eqn:Hset.
    + destruct (run_resolved nested a r script s Hset) as (Heq & _).
      rewrite Heq in Hrun. injection Hrun as <-. unfold cleanup. auto.
    + destruct (run_null nested a script s Hset) as (Heq & _).
      rewrite Heq in Hrun. apply IH in Hrun; auto.
    + destruct (isAbort err) eqn:Hab.
      * destruct (run_aborted nested a err script s Hset Hab) as (Heq & _).
        rewrite Heq in Hrun. injection Hrun as <-. unfold cleanup. auto.
      * destruct (Z.lt_ge_cases (retryCount s) MAX_RETRIES) as [Hlt|Hge].
        -- destruct (run_retried nested a err script s Hset Hab Hlt)
             as (Heq & _).
           rewrite Heq in Hrun. apply IH in Hrun; auto.
           unfold afterRetryFrom. auto.
        -- destruct (run_gave_up nested a err script s Hset Hab Hge)
             as (Heq & _).
           rewrite Heq in Hrun. injection Hrun as <-. unfold cleanup. auto.
Qed.

(** ** The guard around a sync *)

Lemma flushWatch_remaining (oldVal : value) (s : state) :
  remaining (flushWatch oldVal s) = remaining s.
Proof.
  unfold flushWatch, onServerEndTimeChange. split_ifs; reflexivity.
Qed.

(** [syncWithRetry] writes [remaining] through the timer's ticks only. *)
Lemma syncWithRetry_nonneg (script : list attempt) (s s' : state) :
  nonneg (remaining s) ->
  syncWithRetry script s = Some s' ->
  nonneg (remaining s').
Proof.
  unfold syncWithRetry.
  apply (syncWithRetryFrom_keeps (fun s => nonneg (remaining s)));
    try (intros; assumption).
  - intros t s0 _. apply updateRemaining_nonneg.
  - intros now r s0 H. destruct (onResolved_frame now r s0) as (-> & _).
    exact H.
  - intros now s0 H. destruct (onExhausted_frame now s0) as (-> & _).
    exact H.
Qed.

(** C3 at the failing input: a sync starts with 50 ms displayed; while the
    request is in flight the timer ticks past the estimated deadline and
    [remaining] drops to 0; the response (same deadline, server time one
    second before it) is accepted; the clamp of [syncNow] compares 0 with 50
    and does nothing, and the closing [updateRemaining] takes the 0 for "no
    previous value": [syncNow] completes with 1000 ms displayed. *)
Theorem syncNow_exceeds_presync :
  remaining exampleNearExpiry = Num 50
  /\ option_map remaining
       (syncWithRetry [exampleLateAnswer]
          (set_errorMessage None
             (set_syncing true (set_isSyncDisabled true exampleNearExpiry))))
     = Some (Num 0)
  /\ option_map remaining
       (syncNow true [exampleLateAnswer] 1700000060150 exampleNearExpiry)
     = Some (Num 1000).
Proof. repeat split. Qed.

(** What the guard of [syncNow] does ensure: starting from a display of
    [R > 0], the display at completion is at most [R] unless [remaining] is
    0 when [syncWithRetry] returns. *)
Lemma syncNow_clamp_unless_expired
  (isClient : bool) (script : list attempt) (finish R : Z) (s s' : state) :
  remaining s = Num R ->
  0 < R ->
  syncNow isClient script finish s = Some s' ->
  (remaining s' <= Num R)%js = true
  \/ option_map remaining
       (syncWithRetry script
          (set_errorMessage None
             (set_syncing true (set_isSyncDisabled true s))))
     = Some (Num 0).
Proof.
  intros HR Hpos Hrun. unfold syncNow in Hrun.
  destruct (negb isClient || syncing s || isSyncDisabled s).
  { injection Hrun as <-. left. rewrite HR.
    unfold JS.le, compare. cbn [to_number]. apply Z.leb_refl. }
  cbv zeta in Hrun.
  destruct (syncWithRetry script _) as [s1|] eqn:Hsync; [|discriminate].
  injection Hrun as <-.
  assert (Hnn : nonneg (remaining s1)).
  { apply (syncWithRetry_nonneg script
             (set_errorMessage None
                (set_syncing true (set_isSyncDisabled true s))) s1);
      [|exact Hsync].
    exists R. split; [exact HR|lia]. }
  destruct Hnn as (r1 & Hr1 & Hr1pos).
  cbn [option_map]. rewrite Hr1.
  destruct (Z.eq_dec r1 0) as [->|Hr1nz]; [right; reflexivity|left].
  rewrite flushWatch_remaining, Hr1.
  cbn [remaining set_errorMessage set_syncing set_isSyncDisabled].
  rewrite HR.
  set (s3 := if (JS.gt (Num r1) (Num R) && JS.gt (Num R) (Num 0))%bool
             then set_remaining (Num R) (flushWatch (serverEndTime s) s1)
             else flushWatch (serverEndTime s) s1).
  assert (H3 : exists r3 : Z, remaining s3 = Num r3 /\ 0 < r3 <= R).
  { subst s3. unfold JS.gt, compare. cbn [to_number].
    destruct (Z.gtb_spec r1 R), (Z.gtb_spec R 0); cbn [andb];
      rewrite ?flushWatch_remaining, ?Hr1;
      eexists; (split; [reflexivity|lia]). }
  destruct H3 as (r3 & Hr3 & Hr3b).
  destruct (validSyncState (set_syncing false s3)) eqn:Hval.
  - destruct (updateRemaining_valid finish _ Hval) as (cand & _ & ->).
    cbn [remaining set_syncing]. rewrite Hr3.
    unfold JS.le, compare, ceiling. cbn [to_number].
    destruct (Z.eqb_spec r3 0); [lia|]. apply Z.leb_le. lia.
  - rewrite updateRemaining_invalid by assumption.
    unfold JS.le, compare. cbn. apply Z.leb_le. lia.
Qed.

(** ** Invariants of the reachable states *)

Lemma useCachedData_rejected (now : Z) (s : state) :
  fst (useCachedData now s) = false -> snd (useCachedData now s) = s.
Proof.
  unfold useCachedData. destruct (storage s) as [cached|]; [|reflexivity].
  cbv zeta. split_ifs; simpl; intros H; try discriminate; reflexivity.
Qed.

Lemma validateTimestamps_deadlineOK (now : Z) (e n : value) (s : state) :
  deadlineOK s -> deadlineOK (snd (validateTimestamps now e n s)).
Proof.
  intros H. destruct (fst (validateTimestamps now e n s)) eqn:Hv.
  - destruct (validateTimestamps_installs_nonzero _ _ _ _ Hv) as (E & HE & H0).
    right. exists E. split; [exact HE|lia].
  - destruct (validateTimestamps_rejected _ _ _ _ Hv) as (t & ->). exact H.
Qed.

Lemma useCachedData_deadlineOK (now : Z) (s : state) :
  deadlineOK s -> deadlineOK (snd (useCachedData now s)).
Proof.
  intros H. destruct (fst (useCachedData now s)) eqn:Hv.
  - destruct (useCachedData_installs_nonzero _ _ Hv) as (E & HE & H0).
    right. exists E. auto.
  - rewrite useCachedData_rejected by assumption. exact H.
Qed.

Lemma onResolved_deadlineOK (now : Z) (r : response) (s : state) :
  deadlineOK s -> deadlineOK (onResolved now r s).
Proof.
  intros H. unfold onResolved. cbv zeta.
  assert (H1 := validateTimestamps_deadlineOK now
                  (r_e r ||| r_serverEndTime r)%js (r_s r ||| r_serverNow r)%js
                  (set_retryCount 0 s) H).
  destruct (validateTimestamps now _ _ (set_retryCount 0 s)) as [valid s1].
  cbn [snd] in H1. destruct valid; [exact H1|].
  assert (H2 := useCachedData_deadlineOK now s1 H1).
  destruct (useCachedData now s1) as [cacheValid s2].
  cbn [snd] in H2. destruct cacheValid; exact H2.
Qed.

Lemma onExhausted_deadlineOK (now : Z) (s : state) :
  deadlineOK s -> deadlineOK (onExhausted now s).
Proof.
  intros H. unfold onExhausted. cbv zeta.
  assert (H1 := useCachedData_deadlineOK now
                  (set_errorMessage (Some [SyncFailedUseCache]) s) H).
  destruct (useCachedData now _) as [cacheValid s1].
  cbn [snd] in H1. destruct cacheValid; exact H1.
Qed.

Lemma ticks_deadlineOK (times : list Z) (s : state) :
  deadlineOK s -> deadlineOK (ticks times s).
Proof.
  unfold deadlineOK. destruct (ticks_frame times s) as (_ & -> & _). auto.
Qed.

Lemma syncWithRetry_deadlineOK (script : list attempt) (s s' : state) :
  deadlineOK s -> syncWithRetry script s = Some s' -> deadlineOK s'.
Proof.
  unfold syncWithRetry.
  apply (syncWithRetryFrom_keeps deadlineOK); try (intros; assumption).
  - intros t s0 H. unfold deadlineOK.
    destruct (updateRemaining_frame t s0) as (_ & -> & _). exact H.
  - intros now r s0 H. apply onResolved_deadlineOK. exact H.
  - intros now s0 H. apply onExhausted_deadlineOK. exact H.
Qed.

Lemma flushWatch_deadlineOK (oldVal : value) (s : state) :
  (oldVal = Null \/ exists E : Z, oldVal = Num E /\ E <> 0) ->
  deadlineOK s -> deadlineOK (flushWatch oldVal s).
Proof.
  intros Hold Hs. unfold flushWatch, onServerEndTimeChange.
  split_ifs; try exact Hs; try exact Hold.
Qed.

Lemma syncNow_deadlineOK
  (isClient : bool) (script : list attempt) (finish : Z) (s s' : state) :
  deadlineOK s -> syncNow isClient script finish s = Some s' -> deadlineOK s'.
Proof.
  intros Hok Hrun. unfold syncNow in Hrun.
  destruct (negb isClient || syncing s || isSyncDisabled s).
  { injection Hrun as <-. exact Hok. }
  cbv zeta in Hrun.
  destruct (syncWithRetry script _) as [s1|] eqn:Hsync; [|discriminate].
  injection Hrun as <-.
  apply syncWithRetry_deadlineOK in Hsync; [|exact Hok].
  unfold deadlineOK.
  destruct (updateRemaining_frame finish
              (set_syncing false
                 (if ((remaining (flushWatch (serverEndTime s) s1)
                       > remaining s)%js
                      && (remaining s > 0)%js)%bool
                  then set_remaining (remaining s)
                         (flushWatch (serverEndTime s) s1)
                  else flushWatch (serverEndTime s) s1)))
    as (_ & Hend & _).
  cbn [serverEndTime set_errorMessage set_syncing set_isSyncDisabled
         remaining].
  cbn [serverEndTime set_errorMessage set_syncing set_isSyncDisabled
         remaining] in Hend.
  rewrite Hend.
  assert (Hf := flushWatch_deadlineOK (serverEndTime s) s1 Hok Hsync).
  destruct (_ && _)%bool; exact Hf.
Qed.

(** In every reachable state [remaining] is a number that is not negative
    and the deadline is unset or a number other than 0. *)
Lemma reachable_invariant (s : state) :
  reachable s -> nonneg (remaining s) /\ deadlineOK s.
Proof.
  induction 1 as [stored | now s _ [IHr IHd] | now s _ [IHr IHd]
                  | isClient script finish s s' _ [IHr IHd] Hrun
                  | s _ [IHr IHd]].
  - split; [exists 0; split; [reflexivity|lia] | left; reflexivity].
  - unfold onMounted.
    assert (Hd := useCachedData_deadlineOK now s IHd).
    destruct (useCachedData now s) as [cacheValid s1]. cbn [snd] in Hd.
    split.
    + rewrite flushWatch_remaining. apply updateRemaining_nonneg.
    + apply flushWatch_deadlineOK; [exact IHd|].
      unfold deadlineOK.
      destruct (updateRemaining_frame now s1) as (_ & -> & _). exact Hd.
  - split; [apply updateRemaining_nonneg|].
    unfold deadlineOK.
    destruct (updateRemaining_frame now s) as (_ & -> & _). exact IHd.
  - split; [|apply (syncNow_deadlineOK _ _ _ _ _ IHd Hrun)].
    unfold syncNow in Hrun.
    destruct (negb isClient || syncing s || isSyncDisabled s).
    + injection Hrun as <-. exact IHr.
    + cbv zeta in Hrun.
      destruct (syncWithRetry script _) as [s1|]; [|discriminate].
      injection Hrun as <-. apply updateRemaining_nonneg.
  - split; [exact IHr | exact IHd].
Qed.

(** * Further properties of the composable *)

(** ** The decomposition *)

(** X1: for a display that is not negative the parts are numbers within
    their ranges (hours below 24, minutes and seconds below 60, hundredths
    below 100) and give the display back up to the last digit of the
    milliseconds: nothing is rounded up. *)
Theorem parts_decomposition (s : state) (r : Z) :
  remaining s = Num r ->
  0 <= r ->
  exists d h m sec cs : Z,
    days (parts s) = Num d /\ hours (parts s) = Num h
    /\ minutes (parts s) = Num m /\ seconds (parts s) = Num sec
    /\ milliseconds (parts s) = Num cs
    /\ 0 <= d /\ 0 <= h < 24 /\ 0 <= m < 60 /\ 0 <= sec < 60 /\ 0 <= cs < 100
    /\ r = (((d * 24 + h) * 60 + m) * 60 + sec) * 1000 + cs * 10 + r mod 10.
Proof.
  intros Hr Hpos. unfold parts. cbv zeta. rewrite Hr.
  unfold Math_floor_div, js_rem, arith, MS_PER_SECOND. cbn [to_number].
  assert (HT : 0 <= r / 1000) by (apply Z.div_pos; lia).
  rewrite !Z.rem_mod_nonneg by lia.
  do 5 eexists. repeat (split; [reflexivity|]).
  Z.div_mod_to_equations. lia.
Qed.

Lemma parts_decomposition_witness :
  exists d h m sec cs : Z,
    days (parts exampleLong) = Num d /\ hours (parts exampleLong) = Num h
    /\ minutes (parts exampleLong) = Num m
    /\ seconds (parts exampleLong) = Num sec
    /\ milliseconds (parts exampleLong) = Num cs
    /\ 0 <= d /\ 0 <= h < 24 /\ 0 <= m < 60 /\ 0 <= sec < 60 /\ 0 <= cs < 100
    /\ 180184567
       = (((d * 24 + h) * 60 + m) * 60 + sec) * 1000 + cs * 10
         + 180184567 mod 10.
Proof.
  apply (parts_decomposition exampleLong 180184567); [reflexivity|lia].
Defined.

(** ** Units *)

(** X2: an instant between September 2001 and the year 33658 has the same
    canonical value whether it is given in seconds or in milliseconds. *)
Theorem normalize_unit_independent (x : Z) :
  10 ^ 9 <= x < 10 ^ 12 ->
  normalizeTimestamp (Num x) = Num (x * 1000)
  /\ normalizeTimestamp (Num (x * 1000)) = Num (x * 1000).
Proof.
  intros H. rewrite !normalizeTimestamp_Num. unfold normalizeZ.
  destruct (Z.ltb_spec x (10 ^ 12)); [|lia].
  destruct (Z.ltb_spec (x * 1000) (10 ^ 12)); [lia|].
  split; reflexivity.
Qed.

Lemma normalize_unit_independent_witness :
  normalizeTimestamp (Num 1700000000) = Num (1700000000 * 1000)
  /\ normalizeTimestamp (Num (1700000000 * 1000)) = Num (1700000000 * 1000).
Proof. apply (normalize_unit_independent 1700000000). lia. Defined.

Lemma validateTimestamps_normalized (now e n e' n' : Z) (s : state) :
  0 < e -> 0 < n -> 0 < e' -> 0 < n' ->
  normalizeZ e = normalizeZ e' -> normalizeZ n = normalizeZ n' ->
  validateTimestamps now (Num e) (Num n) s
  = validateTimestamps now (Num e') (Num n') s.
Proof.
  intros He Hn He' Hn' HE HN. unfold validateTimestamps.
  rewrite !guard_Num.
  destruct (Z.ltb_spec 0 e); [|lia]. destruct (Z.ltb_spec 0 n); [|lia].
  destruct (Z.ltb_spec 0 e'); [|lia]. destruct (Z.ltb_spec 0 n'); [|lia].
  cbn [negb andb]. rewrite !normalizeTimestamp_Num, HE, HN. reflexivity.
Qed.

(** X3: [validateTimestamps] does not depend on the unit of either input:
    with the deadline and the server time each given in seconds or in
    milliseconds, in any combination, the verdict and the resulting state
    are the same. *)
Theorem validateTimestamps_unit_independent (now e n : Z) (s : state) :
  10 ^ 9 <= e < 10 ^ 12 ->
  10 ^ 9 <= n < 10 ^ 12 ->
  validateTimestamps now (Num e) (Num (n * 1000)) s
  = validateTimestamps now (Num e) (Num n) s
  /\ validateTimestamps now (Num (e * 1000)) (Num n) s
     = validateTimestamps now (Num e) (Num n) s
  /\ validateTimestamps now (Num (e * 1000)) (Num (n * 1000)) s
     = validateTimestamps now (Num e) (Num n) s.
Proof.
  intros He Hn.
  assert (HE : normalizeZ (e * 1000) = normalizeZ e).
  { unfold normalizeZ. destruct (Z.ltb_spec e (10 ^ 12)); [|lia].
    destruct (Z.ltb_spec (e * 1000) (10 ^ 12)); [lia|reflexivity]. }
  assert (HN : normalizeZ (n * 1000) = normalizeZ n).
  { unfold normalizeZ. destruct (Z.ltb_spec n (10 ^ 12)); [|lia].
    destruct (Z.ltb_spec (n * 1000) (10 ^ 12)); [lia|reflexivity]. }
  repeat split; apply validateTimestamps_normalized; auto; lia.
Qed.

Lemma validateTimestamps_unit_independent_witness :
  validateTimestamps 1700000000500 (Num 1700000060)
    (Num (1700000000 * 1000)) exampleSending
  = validateTimestamps 1700000000500 (Num 1700000060) (Num 1700000000)
      exampleSending
  /\ validateTimestamps 1700000000500 (Num (1700000060 * 1000))
       (Num 1700000000) exampleSending
     = validateTimestamps 1700000000500 (Num 1700000060) (Num 1700000000)
         exampleSending
  /\ validateTimestamps 1700000000500 (Num (1700000060 * 1000))
       (Num (1700000000 * 1000)) exampleSending
     = validateTimestamps 1700000000500 (Num 1700000060) (Num 1700000000)
         exampleSending.
Proof.
  apply (validateTimestamps_unit_independent 1700000000500 1700000060
           1700000000 exampleSending); lia.
Defined.

(** ** Validation *)

(** X4: on a pair of integer-valued numbers, an acceptance installs a
    positive deadline and a positive server time, the deadline at most 365
    days after the installed server time whether or not the latency was
    added; it writes neither [clientNow] nor [remaining], and it leaves an
    earlier [errorMessage] in place.  (Values that are not numbers are not
    covered: [Dyn] tells what the code does with a boolean.) *)
Theorem validateTimestamps_accepted_range (now e n : Z) (s : state) :
  fst (validateTimestamps now (Num e) (Num n) s) = true ->
  exists E N : Z,
    serverEndTime (snd (validateTimestamps now (Num e) (Num n) s)) = Num E
    /\ serverNow (snd (validateTimestamps now (Num e) (Num n) s)) = Num N
    /\ 0 < E /\ 0 < N /\ E - N <= 31536000000
    /\ clientNow (snd (validateTimestamps now (Num e) (Num n) s))
       = clientNow s
    /\ remaining (snd (validateTimestamps now (Num e) (Num n) s))
       = remaining s
    /\ errorMessage (snd (validateTimestamps now (Num e) (Num n) s))
       = errorMessage s.
Proof.
  intros H.
  destruct (validateTimestamps_accepted_inv _ _ _ _ H)
    as (e' & n' & He' & Hn' & He & Hn & Hlo & Hhi).
  injection He' as <-. injection Hn' as <-.
  rewrite (validateTimestamps_accepted_state _ _ _ _ H).
  assert (HE := normalizeZ_pos e He). assert (HN := normalizeZ_pos n Hn).
  destruct (truthy (requestSendTime s)) eqn:Ht.
  - apply truthy_inv in Ht as (T & -> & _).
    unfold JS.gt, JS.sub, JS.add, compare, arith. cbn [to_number].
    change REQUEST_DELAY_TOLERANCE with 2000.
    destruct (Z.gtb_spec (now - T) 2000).
    + exists (normalizeZ e), (normalizeZ n + (now - T)).
      repeat split; try reflexivity; lia.
    + exists (normalizeZ e), (normalizeZ n).
      repeat split; try reflexivity; lia.
  - exists (normalizeZ e), (normalizeZ n).
    repeat split; try reflexivity; lia.
Qed.

Lemma validateTimestamps_accepted_range_witness :
  exists E N : Z,
    serverEndTime
      (snd (validateTimestamps 1700000005000 (Num 1700000060)
              (Num 1700000001) exampleSending)) = Num E
    /\ serverNow
         (snd (validateTimestamps 1700000005000 (Num 1700000060)
                 (Num 1700000001) exampleSending)) = Num N
    /\ 0 < E /\ 0 < N /\ E - N <= 31536000000
    /\ clientNow
         (snd (validateTimestamps 1700000005000 (Num 1700000060)
                 (Num 1700000001) exampleSending))
       = clientNow exampleSending
    /\ remaining
         (snd (validateTimestamps 1700000005000 (Num 1700000060)
                 (Num 1700000001) exampleSending))
       = remaining exampleSending
    /\ errorMessage
         (snd (validateTimestamps 1700000005000 (Num 1700000060)
                 (Num 1700000001) exampleSending))
       = errorMessage exampleSending.
Proof.
  apply (validateTimestamps_accepted_range 1700000005000 1700000060
           1700000001 exampleSending).
  reflexivity.
Defined.

(** ** The cache *)

(** X5: a snapshot stored 24 hours ago or earlier is never used, whatever
    it holds: [useCachedData] returns false and writes nothing. *)
Theorem useCachedData_too_old (now a : Z) (cached : snapshot) (s : state) :
  storage s = Some cached ->
  c_syncedAt cached = Num a ->
  86400000 <= now - a ->
  useCachedData now s = (false, s).
Proof.
  intros Hc Ha Hage. unfold useCachedData. rewrite Hc.
  destruct (! c_serverEndTime cached || ! c_serverNow cached
            || ! c_clientNow cached)%js; [reflexivity|].
  cbv zeta. rewrite Ha.
  unfold JS.ge, JS.sub, compare, arith. cbn [to_number].
  change MAX_CACHE_AGE with 86400000.
  destruct (Z.geb_spec (now - a) 86400000); [reflexivity|lia].
Qed.

Lemma useCachedData_too_old_witness :
  useCachedData 1700090000000 exampleStale = (false, exampleStale).
Proof.
  apply (useCachedData_too_old 1700090000000 1700000000000
           {| c_serverEndTime := 1700100000000;
              c_serverNow := 1700000000000;
              c_clientNow := 1700000000000;
              c_syncedAt := 1700000000000 |} exampleStale);
    [reflexivity | reflexivity | lia].
Defined.

(** X6: whenever [useCachedData] returns false, for a missing snapshot, a
    missing field, an old or an expired snapshot, every ref is as before
    the call: nothing of the snapshot is installed and no message is set. *)
Theorem useCachedData_rejection_writes_nothing (now : Z) (s : state) :
  fst (useCachedData now s) = false ->
  useCachedData now s = (false, s).
Proof.
  intros H. rewrite (surjective_pairing (useCachedData now s)), H.
  rewrite useCachedData_rejected by assumption. reflexivity.
Qed.

Lemma useCachedData_rejection_writes_nothing_witness :
  useCachedData 1700000001000 exampleBroken = (false, exampleBroken).
Proof.
  apply (useCachedData_rejection_writes_nothing 1700000001000 exampleBroken).
  reflexivity.
Defined.

(** X7: an accepted snapshot restarts the estimate at the snapshot's own
    server time: with [clientNow] set to the time of the call and
    [serverNow] to the stored value, the candidate at any later reading [t]
    is the normalised deadline minus the normalised stored server time
    minus the time since the call; the time between the snapshot's
    [clientNow] and the call is not counted. *)
Theorem useCachedData_restarts_estimate (now : Z) (s : state) :
  fst (useCachedData now s) = true ->
  exists (cached : snapshot) (E S : Z),
    storage s = Some cached
    /\ c_serverEndTime cached = Num E /\ c_serverNow cached = Num S
    /\ clientNow (snd (useCachedData now s)) = Num now
    /\ forall t : Z,
         candidateRemaining t (snd (useCachedData now s))
         = Num (normalizeZ E - normalizeZ S - (t - now)).
Proof.
  intros H.
  destruct (useCachedData_accepted now s H)
    as (cached & E & S & C & Hc & HE & HS & _ & _ & _ & _ & _ & _ & ->).
  exists cached, E, S. repeat split; try assumption.
  intros t. unfold candidateRemaining.
  cbn [serverEndTime serverNow clientNow set_clientNow set_serverNow
         set_serverEndTime].
  unfold JS.sub, JS.add, arith. cbn [to_number]. f_equal. lia.
Qed.

Lemma useCachedData_restarts_estimate_witness :
  exists (cached : snapshot) (E S : Z),
    storage exampleCached = Some cached
    /\ c_serverEndTime cached = Num E /\ c_serverNow cached = Num S
    /\ clientNow (snd (useCachedData 1700000000000 exampleCached))
       = Num 1700000000000
    /\ forall t : Z,
         candidateRemaining t (snd (useCachedData 1700000000000 exampleCached))
         = Num (normalizeZ E - normalizeZ S - (t - 1700000000000)).
Proof.
  apply (useCachedData_restarts_estimate 1700000000000 exampleCached).
  reflexivity.
Defined.

(** ** The tick, further *)

(** The whole state a tick produces on a usable SyncState. *)
Lemma updateRemaining_valid_state (now c : Z) (s : state) :
  validSyncState s = true ->
  candidateRemaining now s = Num c ->
  updateRemaining now s
  = set_debugInfo
      (Some {| d_serverEndTime := serverEndTime s;
               d_serverNow := serverNow s;
               d_clientNow := clientNow s;
               d_clientTimeElapsed := (Num now - clientNow s)%js;
               d_currentServerTime :=
                 (serverNow s + (Num now - clientNow s))%js;
               d_newRemaining := Num c;
               d_requestDelay :=
                 if truthy (requestSendTime s)
                 then (Num now - requestSendTime s)%js
                 else Num 0 |})
      (set_isExpired (Z.max 0 (Z.min (ceiling (remaining s) c) c) <=? 0)
         (set_remaining
            (Num (Z.max 0 (Z.min (ceiling (remaining s) c) c))) s)).
Proof.
  intros H Hc.
  destruct (validSyncState_inv s H)
    as (E & S & C & Hv & HE & HS & HC & HE0 & HS0 & HC0).
  rewrite (candidateRemaining_Num now E S C) in Hc by assumption.
  injection Hc as <-.
  unfold updateRemaining, JS.not.
  rewrite Hv, !HE, !HS, !HC, !truthy_nonzero by assumption.
  cbn [negb orb]. cbv zeta.
  cbn [remaining set_remaining serverEndTime serverNow clientNow
         requestSendTime set_isExpired].
  rewrite HE, HS, HC.
  change (Num E - (Num S + (Num now - Num C)))%js
    with (Num (E - (S + (now - C)))).
  rewrite or_ceiling. reflexivity.
Qed.

Lemma updateRemaining_isExpired (now : Z) (s : state) :
  isExpired (updateRemaining now s) = true
  <-> remaining (updateRemaining now s) = Num 0.
Proof.
  destruct (validSyncState s) eqn:H.
  - destruct (updateRemaining_valid now s H) as (c & Hc & _).
    rewrite (updateRemaining_valid_state now c s H Hc).
    cbn [isExpired remaining set_debugInfo set_isExpired set_remaining].
    rewrite Z.leb_le. split.
    + intros Hle. f_equal. lia.
    + intros Heq. injection Heq as ->. lia.
  - rewrite updateRemaining_invalid by assumption. split; reflexivity.
Qed.

(** X8: a tick repeated at the same clock reading changes nothing: the
    second run returns the state the first one left, display, expiry flag
    and debug record included. *)
Theorem updateRemaining_idempotent (now : Z) (s : state) :
  nonneg (remaining s) ->
  updateRemaining now (updateRemaining now s) = updateRemaining now s.
Proof.
  intros (r0 & Hr0 & Hpos).
  destruct (validSyncState s) eqn:H.
  - destruct (updateRemaining_valid now s H) as (c & Hc & _).
    assert (H1 : validSyncState (updateRemaining now s) = true)
      by (rewrite updateRemaining_validSyncState; exact H).
    assert (Hc1 : candidateRemaining now (updateRemaining now s) = Num c)
      by (rewrite updateRemaining_candidate; exact Hc).
    rewrite (updateRemaining_valid_state now c _ H1 Hc1).
    rewrite (updateRemaining_valid_state now c s H Hc).
    cbn [remaining serverEndTime serverNow clientNow requestSendTime
           set_debugInfo set_isExpired set_remaining].
    rewrite Hr0.
    assert (Heq : Z.max 0
                    (Z.min (ceiling (Num (Z.max 0 (Z.min (ceiling (Num r0) c) c)))
                              c) c)
                  = Z.max 0 (Z.min (ceiling (Num r0) c) c)).
    { unfold ceiling.
      repeat match goal with
             | |- context [?a =? 0] => destruct (Z.eqb_spec a 0)
             end; lia. }
    rewrite Heq. reflexivity.
  - rewrite (updateRemaining_invalid now s) by assumption.
    rewrite updateRemaining_invalid by exact H. reflexivity.
Qed.

Lemma updateRemaining_idempotent_witness :
  updateRemaining 1700000059500
    (updateRemaining 1700000059500 exampleCounting)
  = updateRemaining 1700000059500 exampleCounting.
Proof.
  apply (updateRemaining_idempotent 1700000059500 exampleCounting).
  exists 1000. split; [reflexivity|lia].
Defined.

(** X9: after a tick on a SyncState whose three refs hold [null] or
    numbers, [isExpired] is true exactly when the display is 0, and the
    display is a number that is not negative. *)
Theorem updateRemaining_expired_iff_zero (now : Z) (s : state) :
  numericSyncState s ->
  (isExpired (updateRemaining now s) = true
   <-> remaining (updateRemaining now s) = Num 0)
  /\ nonneg (remaining (updateRemaining now s)).
Proof.
  intros _.
  split; [apply updateRemaining_isExpired | apply updateRemaining_nonneg].
Qed.

Lemma updateRemaining_expired_iff_zero_witness :
  (isExpired (updateRemaining 1700000059500 exampleCounting) = true
   <-> remaining (updateRemaining 1700000059500 exampleCounting) = Num 0)
  /\ nonneg (remaining (updateRemaining 1700000059500 exampleCounting)).
Proof.
  apply (updateRemaining_expired_iff_zero 1700000059500 exampleCounting).
  repeat split; right; eexists; reflexivity.
Defined.

(** X10: on a usable SyncState the display after a tick never exceeds the
    current estimate (nor 0 when the estimate is negative), and it never
    exceeds a previous display that was a positive number. *)
Theorem updateRemaining_bounded (now : Z) (s : state) :
  validSyncState s = true ->
  exists c r : Z,
    candidateRemaining now s = Num c
    /\ remaining (updateRemaining now s) = Num r
    /\ 0 <= r <= Z.max 0 c
    /\ forall p : Z, remaining s = Num p -> 0 < p -> r <= p.
Proof.
  intros H. destruct (updateRemaining_valid now s H) as (c & Hc & Hr).
  exists c, (Z.max 0 (Z.min (ceiling (remaining s) c) c)).
  repeat split; try assumption; try lia.
  intros p Hp Hpos. rewrite Hp. unfold ceiling.
  destruct (Z.eqb_spec p 0); lia.
Qed.

Lemma updateRemaining_bounded_witness :
  exists c r : Z,
    candidateRemaining 1700000059500 exampleCounting = Num c
    /\ remaining (updateRemaining 1700000059500 exampleCounting) = Num r
    /\ 0 <= r <= Z.max 0 c
    /\ forall p : Z, remaining exampleCounting = Num p -> 0 < p -> r <= p.
Proof.
  apply (updateRemaining_bounded 1700000059500 exampleCounting). reflexivity.
Defined.

(** X11: once a tick has displayed 0, every later tick on the same
    SyncState, the clock not going back, displays 0 and keeps [isExpired]
    set: without a new sync an expired countdown does not restart. *)
Theorem expiry_is_stable (t1 t2 : Z) (s : state) :
  nonneg (remaining s) ->
  t1 <= t2 ->
  isExpired (updateRemaining t1 s) = true ->
  isExpired (updateRemaining t2 (updateRemaining t1 s)) = true
  /\ remaining (updateRemaining t2 (updateRemaining t1 s)) = Num 0.
Proof.
  intros Hnn Ht Hexp.
  apply updateRemaining_isExpired in Hexp.
  assert (Hle := updateRemaining_twice t1 t2 s Hnn Ht).
  destruct (updateRemaining_nonneg t2 (updateRemaining t1 s))
    as (r2 & Hr2 & Hpos).
  rewrite Hexp, Hr2 in Hle. unfold JS.le, compare in Hle.
  cbn [to_number] in Hle. apply Z.leb_le in Hle.
  assert (r2 = 0) by lia. subst r2.
  split; [apply updateRemaining_isExpired|]; exact Hr2.
Qed.

Lemma expiry_is_stable_witness :
  isExpired
    (updateRemaining 1700000061000
       (updateRemaining 1700000060500 exampleCounting)) = true
  /\ remaining
       (updateRemaining 1700000061000
          (updateRemaining 1700000060500 exampleCounting)) = Num 0.
Proof.
  apply (expiry_is_stable 1700000060500 1700000061000 exampleCounting).
  - exists 1000. split; [reflexivity|lia].
  - lia.
  - reflexivity.
Defined.

(** ** The sync cycle, further *)

(** What every run of [syncWithRetry] keeps. *)
Lemma syncWithRetryFrom_frame (script : list attempt) (nested : bool)
      (s s' : state) :
  syncWithRetryFrom nested script s = Some s' ->
  requestSendTime s' = Null
  /\ syncing s' = syncing s
  /\ isSyncDisabled s' = isSyncDisabled s
  /\ (isTimestampValid s = false -> isTimestampValid s' = false)
  /\ (0 <= retryCount s <= MAX_RETRIES -> 0 <= retryCount s' <= MAX_RETRIES).
Proof.
  revert nested s s'.
  induction script as [|a script IH]; intros nested s s' Hrun.
  - discriminate.
  - destruct (inFlightFrom_frame nested a s)
      as (_ & _ & _ & _ & Hv & Hsy & _ & Hrc & Hdis).
    destruct (settled a) as [r| |err] eqn:Hset.
    + destruct (run_resolved nested a r script s Hset) as (Heq & _).
      rewrite Heq in Hrun. injection Hrun as <-.
      destruct (onResolved_frame (settleTime a) r (inFlightFrom nested a s))
        as (_ & Hv' & Hrc' & Hsy' & Hdis').
      cbn [cleanup requestSendTime syncing isSyncDisabled isTimestampValid
             retryCount set_requestSendTime].
      rewrite Hv', Hrc', Hsy', Hdis', Hv, Hsy, Hdis.
      unfold MAX_RETRIES. repeat split; auto; lia.
    + destruct (run_null nested a script s Hset) as (Heq & _).
      rewrite Heq in Hrun.
      destruct (IH _ _ _ Hrun) as (Hq2 & Hsy2 & Hdis2 & Hv2 & Hrc2).
      destruct (retrying_frame a nullBodyError
                  (set_retryCount 0 (inFlightFrom nested a s)))
        as (_ & _ & _ & _ & Hva & Hsya & Hrca & Hdisa).
      cbn [isTimestampValid syncing retryCount isSyncDisabled set_retryCount]
        in Hva, Hsya, Hrca, Hdisa.
      rewrite Hsy2, Hdis2, Hsya, Hdisa, Hsy, Hdis.
      repeat split; auto.
      * intros Hf. apply Hv2. rewrite Hva, Hv. exact Hf.
      * apply Hrc2. rewrite Hrca. unfold MAX_RETRIES. lia.
      * apply Hrc2. rewrite Hrca. unfold MAX_RETRIES. lia.
    + destruct (isAbort err) eqn:Hab.
      * destruct (run_aborted nested a err script s Hset Hab) as (Heq & _).
        rewrite Heq in Hrun. injection Hrun as <-.
        cbn [cleanup requestSendTime syncing isSyncDisabled isTimestampValid
               retryCount set_requestSendTime set_errorMessage].
        rewrite Hv, Hsy, Hdis, Hrc. repeat split; auto; lia.
      * destruct (Z.lt_ge_cases (retryCount s) MAX_RETRIES) as [Hlt|Hge].
        -- destruct (run_retried nested a err script s Hset Hab Hlt)
             as (Heq & _).
           rewrite Heq in Hrun.
           destruct (IH _ _ _ Hrun) as (Hq2 & Hsy2 & Hdis2 & Hv2 & Hrc2).
           destruct (afterRetryFrom_frame nested a err s)
             as (_ & _ & _ & _ & Hva & Hsya & Hrca & Hdisa).
           rewrite Hsy2, Hdis2, Hsya, Hdisa.
           repeat split; auto.
           ++ intros Hf. apply Hv2. rewrite Hva. exact Hf.
           ++ apply Hrc2. lia.
           ++ apply Hrc2. lia.
        -- destruct (run_gave_up nested a err script s Hset Hab Hge)
             as (Heq & _).
           rewrite Heq in Hrun. injection Hrun as <-.
           destruct (onExhausted_frame (settleTime a) (inFlightFrom nested a s))
             as (_ & Hrc' & Hv' & Hsy' & Hdis').
           cbn [cleanup requestSendTime syncing isSyncDisabled isTimestampValid
                  retryCount set_requestSendTime].
           rewrite Hv', Hrc', Hsy', Hdis', Hv, Hsy, Hdis.
           unfold MAX_RETRIES. repeat split; auto; try lia.
           intros ->. reflexivity.
Qed.

Lemma syncWithRetry_frame (script : list attempt) (s s' : state) :
  syncWithRetry script s = Some s' ->
  requestSendTime s' = Null
  /\ syncing s' = syncing s
  /\ isSyncDisabled s' = isSyncDisabled s
  /\ (isTimestampValid s = false -> isTimestampValid s' = false)
  /\ (0 <= retryCount s <= MAX_RETRIES -> 0 <= retryCount s' <= MAX_RETRIES).
Proof. apply syncWithRetryFrom_frame. Qed.

(** X12: however a run of [syncWithRetry] ends (a response accepted or
    rejected, an abort, the retries used up), no request send time is
    recorded when it returns: the [finally] block of the last level has
    cleared it. *)
Theorem syncWithRetry_clears_requestSendTime
  (script : list attempt) (s s' : state) :
  syncWithRetry script s = Some s' ->
  requestSendTime s' = Null.
Proof. intros H. apply (syncWithRetry_frame script s s' H). Qed.

Lemma syncWithRetry_clears_requestSendTime_witness :
  requestSendTime exampleAfterAbort = Null.
Proof.
  apply (syncWithRetry_clears_requestSendTime
           [exampleFailure 100; exampleAbort 1200] exampleSending
           exampleAfterAbort).
  vm_compute. reflexivity.
Defined.




(** X14: an abort ends the cycle at once.  No retry follows, the message is
    "sync cancelled", and the SyncState, the stored snapshot, the validity
    flag and the retry counter are as they were: an abort after some
    retries does not reset the counter. *)
Theorem syncWithRetry_abort_is_terminal
  (a : attempt) (err : error) (script : list attempt) (s : state) :
  settled a = Rejected err ->
  isAbort err = true ->
  exists s' : state,
    syncWithRetry (a :: script) s = Some s'
    /\ attempts (a :: script) s = 1%nat
    /\ errorMessage s' = Some [SyncCancelled]
    /\ retryCount s' = retryCount s
    /\ serverEndTime s' = serverEndTime s
    /\ serverNow s' = serverNow s
    /\ clientNow s' = clientNow s
    /\ storage s' = storage s
    /\ isTimestampValid s' = isTimestampValid s.
Proof.
  intros Hset Hab. unfold syncWithRetry, attempts.
  destruct (run_aborted false a err script s Hset Hab) as (-> & ->).
  eexists. split; [reflexivity|]. split; [reflexivity|].
  cbn [cleanup errorMessage retryCount serverEndTime serverNow clientNow
         storage isTimestampValid set_requestSendTime set_errorMessage].
  destruct (inFlightFrom_frame false a s)
    as (-> & -> & -> & -> & -> & _ & _ & -> & _).
  repeat split.
Qed.

Lemma syncWithRetry_abort_is_terminal_witness :
  exists s' : state,
    syncWithRetry [exampleAbort 100; exampleFailure 1200] exampleSynced
    = Some s'
    /\ attempts [exampleAbort 100; exampleFailure 1200] exampleSynced = 1%nat
    /\ errorMessage s' = Some [SyncCancelled]
    /\ retryCount s' = retryCount exampleSynced
    /\ serverEndTime s' = serverEndTime exampleSynced
    /\ serverNow s' = serverNow exampleSynced
    /\ clientNow s' = clientNow exampleSynced
    /\ storage s' = storage exampleSynced
    /\ isTimestampValid s' = isTimestampValid exampleSynced.
Proof.
  apply (syncWithRetry_abort_is_terminal (exampleAbort 100)
           {| name := AbortError; message_includes_timeout := false |}
           [exampleFailure 1200] exampleSynced);
    reflexivity.
Defined.

Lemma onExhausted_with_cache (now : Z) (s : state) :
  fst (useCachedData now s) = true ->
  exists (cached : snapshot) (E S : Z),
    storage s = Some cached
    /\ c_serverEndTime cached = Num E /\ c_serverNow cached = Num S
    /\ onExhausted now s
       = set_retryCount 0
           (set_clientNow now
              (set_serverNow (Num (normalizeZ S))
                 (set_serverEndTime (Num (normalizeZ E))
                    (set_errorMessage (Some [SyncFailedUseCache]) s)))).
Proof.
  intros H.
  rewrite (useCachedData_storage now s
             (set_errorMessage (Some [SyncFailedUseCache]) s)) in H
    by reflexivity.
  destruct (useCachedData_accepted now _ H)
    as (cached & E & S & C & Hc & HE & HS & _ & _ & _ & _ & _ & _ & Hsnd).
  exists cached, E, S. repeat split; try assumption.
  unfold onExhausted. cbv zeta.
  destruct (useCachedData now (set_errorMessage (Some [SyncFailedUseCache]) s))
    as [cacheValid s1].
  cbn [fst snd] in H, Hsnd. subst cacheValid s1. reflexivity.
Qed.

(** X15: when the retries are used up and the cache is usable, the cache
    takes over: the normalised stored pair is installed with [clientNow] at
    the time of the last failure, [isTimestampValid] keeps its value,
    [retryCount] is back to 0 and the message tells that cached data is
    in use. *)
Theorem retry_exhaustion_falls_back_to_cache
  (a1 a2 a3 a4 : attempt) (rest : list attempt) (s : state) :
  retryCount s = 0 ->
  retryable a1 -> retryable a2 -> retryable a3 -> retryable a4 ->
  fst (useCachedData (settleTime a4) s) = true ->
  exists (s' : state) (cached : snapshot) (E S : Z),
    syncWithRetry (a1 :: a2 :: a3 :: a4 :: rest) s = Some s'
    /\ storage s = Some cached
    /\ c_serverEndTime cached = Num E /\ c_serverNow cached = Num S
    /\ serverEndTime s' = Num (normalizeZ E)
    /\ serverNow s' = Num (normalizeZ S)
    /\ clientNow s' = Num (settleTime a4)
    /\ isTimestampValid s' = isTimestampValid s
    /\ retryCount s' = 0
    /\ errorMessage s' = Some [SyncFailedUseCache].
Proof.
  intros H0 (e1 & R1 & A1) (e2 & R2 & A2) (e3 & R3 & A3) (e4 & R4 & A4) Hcache.
  unfold syncWithRetry.
  set (s1 := afterRetryFrom false a1 e1 s).
  set (s2 := afterRetryFrom true a2 e2 s1).
  set (s3 := afterRetryFrom true a3 e3 s2).
  destruct (afterRetryFrom_frame false a1 e1 s)
    as (Hst1 & _ & _ & _ & Hv1 & _ & Hrc1 & _).
  destruct (afterRetryFrom_frame true a2 e2 s1)
    as (Hst2 & _ & _ & _ & Hv2 & _ & Hrc2 & _).
  destruct (afterRetryFrom_frame true a3 e3 s2)
    as (Hst3 & _ & _ & _ & Hv3 & _ & Hrc3 & _).
  fold s1 in Hst1, Hrc1, Hv1. fold s2 in Hst2, Hrc2, Hv2.
  fold s3 in Hst3, Hrc3, Hv3.
  destruct (inFlightFrom_frame true a4 s3) as (Hst4 & _ & _ & _ & Hv4 & _).
  destruct (run_retried false a1 e1 (a2 :: a3 :: a4 :: rest) s R1 A1)
    as (-> & _); [rewrite H0; reflexivity|].
  fold s1.
  destruct (run_retried true a2 e2 (a3 :: a4 :: rest) s1 R2 A2)
    as (-> & _); [rewrite Hrc1, H0; reflexivity|].
  fold s2.
  destruct (run_retried true a3 e3 (a4 :: rest) s2 R3 A3)
    as (-> & _); [rewrite Hrc2, Hrc1, H0; reflexivity|].
  fold s3.
  destruct (run_gave_up true a4 e4 rest s3 R4 A4)
    as (-> & _); [rewrite Hrc3, Hrc2, Hrc1, H0; unfold MAX_RETRIES; lia|].
  assert (Hc4 : fst (useCachedData (settleTime a4) (inFlightFrom true a4 s3))
                = true).
  { rewrite (useCachedData_storage _ _ s); [exact Hcache|].
    rewrite Hst4, Hst3, Hst2, Hst1. reflexivity. }
  destruct (onExhausted_with_cache _ _ Hc4)
    as (cached & E & S & Hc & HE & HS & ->).
  eexists. exists cached, E, S.
  split; [reflexivity|].
  cbn [cleanup serverEndTime serverNow clientNow isTimestampValid retryCount
         errorMessage set_requestSendTime set_retryCount set_clientNow
         set_serverNow set_serverEndTime set_errorMessage].
  rewrite Hv4, Hv3, Hv2, Hv1.
  rewrite Hst4, Hst3, Hst2, Hst1 in Hc.
  repeat split; assumption.
Qed.

Lemma retry_exhaustion_falls_back_to_cache_witness :
  exists (s' : state) (cached : snapshot) (E S : Z),
    syncWithRetry
      [exampleFailure 1700000000000; exampleFailure 1700000001200;
       exampleFailure 1700000004300; exampleFailure 1700000009400]
      exampleCached = Some s'
    /\ storage exampleCached = Some cached
    /\ c_serverEndTime cached = Num E /\ c_serverNow cached = Num S
    /\ serverEndTime s' = Num (normalizeZ E)
    /\ serverNow s' = Num (normalizeZ S)
    /\ clientNow s' = Num (settleTime (exampleFailure 1700000009400))
    /\ isTimestampValid s' = isTimestampValid exampleCached
    /\ retryCount s' = 0
    /\ errorMessage s' = Some [SyncFailedUseCache].
Proof.
  apply (retry_exhaustion_falls_back_to_cache
           (exampleFailure 1700000000000) (exampleFailure 1700000001200)
           (exampleFailure 1700000004300) (exampleFailure 1700000009400)
           [] exampleCached);
    try reflexivity;
    (eexists; split; reflexivity).
Defined.

(** ** The response handler and the stored snapshot *)

(** The verdict of [validateTimestamps] depends on the pair only. *)
Lemma validateTimestamps_verdict (now now' : Z) (e n : value) (s s' : state) :
  fst (validateTimestamps now e n s) = fst (validateTimestamps now' e n s').
Proof.
  unfold validateTimestamps. cbv zeta.
  destruct (! e || ! n || Number_isNaN e || Number_isNaN n
            || (e <= 0) || (n <= 0))%js; [reflexivity|].
  destruct (normalizeTimestamp e - normalizeTimestamp n
            < Num (- MAX_TIMESTAMP_DEVIATION))%js; [reflexivity|].
  destruct (normalizeTimestamp e - normalizeTimestamp n
            > Num MAX_FUTURE_TIME)%js; [reflexivity|].
  destruct (truthy (requestSendTime s)), (truthy (requestSendTime s'));
    reflexivity.
Qed.

(** X16: a response whose pair is rejected while the cache is unusable
    leaves the SyncState, the snapshot and [isTimestampValid] untouched: the
    only writes are [retryCount = 0] and the message, the reason of the
    rejection followed by the "cache invalid" notice. *)
Theorem onResolved_rejected_without_cache (now : Z) (r : response) (s : state) :
  fst (validateTimestamps now (r_e r ||| r_serverEndTime r)%js
         (r_s r ||| r_serverNow r)%js s) = false ->
  fst (useCachedData now s) = false ->
  exists t : text,
    onResolved now r s
    = set_errorMessage (Some [t; AndCacheInvalid]) (set_retryCount 0 s).
Proof.
  intros Hv Hc.
  rewrite (validateTimestamps_verdict now now _ _ s (set_retryCount 0 s)) in Hv.
  destruct (validateTimestamps_rejected _ _ _ _ Hv) as (t & Hsnd).
  exists t. unfold onResolved. cbv zeta.
  destruct (validateTimestamps now _ _ (set_retryCount 0 s)) as [valid s1].
  cbn [fst snd] in Hv, Hsnd. subst valid s1.
  rewrite (useCachedData_storage now s
             (set_errorMessage (Some [t]) (set_retryCount 0 s))) in Hc
    by reflexivity.
  assert (Hs := useCachedData_rejected now _ Hc).
  destruct (useCachedData now
              (set_errorMessage (Some [t]) (set_retryCount 0 s)))
    as [cacheValid s2].
  cbn [fst snd] in Hc, Hs. subst cacheValid s2. reflexivity.
Qed.

Lemma onResolved_rejected_without_cache_witness :
  exists t : text,
    onResolved 1700000600100 exampleExpiredResponse exampleSynced
    = set_errorMessage (Some [t; AndCacheInvalid])
        (set_retryCount 0 exampleSynced).
Proof.
  apply (onResolved_rejected_without_cache 1700000600100
           exampleExpiredResponse exampleSynced);
    reflexivity.
Defined.

Lemma onResolved_accepted (now : Z) (r : response) (s : state) :
  fst (validateTimestamps now (r_e r ||| r_serverEndTime r)%js
         (r_s r ||| r_serverNow r)%js s) = true ->
  onResolved now r s
  = set_storage
      (Some {| c_serverEndTime := (r_e r ||| r_serverEndTime r)%js;
               c_serverNow := (r_s r ||| r_serverNow r)%js;
               c_clientNow := Num now;
               c_syncedAt := Num now |})
      (set_clientNow now
         (snd (validateTimestamps now (r_e r ||| r_serverEndTime r)%js
                 (r_s r ||| r_serverNow r)%js (set_retryCount 0 s)))).
Proof.
  intros Hv.
  rewrite (validateTimestamps_verdict now now _ _ s (set_retryCount 0 s)) in Hv.
  unfold onResolved. cbv zeta.
  destruct (validateTimestamps now _ _ (set_retryCount 0 s)) as [valid s1].
  cbn [fst snd] in *. subst valid. reflexivity.
Qed.

Lemma useCachedData_accepts
      (now E S C a : Z) (cached : snapshot) (s : state) :
  storage s = Some cached ->
  c_serverEndTime cached = Num E -> c_serverNow cached = Num S ->
  c_clientNow cached = Num C -> c_syncedAt cached = Num a ->
  E <> 0 -> S <> 0 -> C <> 0 ->
  now - a < 86400000 ->
  - 300000 <= normalizeZ E - (normalizeZ S + (now - C)) ->
  useCachedData now s
  = (true,
     set_clientNow now
       (set_serverNow (Num (normalizeZ S))
          (set_serverEndTime (Num (normalizeZ E)) s))).
Proof.
  intros Hc HE HS HC Ha HE0 HS0 HC0 Hage Hdev.
  unfold useCachedData. rewrite Hc, HE, HS, HC, Ha. unfold JS.not.
  rewrite !truthy_nonzero by assumption. cbn [negb orb]. cbv zeta.
  rewrite !normalizeTimestamp_Num.
  unfold JS.ge, JS.lt, JS.sub, JS.add, compare, arith. cbn [to_number].
  change MAX_CACHE_AGE with 86400000.
  change (- MAX_TIMESTAMP_DEVIATION) with (- 300000).
  destruct (Z.geb_spec (now - a) 86400000); [lia|].
  destruct (Z.ltb_spec (normalizeZ E - (normalizeZ S + (now - C))) (- 300000));
    [lia|reflexivity].
Qed.

(** X17: the snapshot an accepted response stores holds the pair as
    received with the time of acceptance as [clientNow] and [syncedAt].
    Read back within 24 hours, while the deadline is not more than
    300000 ms behind the stored server time plus the time since, it is
    accepted and gives the deadline the response installed, with the stored
    server time normalised, without the latency added at acceptance. *)
Theorem stored_snapshot_round_trip (t t' : Z) (r : response) (s : state) :
  fst (validateTimestamps t (r_e r ||| r_serverEndTime r)%js
         (r_s r ||| r_serverNow r)%js s) = true ->
  t <> 0 ->
  t' - t < 86400000 ->
  exists E N : Z,
    storage (onResolved t r s)
    = Some {| c_serverEndTime := Num E; c_serverNow := Num N;
              c_clientNow := Num t; c_syncedAt := Num t |}
    /\ serverEndTime (onResolved t r s) = Num (normalizeZ E)
    /\ (- 300000 <= normalizeZ E - normalizeZ N - (t' - t) ->
        fst (useCachedData t' (onResolved t r s)) = true
        /\ serverEndTime (snd (useCachedData t' (onResolved t r s)))
           = Num (normalizeZ E)
        /\ serverNow (snd (useCachedData t' (onResolved t r s)))
           = Num (normalizeZ N)
        /\ clientNow (snd (useCachedData t' (onResolved t r s))) = Num t').
Proof.
  intros Hv Ht Hage.
  rewrite (onResolved_accepted t r s Hv).
  rewrite (validateTimestamps_verdict t t _ _ s (set_retryCount 0 s)) in Hv.
  destruct (validateTimestamps_accepted_inv _ _ _ _ Hv)
    as (E & N & HE & HN & HEp & HNp & _).
  rewrite HE, HN in *.
  exists E, N. split; [reflexivity|]. split.
  - cbn [serverEndTime set_storage set_clientNow].
    rewrite (validateTimestamps_accepted_state _ _ _ _ Hv).
    split_ifs; reflexivity.
  - intros Hdev.
    match goal with
    | |- context [useCachedData t' ?x] =>
      rewrite (useCachedData_accepts t' E N t t
                 {| c_serverEndTime := Num E; c_serverNow := Num N;
                    c_clientNow := Num t; c_syncedAt := Num t |} x)
        by (try reflexivity; lia)
    end.
    repeat split.
Qed.

Lemma stored_snapshot_round_trip_witness :
  exists E N : Z,
    storage (onResolved 1700000059000 exampleResponse exampleCounting)
    = Some {| c_serverEndTime := Num E; c_serverNow := Num N;
              c_clientNow := Num 1700000059000;
              c_syncedAt := Num 1700000059000 |}
    /\ serverEndTime (onResolved 1700000059000 exampleResponse exampleCounting)
       = Num (normalizeZ E)
    /\ (- 300000 <= normalizeZ E - normalizeZ N
                    - (1700000060000 - 1700000059000) ->
        fst (useCachedData 1700000060000
               (onResolved 1700000059000 exampleResponse exampleCounting))
        = true
        /\ serverEndTime
             (snd (useCachedData 1700000060000
                     (onResolved 1700000059000 exampleResponse
                        exampleCounting)))
           = Num (normalizeZ E)
        /\ serverNow
             (snd (useCachedData 1700000060000
                     (onResolved 1700000059000 exampleResponse
                        exampleCounting)))
           = Num (normalizeZ N)
        /\ clientNow
             (snd (useCachedData 1700000060000
                     (onResolved 1700000059000 exampleResponse
                        exampleCounting)))
           = Num 1700000060000).
Proof.
  apply (stored_snapshot_round_trip 1700000059000 1700000060000
           exampleResponse exampleCounting);
    [reflexivity | lia | lia].
Defined.

(** X28: the response to a retried request gets no latency compensation.
    The retry is returned without [await], so the [finally] block of the
    calling level clears the send time while the retried request is in
    flight: the accepted server time is installed as received, however
    long the request took. *)
Theorem retried_response_not_compensated
  (a1 a2 : attempt) (err : error) (r : response) (rest : list attempt)
  (s : state) (N : Z) :
  settled a1 = Rejected err ->
  isAbort err = false ->
  retryCount s < MAX_RETRIES ->
  settled a2 = Resolved r ->
  (r_s r ||| r_serverNow r)%js = Num N ->
  fst (validateTimestamps (settleTime a2) (r_e r ||| r_serverEndTime r)%js
         (Num N) s) = true ->
  exists s' : state,
    syncWithRetry (a1 :: a2 :: rest) s = Some s'
    /\ serverNow s' = Num (normalizeZ N)
    /\ clientNow s' = Num (settleTime a2).
Proof.
  intros Hset1 Hab Hlt Hset2 HN Hv.
  unfold syncWithRetry.
  destruct (run_retried false a1 err (a2 :: rest) s Hset1 Hab Hlt) as (-> & _).
  set (s1 := afterRetryFrom false a1 err s).
  destruct (run_resolved true a2 r rest s1 Hset2) as (-> & _).
  eexists. split; [reflexivity|].
  set (s2 := inFlightFrom true a2 s1).
  assert (Hq : requestSendTime s2 = Null) by apply inFlightFrom_nested.
  rewrite <- HN in Hv.
  rewrite (validateTimestamps_verdict _ (settleTime a2) _ _ s s2) in Hv.
  rewrite (onResolved_accepted _ _ _ Hv).
  rewrite (validateTimestamps_verdict _ (settleTime a2) _ _ _
             (set_retryCount 0 s2)) in Hv.
  destruct (validateTimestamps_accepted_inv _ _ _ _ Hv)
    as (E & N' & HE & HN' & _).
  rewrite HN in HN'. injection HN' as <-.
  rewrite HE, HN in Hv |- *.
  rewrite (validateTimestamps_accepted_state _ _ _ _ Hv).
  cbn [requestSendTime set_retryCount]. rewrite Hq.
  split; reflexivity.
Qed.

Lemma retried_response_not_compensated_witness :
  exists s' : state,
    syncWithRetry [exampleFailure 1700000040000; exampleSlowAnswer]
      exampleSynced = Some s'
    /\ serverNow s' = Num (normalizeZ 1700000055000)
    /\ clientNow s' = Num (settleTime exampleSlowAnswer).
Proof.
  apply (retried_response_not_compensated
           (exampleFailure 1700000040000) exampleSlowAnswer
           {| name := OtherError; message_includes_timeout := false |}
           exampleResponse [] exampleSynced 1700000055000);
    reflexivity.
Defined.

Lemma syncWithRetryFrom_null_bodies (script : list attempt) (nested : bool)
      (s : state) :
  Forall (fun a => settled a = ResolvedNull) script ->
  syncWithRetryFrom nested script s = None
  /\ attemptsFrom nested script s = length script.
Proof.
  revert nested s.
  induction script as [|a script IH]; intros nested s Hall.
  - split; reflexivity.
  - apply Forall_cons_iff in Hall as [Ha Hall].
    destruct (run_null nested a script s Ha) as (-> & ->).
    destruct (IH true
                (retrying a nullBodyError
                   (set_retryCount 0 (inFlightFrom nested a s))) Hall)
      as (-> & ->).
    split; reflexivity.
Qed.

(** X29: a response whose body is [null] is retried without bound.  The
    counter is reset before the body is read, reading the body throws, and
    the [catch] block retries from 1: however many such responses arrive,
    [syncWithRetry] asks for one more request, whatever [MAX_RETRIES] is and
    whatever the counter was. *)
Theorem syncWithRetry_null_body_unbounded
  (script : list attempt) (s : state) :
  Forall (fun a => settled a = ResolvedNull) script ->
  syncWithRetry script s = None
  /\ attempts script s = length script.
Proof. apply syncWithRetryFrom_null_bodies. Qed.

Lemma syncWithRetry_null_body_unbounded_witness :
  syncWithRetry
    [exampleNullBody 100; exampleNullBody 1200; exampleNullBody 2300;
     exampleNullBody 3400; exampleNullBody 4500; exampleNullBody 5600]
    exampleSynced = None
  /\ attempts
       [exampleNullBody 100; exampleNullBody 1200; exampleNullBody 2300;
        exampleNullBody 3400; exampleNullBody 4500; exampleNullBody 5600]
       exampleSynced
     = length
         [exampleNullBody 100; exampleNullBody 1200; exampleNullBody 2300;
          exampleNullBody 3400; exampleNullBody 4500; exampleNullBody 5600].
Proof.
  apply (syncWithRetry_null_body_unbounded
           [exampleNullBody 100; exampleNullBody 1200; exampleNullBody 2300;
            exampleNullBody 3400; exampleNullBody 4500; exampleNullBody 5600]
           exampleSynced).
  repeat constructor.
Defined.

(** ** The watcher, further *)

Lemma flushWatch_frame (oldVal : value) (s : state) :
  storage (flushWatch oldVal s) = storage s
  /\ serverNow (flushWatch oldVal s) = serverNow s
  /\ clientNow (flushWatch oldVal s) = clientNow s
  /\ requestSendTime (flushWatch oldVal s) = requestSendTime s
  /\ isTimestampValid (flushWatch oldVal s) = isTimestampValid s
  /\ isExpired (flushWatch oldVal s) = isExpired s
  /\ syncing (flushWatch oldVal s) = syncing s
  /\ retryCount (flushWatch oldVal s) = retryCount s
  /\ isSyncDisabled (flushWatch oldVal s) = isSyncDisabled s.
Proof.
  unfold flushWatch, onServerEndTimeChange. split_ifs; repeat split.
Qed.

Lemma flushWatch_Null (s : state) :
  flushWatch Null s = s.
Proof.
  unfold flushWatch, onServerEndTimeChange. cbn [truthy andb].
  rewrite same_refl. destruct (same (serverEndTime s) Null); reflexivity.
Qed.

(** X18: the watcher writes the deadline and the message only.  When it
    puts the previous deadline back, the [serverNow] and [clientNow] that
    came with the rejected deadline stay installed; the deadline it leaves
    is the new one or the previous one; and a first deadline, replacing
    [null], is never rejected. *)
Theorem flushWatch_restores_deadline_only (oldVal : value) (s : state) :
  serverNow (flushWatch oldVal s) = serverNow s
  /\ clientNow (flushWatch oldVal s) = clientNow s
  /\ remaining (flushWatch oldVal s) = remaining s
  /\ isTimestampValid (flushWatch oldVal s) = isTimestampValid s
  /\ storage (flushWatch oldVal s) = storage s
  /\ (serverEndTime (flushWatch oldVal s) = serverEndTime s
      \/ serverEndTime (flushWatch oldVal s) = oldVal)
  /\ flushWatch Null s = s.
Proof.
  destruct (flushWatch_frame oldVal s) as (-> & -> & -> & _ & -> & _).
  rewrite flushWatch_remaining.
  repeat split.
  - unfold flushWatch, onServerEndTimeChange. split_ifs; auto.
  - unfold flushWatch, onServerEndTimeChange. cbn [truthy andb].
    rewrite same_refl. destruct (same (serverEndTime s) Null); reflexivity.
Qed.

(** ** [syncNow], further *)

Lemma syncNow_skipped (isClient : bool) (script : list attempt) (finish : Z)
      (s : state) :
  negb isClient || syncing s || isSyncDisabled s = true ->
  syncNow isClient script finish s = Some s.
Proof. intros H. unfold syncNow. rewrite H. reflexivity. Qed.

(** The shape of a completed run of [syncNow]. *)
Lemma syncNow_ran (isClient : bool) (script : list attempt) (finish : Z)
      (s s' : state) :
  negb isClient || syncing s || isSyncDisabled s = false ->
  syncNow isClient script finish s = Some s' ->
  exists s1 s3 : state,
    syncWithRetry script
      (set_errorMessage None (set_syncing true (set_isSyncDisabled true s)))
    = Some s1
    /\ (s3 = flushWatch (serverEndTime s) s1
        \/ s3 = set_remaining (remaining s) (flushWatch (serverEndTime s) s1))
    /\ s' = updateRemaining finish (set_syncing false s3).
Proof.
  intros Hg Hrun. unfold syncNow in Hrun. rewrite Hg in Hrun.
  cbv zeta in Hrun.
  destruct (syncWithRetry script _) as [s1|] eqn:Hsync; [|discriminate].
  injection Hrun as <-.
  exists s1. eexists. split; [reflexivity|]. split; [|reflexivity].
  cbn [serverEndTime remaining set_errorMessage set_syncing
         set_isSyncDisabled].
  destruct (_ && _)%bool; auto.
Qed.

Lemma syncNow_ran_frame (isClient : bool) (script : list attempt) (finish : Z)
      (s s' : state) :
  negb isClient || syncing s || isSyncDisabled s = false ->
  syncNow isClient script finish s = Some s' ->
  syncing s' = false
  /\ isSyncDisabled s' = true
  /\ requestSendTime s' = Null
  /\ (isTimestampValid s = false -> isTimestampValid s' = false)
  /\ (0 <= retryCount s <= MAX_RETRIES -> 0 <= retryCount s' <= MAX_RETRIES).
Proof.
  intros Hg Hrun.
  destruct (syncNow_ran _ _ _ _ _ Hg Hrun) as (s1 & s3 & Hsync & Hs3 & ->).
  destruct (syncWithRetry_frame _ _ _ Hsync)
    as (Hreq & _ & Hdis & Hv & Hrc).
  cbn [isSyncDisabled isTimestampValid retryCount set_errorMessage
         set_syncing set_isSyncDisabled] in Hdis, Hv, Hrc.
  destruct (updateRemaining_frame finish (set_syncing false s3))
    as (_ & _ & _ & _ & -> & -> & -> & _ & -> & ->).
  cbn [syncing isSyncDisabled requestSendTime isTimestampValid retryCount
         set_syncing].
  destruct (flushWatch_frame (serverEndTime s) s1)
    as (_ & _ & _ & Hreq' & Hv' & _ & _ & Hrc' & Hdis').
  destruct Hs3 as [-> | ->];
    cbn [isSyncDisabled requestSendTime isTimestampValid retryCount
           set_remaining];
    rewrite Hreq', Hv', Hrc', Hdis'; auto.
Qed.



(** X20: a call of [syncNow] right after another one does nothing: until
    the cooldown timer re-enables syncing, a further call returns the state
    unchanged, whatever the environment would answer. *)
Theorem syncNow_cooldown (isClient : bool) (script script' : list attempt)
        (finish finish' : Z) (s s' : state) :
  syncNow isClient script finish s = Some s' ->
  syncNow isClient script' finish' s' = Some s'.
Proof.
  intros Hrun.
  destruct (negb isClient || syncing s || isSyncDisabled s) eqn:Hg.
  - rewrite (syncNow_skipped _ _ _ _ Hg) in Hrun. injection Hrun as <-.
    apply syncNow_skipped. exact Hg.
  - destruct (syncNow_ran_frame _ _ _ _ _ Hg Hrun) as (_ & Hdis & _).
    apply syncNow_skipped. rewrite Hdis. apply orb_true_r.
Qed.

Lemma syncNow_cooldown_witness :
  syncNow true [exampleFailure 1700000060200] 1700000060300 exampleAfterSync
  = Some exampleAfterSync.
Proof.
  apply (syncNow_cooldown true [exampleLateAnswer]
           [exampleFailure 1700000060200] 1700000060150 1700000060300
           exampleNearExpiry exampleAfterSync).
  vm_compute. reflexivity.
Defined.

Lemma syncNow_validity (isClient : bool) (script : list attempt) (finish : Z)
      (s s' : state) :
  syncNow isClient script finish s = Some s' ->
  isTimestampValid s = false -> isTimestampValid s' = false.
Proof.
  intros Hrun Hf.
  destruct (negb isClient || syncing s || isSyncDisabled s) eqn:Hg.
  - rewrite (syncNow_skipped _ _ _ _ Hg) in Hrun. injection Hrun as <-.
    exact Hf.
  - apply (syncNow_ran_frame _ _ _ _ _ Hg Hrun). exact Hf.
Qed.

(** X21: nothing sets [isTimestampValid] back to true.  Once the retries
    were used up without a usable cache, no tick, mount, sync (manual,
    periodic or on reconnection) or cooldown restores it, a later successful
    sync included, and every tick displays 0 with [isExpired] set. *)
Theorem validity_is_never_restored (isClient : bool) (s s' : state) :
  step isClient s s' ->
  isTimestampValid s = false ->
  isTimestampValid s' = false
  /\ forall now : Z,
       remaining (updateRemaining now s') = Num 0
       /\ isExpired (updateRemaining now s') = true.
Proof.
  intros Hstep Hf.
  assert (Hf' : isTimestampValid s' = false).
  { destruct Hstep as [now s | now s | script finish s s' Hrun
                       | online script finish s s' Hrun
                       | newVal script finish s s' Hrun | s].
    - unfold onMounted.
      destruct (useCachedData_frame now s) as (_ & _ & Hv & _).
      destruct (useCachedData now s) as [cacheValid s1]. cbn [snd] in Hv.
      destruct (flushWatch_frame (serverEndTime s) (updateRemaining now s1))
        as (_ & _ & _ & _ & -> & _).
      destruct (updateRemaining_frame now s1)
        as (_ & _ & _ & _ & _ & -> & _).
      rewrite Hv. exact Hf.
    - destruct (updateRemaining_frame now s) as (_ & _ & _ & _ & _ & -> & _).
      exact Hf.
    - exact (syncNow_validity _ _ _ _ _ Hrun Hf).
    - unfold intervalSync in Hrun.
      destruct (online && negb (isExpired s)).
      + exact (syncNow_validity _ _ _ _ _ Hrun Hf).
      + injection Hrun as <-. exact Hf.
    - unfold onOnlineChange in Hrun.
      destruct (newVal && isClient).
      + exact (syncNow_validity _ _ _ _ _ Hrun Hf).
      + injection Hrun as <-. exact Hf.
    - exact Hf. }
  split; [exact Hf'|].
  intros now. rewrite updateRemaining_invalid.
  - split; reflexivity.
  - unfold validSyncState. rewrite Hf'. reflexivity.
Qed.

Lemma validity_is_never_restored_witness :
  serverEndTime exampleInvalidAfterSync = Num 1700000060000
  /\ isTimestampValid exampleInvalidAfterSync = false
  /\ forall now : Z,
       remaining (updateRemaining now exampleInvalidAfterSync) = Num 0
       /\ isExpired (updateRemaining now exampleInvalidAfterSync) = true.
Proof.
  split; [reflexivity|].
  apply (validity_is_never_restored true exampleInvalid
           exampleInvalidAfterSync).
  - apply (step_sync true [exampleQuickAnswer] 1700000059000 exampleInvalid
             exampleInvalidAfterSync).
    vm_compute. reflexivity.
  - reflexivity.
Defined.

(** X22: once a tick has displayed 0 the periodic timer no longer syncs:
    its callback returns the state unchanged, online or not, although its
    period is then the fast one. *)
Theorem intervalSync_stops_at_expiry
  (online isClient : bool) (script : list attempt)
  (finish now normalSyncInterval fastSyncInterval : Z) (s : state) :
  remaining (updateRemaining now s) = Num 0 ->
  intervalSync online isClient script finish (updateRemaining now s)
  = Some (updateRemaining now s)
  /\ syncInterval normalSyncInterval fastSyncInterval (updateRemaining now s)
     = fastSyncInterval.
Proof.
  intros H. apply updateRemaining_isExpired in H.
  unfold intervalSync, syncInterval. rewrite H, andb_false_r.
  split; reflexivity.
Qed.

Lemma intervalSync_stops_at_expiry_witness :
  intervalSync true true [exampleQuickAnswer] 1700000061000
    (updateRemaining 1700000060500 exampleCounting)
  = Some (updateRemaining 1700000060500 exampleCounting)
  /\ syncInterval 60000 5000 (updateRemaining 1700000060500 exampleCounting)
     = 5000.
Proof.
  apply (intervalSync_stops_at_expiry true true [exampleQuickAnswer]
           1700000061000 1700000060500 60000 5000 exampleCounting).
  reflexivity.
Defined.

Lemma syncWithRetryFrom_noTicks_remaining (script : list attempt)
      (nested : bool) (s s' : state) :
  noTicks script ->
  syncWithRetryFrom nested script s = Some s' ->
  remaining s' = remaining s.
Proof.
  revert nested s s'.
  induction script as [|a script IH]; intros nested s s' Hno Hrun.
  - discriminate.
  - apply Forall_cons_iff in Hno as [[Hfl Hdl] Hno].
    assert (Hin : remaining (inFlightFrom nested a s) = remaining s)
      by (unfold inFlightFrom; rewrite Hfl; destruct nested; reflexivity).
    destruct (settled a) as [r| |err] eqn:Hset.
    + destruct (run_resolved nested a r script s Hset) as (Heq & _).
      rewrite Heq in Hrun. injection Hrun as <-.
      cbn [cleanup remaining set_requestSendTime].
      destruct (onResolved_frame (settleTime a) r (inFlightFrom nested a s))
        as (-> & _).
      exact Hin.
    + destruct (run_null nested a script s Hset) as (Heq & _).
      rewrite Heq in Hrun.
      rewrite (IH _ _ _ Hno Hrun).
      unfold retrying. rewrite Hdl. exact Hin.
    + destruct (isAbort err) eqn:Hab.
      * destruct (run_aborted nested a err script s Hset Hab) as (Heq & _).
        rewrite Heq in Hrun. injection Hrun as <-. exact Hin.
      * destruct (Z.lt_ge_cases (retryCount s) MAX_RETRIES) as [Hlt|Hge].
        -- destruct (run_retried nested a err script s Hset Hab Hlt)
             as (Heq & _).
           rewrite Heq in Hrun.
           rewrite (IH _ _ _ Hno Hrun).
           unfold afterRetryFrom, retrying. rewrite Hdl. exact Hin.
        -- destruct (run_gave_up nested a err script s Hset Hab Hge)
             as (Heq & _).
           rewrite Heq in Hrun. injection Hrun as <-.
           cbn [cleanup remaining set_requestSendTime].
           destruct (onExhausted_frame (settleTime a) (inFlightFrom nested a s))
             as (-> & _).
           exact Hin.
Qed.

(** X23: when no tick of the display timer falls into the awaits of a
    sync, the guard of [syncNow] holds: from a display of [R > 0] the
    display at completion is at most [R], whether the sync succeeded,
    failed or fell back to the cache. *)
Theorem syncNow_clamp_without_ticks
  (isClient : bool) (script : list attempt) (finish R : Z) (s s' : state) :
  noTicks script ->
  remaining s = Num R ->
  0 < R ->
  syncNow isClient script finish s = Some s' ->
  (remaining s' <= Num R)%js = true.
Proof.
  intros Hno HR Hpos Hrun.
  destruct (syncNow_clamp_unless_expired _ _ _ _ _ _ HR Hpos Hrun)
    as [Hle|Hzero]; [exact Hle|].
  destruct (syncWithRetry script _) as [s1|] eqn:Hsync; [|discriminate].
  cbn [option_map] in Hzero. injection Hzero as Hzero.
  rewrite (syncWithRetryFrom_noTicks_remaining _ _ _ _ Hno Hsync) in Hzero.
  cbn [remaining set_errorMessage set_syncing set_isSyncDisabled] in Hzero.
  rewrite HR in Hzero. injection Hzero as ->. lia.
Qed.

Lemma syncNow_clamp_without_ticks_witness :
  (remaining exampleCountingAfterSync <= Num 1000)%js = true.
Proof.
  apply (syncNow_clamp_without_ticks true [exampleQuickAnswer] 1700000059000
           1000 exampleCounting exampleCountingAfterSync).
  - repeat constructor.
  - reflexivity.
  - lia.
  - vm_compute. reflexivity.
Defined.

(** ** Reachable states, further *)

(** X24: in every state in which no sync is suspended at an [await] (a
    new instance, and after each mount, tick, completed call of [syncNow]
    and cooldown), no request send time is recorded, [syncing] is false and
    [retryCount] lies within [0, MAX_RETRIES].  The states at the ticks of
    the timer during a sync are not covered. *)
Theorem reachable_quiescent (s : state) :
  reachable s ->
  requestSendTime s = Null
  /\ syncing s = false
  /\ 0 <= retryCount s <= MAX_RETRIES.
Proof.
  induction 1 as [entry | now s _ (IHr & IHs & IHc)
                  | now s _ (IHr & IHs & IHc)
                  | isClient script finish s s' _ (IHr & IHs & IHc) Hrun
                  | s _ (IHr & IHs & IHc)].
  - unfold MAX_RETRIES. cbn. repeat split; lia.
  - unfold onMounted.
    destruct (useCachedData_frame now s)
      as (_ & Hr & _ & _ & Hc & _ & Hs & _).
    destruct (useCachedData now s) as [cacheValid s1].
    cbn [snd] in Hr, Hc, Hs.
    destruct (flushWatch_frame (serverEndTime s) (updateRemaining now s1))
      as (_ & _ & _ & -> & _ & _ & -> & -> & _).
    destruct (updateRemaining_frame now s1)
      as (_ & _ & _ & _ & -> & _ & -> & _ & -> & _).
    rewrite Hr, Hc, Hs. auto.
  - destruct (updateRemaining_frame now s)
      as (_ & _ & _ & _ & -> & _ & -> & _ & -> & _).
    auto.
  - destruct (negb isClient || syncing s || isSyncDisabled s) eqn:Hg.
    + rewrite (syncNow_skipped _ _ _ _ Hg) in Hrun. injection Hrun as <-.
      auto.
    + destruct (syncNow_ran_frame _ _ _ _ _ Hg Hrun)
        as (Hs' & _ & Hr' & _ & Hc').
      auto.
  - auto.
Qed.

Lemma reachable_quiescent_witness :
  requestSendTime exampleLongSynced = Null
  /\ syncing exampleLongSynced = false
  /\ 0 <= retryCount exampleLongSynced <= MAX_RETRIES.
Proof.
  apply (reachable_quiescent exampleLongSynced).
  apply (reach_sync true [exampleLongAnswer] 1700000000100 (initial None)).
  - apply reach_initial.
  - vm_compute. reflexivity.
Defined.

(** ** Mounting *)

(** X25: mounting a new instance restores nothing.  Whatever the storage
    holds under the key, [useStorage] gives [null] or a string, so
    [useCachedData] returns false; no SyncState is installed and the
    countdown shows 0, expired: a snapshot stored by an earlier page is
    not used. *)
Theorem onMounted_fresh (now : Z) (entry : option String.string) :
  fst (useCachedData now (initial entry)) = false
  /\ onMounted now (initial entry) = set_isExpired true (initial entry).
Proof.
  assert (H : fst (useCachedData now (initial entry)) = false)
    by (destruct entry as [[|c w]|]; reflexivity).
  split; [exact H|].
  unfold onMounted.
  assert (Hs := useCachedData_rejected now _ H).
  destruct (useCachedData now (initial entry)) as [cacheValid s1].
  cbn [snd] in Hs. subst s1.
  rewrite updateRemaining_invalid by reflexivity. reflexivity.
Qed.

(** ** A successful sync *)

Lemma flushWatch_errorMessage (oldVal : value) (s : state) :
  errorMessage (flushWatch oldVal s) = errorMessage s
  \/ errorMessage (flushWatch oldVal s) = Some [AnomalyCorrected].
Proof.
  unfold flushWatch, onServerEndTimeChange. split_ifs; auto.
Qed.

(** X26: a sync that runs and whose first response carries an acceptable
    pair completes with [clientNow] at the time the response arrived, the
    pair stored as received with that time, [retryCount] at 0 and no
    request send time; the message is cleared unless the watcher reports a
    deadline anomaly. *)
Theorem syncNow_success
  (isClient : bool) (a : attempt) (rest : list attempt) (r : response)
  (finish : Z) (s : state) :
  negb isClient || syncing s || isSyncDisabled s = false ->
  settled a = Resolved r ->
  fst (validateTimestamps (settleTime a) (r_e r ||| r_serverEndTime r)%js
         (r_s r ||| r_serverNow r)%js s) = true ->
  exists s' : state,
    syncNow isClient (a :: rest) finish s = Some s'
    /\ clientNow s' = Num (settleTime a)
    /\ storage s'
       = Some {| c_serverEndTime := (r_e r ||| r_serverEndTime r)%js;
                 c_serverNow := (r_s r ||| r_serverNow r)%js;
                 c_clientNow := Num (settleTime a);
                 c_syncedAt := Num (settleTime a) |}
    /\ retryCount s' = 0
    /\ requestSendTime s' = Null
    /\ (errorMessage s' = None \/ errorMessage s' = Some [AnomalyCorrected]).
Proof.
  intros Hg Hset Hv.
  set (s0 := set_errorMessage None
               (set_syncing true (set_isSyncDisabled true s))).
  assert (Hsync : syncWithRetry (a :: rest) s0
                  = Some (cleanup (onResolved (settleTime a) r
                                     (inFlightFrom false a s0))))
    by (apply (run_resolved false a r rest s0 Hset)).
  destruct (syncNow isClient (a :: rest) finish s) as [s'|] eqn:Hrun.
  2:{ unfold syncNow in Hrun. rewrite Hg in Hrun. cbv zeta in Hrun.
      fold s0 in Hrun. rewrite Hsync in Hrun. discriminate. }
  exists s'. split; [reflexivity|].
  destruct (syncNow_ran _ _ _ _ _ Hg Hrun) as (s1 & s3 & Hsync' & Hs3 & ->).
  fold s0 in Hsync'. rewrite Hsync in Hsync'. injection Hsync' as <-.
  rewrite (validateTimestamps_verdict _ (settleTime a) _ _ s (inFlightFrom false a s0))
    in Hv.
  assert (Hacc := onResolved_accepted (settleTime a) r (inFlightFrom false a s0) Hv).
  rewrite (validateTimestamps_verdict _ (settleTime a) _ _ _
             (set_retryCount 0 (inFlightFrom false a s0))) in Hv.
  destruct (validateTimestamps_accepted_inv _ _ _ _ Hv)
    as (E & N & HE & HN & _).
  rewrite HE, HN in Hacc, Hv.
  assert (Hst := validateTimestamps_accepted_state _ _ _ _ Hv).
  destruct (inFlightFrom_frame false a s0) as (_ & _ & _ & _ & _ & _ & Hmsg & _).
  set (s2 := cleanup (onResolved (settleTime a) r (inFlightFrom false a s0))) in *.
  assert (H2 : clientNow s2 = Num (settleTime a)
               /\ storage s2
                  = Some {| c_serverEndTime := Num E; c_serverNow := Num N;
                            c_clientNow := Num (settleTime a);
                            c_syncedAt := Num (settleTime a) |}
               /\ retryCount s2 = 0 /\ requestSendTime s2 = Null
               /\ errorMessage s2 = None).
  { subst s2. rewrite Hacc, Hst.
    cbn [cleanup clientNow storage retryCount requestSendTime errorMessage
           set_requestSendTime set_storage set_clientNow].
    repeat split; split_ifs;
      cbn [retryCount errorMessage set_serverEndTime set_serverNow
             set_retryCount];
      try reflexivity; exact Hmsg. }
  destruct H2 as (Hc2 & Hs2 & Hr2 & Hq2 & Hm2).
  destruct (flushWatch_frame (serverEndTime s) s2)
    as (Hfs & _ & Hfc & Hfq & _ & _ & _ & Hfr & _).
  assert (Hfm := flushWatch_errorMessage (serverEndTime s) s2).
  destruct (updateRemaining_frame finish (set_syncing false s3))
    as (-> & _ & _ & -> & -> & _ & _ & -> & -> & _).
  rewrite HE, HN.
  destruct Hs3 as [-> | ->];
    cbn [clientNow storage retryCount requestSendTime errorMessage
           set_syncing set_remaining];
    rewrite Hfs, Hfc, Hfq, Hfr, Hc2, Hs2, Hr2, Hq2;
    (repeat split; try reflexivity);
    destruct Hfm as [-> | ->]; auto.
Qed.

Lemma syncNow_success_witness :
  exists s' : state,
    syncNow true [exampleQuickAnswer] 1700000059000 exampleCounting = Some s'
    /\ clientNow s' = Num (settleTime exampleQuickAnswer)
    /\ storage s'
       = Some {| c_serverEndTime :=
                   (r_e exampleResponse ||| r_serverEndTime exampleResponse)%js;
                 c_serverNow :=
                   (r_s exampleResponse ||| r_serverNow exampleResponse)%js;
                 c_clientNow := Num (settleTime exampleQuickAnswer);
                 c_syncedAt := Num (settleTime exampleQuickAnswer) |}
    /\ retryCount s' = 0
    /\ requestSendTime s' = Null
    /\ (errorMessage s' = None \/ errorMessage s' = Some [AnomalyCorrected]).
Proof.
  apply (syncNow_success true exampleQuickAnswer [] exampleResponse
           1700000059000 exampleCounting);
    reflexivity.
Defined.

(** ** The cache and the validator *)

Lemma snapshotValidated_storage (s s' : state) :
  storage s' = storage s -> snapshotValidated s -> snapshotValidated s'.
Proof. unfold snapshotValidated. intros ->. auto. Qed.

(** The only write to [storage] follows an acceptance by
    [validateTimestamps]. *)
Lemma onResolved_snapshotValidated (now : Z) (r : response) (s : state) :
  snapshotValidated s -> snapshotValidated (onResolved now r s).
Proof.
  intros H.
  destruct (fst (validateTimestamps now (r_e r ||| r_serverEndTime r)%js
                   (r_s r ||| r_serverNow r)%js s)) eqn:Hv.
  - rewrite (onResolved_accepted now r s Hv).
    intros cached Hc. cbn [storage set_storage] in Hc. injection Hc as <-.
    right. intros now' s'. cbn [c_serverEndTime c_serverNow].
    rewrite (validateTimestamps_verdict now' now _ _ s' s). exact Hv.
  - apply (snapshotValidated_storage s); [|exact H].
    rewrite (validateTimestamps_verdict now now _ _ s (set_retryCount 0 s))
      in Hv.
    unfold onResolved. cbv zeta.
    destruct (validateTimestamps_frame now (r_e r ||| r_serverEndTime r)%js
                (r_s r ||| r_serverNow r)%js (set_retryCount 0 s))
      as (Hst & _).
    destruct (validateTimestamps now _ _ (set_retryCount 0 s)) as [valid s1].
    cbn [fst snd] in Hv, Hst. subst valid.
    destruct (useCachedData_frame now s1) as (Hst' & _).
    destruct (useCachedData now s1) as [cacheValid s2].
    cbn [snd] in Hst'.
    destruct cacheValid; cbn [storage set_errorMessage];
      rewrite Hst', Hst; reflexivity.
Qed.

Lemma onExhausted_snapshotValidated (now : Z) (s : state) :
  snapshotValidated s -> snapshotValidated (onExhausted now s).
Proof.
  apply snapshotValidated_storage.
  unfold onExhausted. cbv zeta.
  destruct (useCachedData_frame now
              (set_errorMessage (Some [SyncFailedUseCache]) s)) as (Hst & _).
  destruct (useCachedData now _) as [cacheValid s1].
  cbn [snd] in Hst.
  destruct cacheValid;
    cbn [storage set_retryCount set_isTimestampValid set_errorMessage];
    rewrite Hst; reflexivity.
Qed.

Lemma syncNow_snapshotValidated
      (isClient : bool) (script : list attempt) (finish : Z) (s s' : state) :
  snapshotValidated s ->
  syncNow isClient script finish s = Some s' ->
  snapshotValidated s'.
Proof.
  intros H Hrun.
  destruct (negb isClient || syncing s || isSyncDisabled s) eqn:Hg.
  - rewrite (syncNow_skipped _ _ _ _ Hg) in Hrun. injection Hrun as <-.
    exact H.
  - destruct (syncNow_ran _ _ _ _ _ Hg Hrun) as (s1 & s3 & Hsync & Hs3 & ->).
    assert (H1 : snapshotValidated s1).
    { revert Hsync. unfold syncWithRetry.
      apply (syncWithRetryFrom_keeps snapshotValidated);
        try (intros; assumption).
      - intros t s0. apply snapshotValidated_storage.
        apply updateRemaining_frame.
      - apply onResolved_snapshotValidated.
      - apply onExhausted_snapshotValidated. }
    apply (snapshotValidated_storage s1); [|exact H1].
    destruct (updateRemaining_frame finish (set_syncing false s3)) as (-> & _).
    destruct (flushWatch_frame (serverEndTime s) s1) as (Hf & _).
    destruct Hs3 as [-> | ->]; cbn [storage set_syncing set_remaining];
      exact Hf.
Qed.

(** Every snapshot the [storage] ref comes to hold went through
    [validateTimestamps]. *)
Lemma reachable_snapshotValidated (s : state) :
  reachable s -> snapshotValidated s.
Proof.
  induction 1 as [entry | now s _ IH | now s _ IH
                  | isClient script finish s s' _ IH Hrun | s _ IH].
  - intros cached Hc. left.
    destruct entry as [[|c w]|]; cbn in Hc; congruence.
  - apply (snapshotValidated_storage s); [|exact IH].
    unfold onMounted.
    destruct (useCachedData_frame now s) as (Hst & _).
    destruct (useCachedData now s) as [cacheValid s1]. cbn [snd] in Hst.
    destruct (flushWatch_frame (serverEndTime s) (updateRemaining now s1))
      as (-> & _).
    destruct (updateRemaining_frame now s1) as (-> & _).
    exact Hst.
  - apply (snapshotValidated_storage s); [|exact IH].
    apply updateRemaining_frame.
  - exact (syncNow_snapshotValidated _ _ _ _ _ IH Hrun).
  - exact IH.
Qed.

(** C5, as the specification states it, fails: [useCachedData] does not go
    through [validateTimestamps], and the two do not accept the same
    pairs.  A new instance syncs and stores the pair of the response; 25
    hours later [useCachedData] refuses the snapshot for its age, while
    [validateTimestamps] accepts the stored pair, and the pair with the
    server time projected to the present as well. *)
Lemma cache_validation_counterexample :
  reachable exampleLongSynced
  /\ storage exampleLongSynced
     = Some {| c_serverEndTime := 1700100000000;
               c_serverNow := 1700000000000;
               c_clientNow := 1700000000100;
               c_syncedAt := 1700000000100 |}
  /\ fst (useCachedData 1700090000100 exampleLongSynced) = false
  /\ fst (validateTimestamps 1700090000100 (Num 1700100000000)
            (Num 1700000000000) exampleLongSynced) = true
  /\ fst (validateTimestamps 1700090000100 (Num 1700100000000)
            (Num 1700090000000) exampleLongSynced) = true.
Proof.
  split; [|repeat split].
  apply (reach_sync true [exampleLongAnswer] 1700000000100 (initial None)).
  - apply reach_initial.
  - vm_compute. reflexivity.
Qed.

(** C5 (amended): [useCachedData] applies rules of its own.  It accepts a
    snapshot exactly when the three fields [serverEndTime], [serverNow] and
    [clientNow] are numbers other than 0, the age [now - syncedAt] is not
    24 hours or more, and the normalised deadline is not more than 300000 ms
    behind the normalised server time projected by [now - clientNow]; it
    then installs the normalised pair with [clientNow = now].  In every
    reachable state a snapshot it accepts holds a pair that
    [validateTimestamps] accepts, as the snapshot was stored after such an
    acceptance; the converse fails. *)
Theorem cache_acceptance_rules (now : Z) (s : state) :
  (fst (useCachedData now s) = true
   <-> exists (cached : snapshot) (E S C : Z),
        storage s = Some cached
        /\ c_serverEndTime cached = Num E /\ c_serverNow cached = Num S
        /\ c_clientNow cached = Num C
        /\ E <> 0 /\ S <> 0 /\ C <> 0
        /\ (forall a : Z,
               to_number (c_syncedAt cached) = Some a -> now - a < 86400000)
        /\ - 300000 <= normalizeZ E - (normalizeZ S + (now - C)))
  /\ (fst (useCachedData now s) = true ->
      exists (cached : snapshot) (E S C : Z),
        storage s = Some cached
        /\ c_serverEndTime cached = Num E /\ c_serverNow cached = Num S
        /\ c_clientNow cached = Num C
        /\ serverEndTime (snd (useCachedData now s)) = Num (normalizeZ E)
        /\ serverNow (snd (useCachedData now s)) = Num (normalizeZ S)
        /\ clientNow (snd (useCachedData now s)) = Num now
        /\ (reachable s ->
            fst (validateTimestamps now (Num E) (Num S) s) = true)).
Proof.
  split.
  - split.
    + intros H.
      destruct (useCachedData_accepted now s H)
        as (cached & E & S & C & Hc & HE & HS & HC & HE0 & HS0 & HC0
            & Hage & Hdev & _).
      exists cached, E, S, C. repeat split; try assumption.
      intros a Ha.
      destruct (Z.lt_ge_cases (now - a) 86400000) as [Hlt|Hge];
        [exact Hlt|].
      assert (Hold : (Num now - c_syncedAt cached >= MAX_CACHE_AGE)%js = true).
      { unfold JS.ge, JS.sub, compare, arith. rewrite Ha. cbn [to_number].
        apply Z.geb_le. exact Hge. }
      rewrite Hold in Hage. discriminate.
    + intros (cached & E & S & C & Hc & HE & HS & HC & HE0 & HS0 & HC0
              & Hage & Hdev).
      unfold useCachedData. rewrite Hc, HE, HS, HC. unfold JS.not.
      rewrite !truthy_nonzero by assumption. cbn [negb orb]. cbv zeta.
      assert (Hge : (now - c_syncedAt cached >= MAX_CACHE_AGE)%js = false).
      { unfold JS.ge, JS.sub, compare, arith. cbn [to_number].
        destruct (to_number (c_syncedAt cached)) as [a|] eqn:Ha;
          [|reflexivity].
        cbn [to_number]. change MAX_CACHE_AGE with 86400000.
        specialize (Hage a eq_refl).
        destruct (Z.geb_spec (now - a) 86400000); [lia|reflexivity]. }
      rewrite Hge, !normalizeTimestamp_Num.
      unfold JS.lt, JS.sub, JS.add, compare, arith. cbn [to_number].
      change (- MAX_TIMESTAMP_DEVIATION) with (- 300000).
      destruct (Z.ltb_spec (normalizeZ E - (normalizeZ S + (now - C)))
                  (- 300000)); [lia|reflexivity].
  - intros H.
    destruct (useCachedData_accepted now s H)
      as (cached & E & S & C & Hc & HE & HS & HC & HE0 & HS0 & HC0
          & Hage & Hdev & ->).
    exists cached, E, S, C. repeat split; try assumption.
    intros Hreach.
    destruct (reachable_snapshotValidated s Hreach cached Hc) as [->|Hv].
    + discriminate.
    + rewrite <- HE, <- HS. apply Hv.
Qed.

Lemma cache_acceptance_rules_witness :
  fst (useCachedData 1700000001000 exampleLongSynced) = true
  /\ fst (validateTimestamps 1700000001000 (Num 1700100000000)
            (Num 1700000000000) exampleLongSynced) = true.
Proof.
  split; [reflexivity|].
  destruct (proj2 (cache_acceptance_rules 1700000001000 exampleLongSynced)
              eq_refl)
    as (cached & E & S & C & Hc & HE & HS & HC & _ & _ & _ & Hv).
  injection Hc as <-. injection HE as <-. injection HS as <-.
  apply Hv.
  apply (reach_sync true [exampleLongAnswer] 1700000000100 (initial None)).
  - apply reach_initial.
  - vm_compute. reflexivity.
Defined.
